(** * Ozon seller-API harvesting scripts: a shallow embedding

    The four scripts ([stock_ozon.py], [fbo_clusters.py],
    [export_products_ozon.py], [ozon_product_info.py]) are embedded as Rocq
    functions over a tagged model of parsed JSON.  Network calls, sleeps and
    file writes are threaded through an explicit [world]; Python exceptions
    are the [Raise] branch of [result].

    Text is modelled by [string] (a sequence of bytes); the character tests
    of Python ([isspace], [isdigit], [lower]) are modelled on the ASCII
    range, bytes above 127 being neither blank, nor digit, nor cased. *)

From Stdlib Require Import ZArith String Ascii Floats DecimalString DecimalZ DecimalPos.
From stdpp Require Import gmap strings list sorting.

Local Open Scope string_scope.
Local Open Scope list_scope.
Local Open Scope Z_scope.

(** ** Parsed JSON, as [resp.json()] yields it *)

#[local] Set Warnings "-register-all".

Inductive value : Type :=
| VNone
| VBool (b : bool)
| VInt (z : Z)
| VFloat (f : float)
| VStr (s : string)
| VList (l : list value)
| VDict (kvs : list (string * value)).

(** A Python [dict] is kept as its items in insertion order. *)
Abbreviation dict := (list (string * value)).

Section value_induction.
Variable P : value → Prop.
Hypothesis PNone : P VNone.
Hypothesis PBool : ∀ b, P (VBool b).
Hypothesis PInt : ∀ z, P (VInt z).
Hypothesis PFloat : ∀ f, P (VFloat f).
Hypothesis PStr : ∀ s, P (VStr s).
Hypothesis PList : ∀ l, Forall P l → P (VList l).
Hypothesis PDict : ∀ kvs, Forall (λ kv, P kv.2) kvs → P (VDict kvs).

Fixpoint value_nested_ind (v : value) : P v :=
  match v with
  | VNone => PNone
  | VBool b => PBool b
  | VInt z => PInt z
  | VFloat f => PFloat f
  | VStr s => PStr s
  | VList l =>
      PList l ((fix go (l : list value) : Forall P l :=
                  match l with
                  | [] => Forall_nil_2 P
                  | x :: r => Forall_cons_2 P x r (value_nested_ind x) (go r)
                  end) l)
  | VDict kvs =>
      PDict kvs ((fix go (kvs : dict) : Forall (λ kv, P kv.2) kvs :=
                    match kvs with
                    | [] => Forall_nil_2 _
                    | kv :: r => Forall_cons_2 _ kv r (value_nested_ind kv.2) (go r)
                    end) kvs)
  end.
End value_induction.

(** ** Exceptions and results *)

Inductive exn : Type :=
| HttpError (status : Z) (path : string) (data : value)
    (* RuntimeError(f"HTTP {resp.status_code} {path}: {data}") *)
| RetriesExhausted (path : string) (retries : nat)
    (* RuntimeError(f"... {path} ... {retries} ...") *)
| ClustersNotFound
| AttributeError
| TypeError
| ValueError
| OverflowError
| RequestException.   (* raised by requests.post itself *)

(** [OutOfFuel] is not a Python outcome: it marks a [while True] loop that
    the model stopped unrolling. *)
Inductive result (A : Type) : Type :=
| Ok (a : A)
| Raise (e : exn)
| OutOfFuel.
Arguments Ok {A} a.
Arguments Raise {A} e.
Arguments OutOfFuel {A}.

(** ** Python text primitives *)

Module Py.

(** [str.isspace] on the ASCII range. *)
Definition is_space (c : ascii) : bool :=
  let n := N_of_ascii c in
  ((9 <=? n) && (n <=? 13) || (28 <=? n) && (n <=? 32))%N.

Definition is_digit (c : ascii) : bool :=
  let n := N_of_ascii c in ((48 <=? n) && (n <=? 57))%N.

(** The blanks that [int()] skips around an ASCII numeral: those of C's
    [isspace], which leave out the four separators 28 to 31. *)
Definition is_c_space (c : ascii) : bool :=
  let n := N_of_ascii c in
  ((9 <=? n) && (n <=? 13) || (n =? 32))%N.

Fixpoint lstrip_by (blank : ascii → bool) (s : string) : string :=
  match s with
  | String c r => if blank c then lstrip_by blank r else s
  | EmptyString => EmptyString
  end.

Fixpoint rstrip_by (blank : ascii → bool) (s : string) : string :=
  match s with
  | String c r =>
      match rstrip_by blank r with
      | EmptyString => if blank c then EmptyString else String c EmptyString
      | r' => String c r'
      end
  | EmptyString => EmptyString
  end.

(** Text is kept as its UTF-8 bytes.  [str.isspace] holds of 19 characters
    beyond the ASCII range, of two or three bytes each: U+0085 and U+00A0;
    U+1680, U+2000 to U+200A, U+2028, U+2029, U+202F, U+205F and U+3000. *)
Definition is_space2 (a b : ascii) : bool :=
  let '(a, b) := (N_of_ascii a, N_of_ascii b) in
  ((a =? 194) && ((b =? 133) || (b =? 160)))%N.

Definition is_space3 (a b c : ascii) : bool :=
  let '(a, b, c) := (N_of_ascii a, N_of_ascii b, N_of_ascii c) in
  ((a =? 225) && (b =? 154) && (c =? 128)
   || (a =? 226) && (b =? 128)
      && ((128 <=? c) && (c <=? 138) || (c =? 168) || (c =? 169) || (c =? 175))
   || (a =? 226) && (b =? 129) && (c =? 159)
   || (a =? 227) && (b =? 128) && (c =? 128))%N.

(** [s] is one blank character. *)
Definition is_blank_char (s : string) : bool :=
  match s with
  | String a EmptyString => is_space a
  | String a (String b EmptyString) => is_space2 a b
  | String a (String b (String c EmptyString)) => is_space3 a b c
  | _ => false
  end.

Fixpoint lstrip (s : string) : string :=
  match s with
  | String a r =>
      if is_space a then lstrip r
      else
        match r with
        | String b r' =>
            if is_space2 a b then lstrip r'
            else
              match r' with
              | String c r'' => if is_space3 a b c then lstrip r'' else s
              | EmptyString => s
              end
        | EmptyString => s
        end
  | EmptyString => EmptyString
  end.

(** What is left of the blanks that end [s] is, at each byte, either
    nothing or the bytes of a character that is no blank. *)
Fixpoint rstrip (s : string) : string :=
  match s with
  | String c r =>
      let kept := String c (rstrip r) in
      if is_blank_char kept then EmptyString else kept
  | EmptyString => EmptyString
  end.

(** [str.strip()] *)
Definition strip (s : string) : string := rstrip (lstrip s).

(** [str.isascii()] *)
Fixpoint is_ascii (s : string) : bool :=
  match s with
  | String c r => (N_of_ascii c <? 128)%N && is_ascii r
  | EmptyString => true
  end.

Fixpoint all_digits (s : string) : bool :=
  match s with
  | String c r => is_digit c && all_digits r
  | EmptyString => true
  end.

(** [str.isdigit] on ASCII text: non-empty and made of digits only. *)
Definition isdigit (s : string) : bool :=
  match s with
  | EmptyString => false
  | _ => all_digits s
  end.

Definition lower_char (c : ascii) : ascii :=
  let n := N_of_ascii c in
  if ((65 <=? n) && (n <=? 90))%N then ascii_of_N (n + 32) else c.

Fixpoint lower (s : string) : string :=
  match s with
  | String c r => String (lower_char c) (lower r)
  | EmptyString => EmptyString
  end.

(** [sub in s] for strings. *)
Fixpoint contains (sub s : string) : bool :=
  String.prefix sub s ||
  match s with
  | String _ r => contains sub r
  | EmptyString => false
  end.

(** [int(s)] on a string that passed [isdigit]. *)
Definition int_of_digits (s : string) : option Z :=
  Z.of_uint <$> NilEmpty.uint_of_string s.

(** Digit groups separated by single underscores, as [int()] accepts them. *)
Fixpoint drop_underscores (after_digit : bool) (s : string) : option string :=
  match s with
  | EmptyString => if after_digit then Some EmptyString else None
  | String c r =>
      if is_digit c then String c <$> drop_underscores true r
      else if Ascii.eqb c "_" then
             if after_digit then drop_underscores false r else None
           else None
  end.

Definition nat_literal (s : string) : option Z :=
  drop_underscores false s ≫= int_of_digits.

(** [int(s)] on ASCII text: blanks stripped, optional sign. *)
Definition int_of_str (s : string) : option Z :=
  match rstrip_by is_c_space (lstrip_by is_c_space s) with
  | String "-" r => Z.opp <$> nat_literal r
  | String "+" r => nat_literal r
  | s' => nat_literal s'
  end.

(** [int(f)]: truncation towards zero; [nan] and the infinities raise. *)
Definition int_of_float (f : float) : option Z :=
  match Prim2SF f with
  | S754_zero _ => Some 0
  | S754_finite s m e =>
      let a := if (0 <=? e) then Z.pos m * 2 ^ e else Z.pos m / 2 ^ (- e) in
      Some (if s then - a else a)
  | _ => None
  end.

(** [float(n)] on an integer: nearest double, [OverflowError] when it
    would be infinite. *)
Definition float_of_int (z : Z) : option float :=
  let f := SF2Prim (binary_normalize prec emax z 0 false) in
  if PrimFloat.is_infinity f then None else Some f.

Definition str_of_int (z : Z) : string := NilZero.string_of_int (Z.to_int z).

End Py.

(** ** Text beyond ASCII

    Which characters are digits, and which of them [int()] reads, is
    settled by the Unicode tables of the interpreter: these two builtins
    are taken as given on text that is not ASCII, and modelled on ASCII
    text.  Numerals are read whatever their length (the bound that CPython
    3.11 puts on it, 4300 digits unless configured otherwise, is left out:
    with it [str()] of a longer integer raises as well). *)

Class PyText : Type := {
  (** [s.isdigit()] on text that is not ASCII *)
  text_isdigit : string → bool;
  (** [int(s)] on text that is not ASCII; [None] when it raises
      [ValueError] *)
  text_int : string → option Z;
}.

Section Python.
Context {py_text : PyText}.

(** Python's [repr] of floats, lists and dicts, and [float(s)] on text:
    builtins of the interpreter, taken as parameters. *)
Variable py_repr : value → string.
Variable float_of_str : string → option float.

(** [s.isdigit()] *)
Definition py_isdigit (s : string) : bool :=
  if Py.is_ascii s then Py.isdigit s else text_isdigit s.

(** [int(s)] on text; [None] when it raises [ValueError]. *)
Definition py_int_of_str (s : string) : option Z :=
  if Py.is_ascii s then Py.int_of_str s else text_int s.

(** [str(v)] *)
Definition py_str (v : value) : string :=
  match v with
  | VNone => "None"
  | VBool true => "True"
  | VBool false => "False"
  | VInt z => Py.str_of_int z
  | VStr s => s
  | _ => py_repr v
  end.

(** Truth value of [v], as [if v], [not v], [v or d] test it. *)
Definition truthy (v : value) : bool :=
  match v with
  | VNone => false
  | VBool b => b
  | VInt z => negb (z =? 0)
  | VFloat f => negb (PrimFloat.eqb f 0%float)
  | VStr s => negb (String.eqb s "")
  | VList l => match l with [] => false | _ => true end
  | VDict kvs => match kvs with [] => false | _ => true end
  end.

(** [a or b] *)
Definition py_or (a b : value) : value := if truthy a then a else b.

Definition is_none (v : value) : bool :=
  match v with VNone => true | _ => false end.
Definition is_dict (v : value) : bool :=
  match v with VDict _ => true | _ => false end.
Definition is_list (v : value) : bool :=
  match v with VList _ => true | _ => false end.

(** [k in d] and [d[k]] *)
Fixpoint lookup_key (k : string) (d : dict) : option value :=
  match d with
  | [] => None
  | (k', v) :: r => if String.eqb k k' then Some v else lookup_key k r
  end.

(** [d.get(k)] *)
Definition get (d : dict) (k : string) : value :=
  default VNone (lookup_key k d).

(** [v.get(k)] on a value of unknown type: only a dict has the method. *)
Definition get_attr (v : value) (k : string) : result value :=
  match v with
  | VDict d => Ok (get d k)
  | _ => Raise AttributeError
  end.

(** [int(v)] *)
Definition py_int (v : value) : result Z :=
  match v with
  | VBool b => Ok (if b then 1 else 0)
  | VInt z => Ok z
  | VFloat f =>
      match Py.int_of_float f with
      | Some z => Ok z
      | None => Raise (if PrimFloat.is_nan f then ValueError else OverflowError)
      end
  | VStr s => match py_int_of_str s with Some z => Ok z | None => Raise ValueError end
  | _ => Raise TypeError
  end.

(** [float(v)] *)
Definition py_float (v : value) : result float :=
  match v with
  | VBool b => Ok (if b then 1%float else 0%float)
  | VInt z => match Py.float_of_int z with Some f => Ok f | None => Raise OverflowError end
  | VFloat f => Ok f
  | VStr s => match float_of_str s with Some f => Ok f | None => Raise ValueError end
  | _ => Raise TypeError
  end.

(** [for x in v]: what the iteration yields, [TypeError] when [v] is not
    iterable. *)
Definition py_iter (v : value) : result (list value) :=
  match v with
  | VList l => Ok l
  | VDict d => Ok (VStr <$> d.*1)
  | VStr s => Ok ((λ c, VStr (String c EmptyString)) <$> list_ascii_of_string s)
  | _ => Raise TypeError
  end.

(** [isinstance(x, list) and (len(x) == 0 or all(isinstance(i, dict) for i in x))] *)
Definition all_dicts (l : list value) : bool := forallb is_dict l.

(** [[x for x in l if isinstance(x, dict)]] *)
Definition only_dicts (l : list value) : list dict :=
  omap (λ x, match x with VDict d => Some d | _ => None end) l.

End Python.

(** ** The outside world: HTTP server, clock, file system *)

Record response : Type := {
  status_code : Z;
  json_body : option value;   (* [resp.json()], [None] when it raises *)
  text : string;              (* [resp.text] *)
}.

(** [resp.ok] of the requests library: no 4xx or 5xx status. *)
Definition resp_ok (r : response) : bool :=
  negb ((400 <=? status_code r) && (status_code r <? 600)).

Inductive attempt : Type :=
| Unreachable            (* requests.post raises *)
| Replies (r : response).

Record world : Type := {
  net : nat → attempt;             (* what the server does on the n-th call *)
  calls : nat;                     (* number of requests.post made so far *)
  sent : list (string * value);    (* (path, payload) of each call, latest first *)
  slept : list Z;                  (* time.sleep durations, latest first *)
  files : gmap string string;      (* files on disk *)
}.

Definition M (A : Type) : Type := world → result A * world.

Definition raise {A} (e : exn) : M A := λ w, (Raise e, w).
Definition out_of_fuel {A} : M A := λ w, (OutOfFuel, w).
(** A pure computation that may raise, run inside [M]. *)
Definition lift {A} (r : result A) : M A := λ w, (r, w).

#[global] Instance M_ret : MRet M := λ A a w, (Ok a, w).
#[global] Instance M_bind : MBind M := λ A B k m w,
  match m w with
  | (Ok a, w') => k a w'
  | (Raise e, w') => (Raise e, w')
  | (OutOfFuel, w') => (OutOfFuel, w')
  end.

(** [try: m  except Exception: h] *)
Definition try_except {A} (m : M A) (h : M A) : M A :=
  λ w, match m w with
       | (Raise _, w') => h w'
       | other => other
       end.

Definition requests_post (path : string) (payload : value) : M response :=
  λ w,
    let w' := {| net := net w; calls := S (calls w);
                 sent := (path, payload) :: sent w;
                 slept := slept w; files := files w |} in
    match net w (calls w) with
    | Unreachable => (Raise RequestException, w')
    | Replies r => (Ok r, w')
    end.

Definition time_sleep (d : Z) : M unit :=
  λ w, (Ok tt, {| net := net w; calls := calls w; sent := sent w;
                  slept := d :: slept w; files := files w |}).

(** [open(path, "w")]: the file is created or truncated. *)
Definition file_open_w (path : string) : M unit :=
  λ w, (Ok tt, {| net := net w; calls := calls w; sent := sent w;
                  slept := slept w; files := <[path := ""]> (files w) |}).

(** [f.write(s)] on the file opened at [path]. *)
Definition file_write (path : string) (s : string) : M unit :=
  λ w, (Ok tt, {| net := net w; calls := calls w; sent := sent w;
                  slept := slept w;
                  files := <[path := default "" (files w !! path) +:+ s]> (files w) |}).

(** ** The request client, [post_ozon] (the same in the four scripts) *)

Definition transient (status : Z) : bool :=
  (status =? 429) || (status =? 500) || (status =? 502) ||
  (status =? 503) || (status =? 504).

(** [backoff] holds 1.0, 2.0, 4.0, 8.0, 16.0 and then 30: integers all. *)
Definition next_backoff (backoff : Z) : Z := Z.min (backoff * 2) 30.

(** [resp.json()], or [resp.text] when that raises. *)
Definition body_data (r : response) : value :=
  match json_body r with
  | Some v => v
  | None => VStr (text r)
  end.

Fixpoint post_attempts (path : string) (payload : value) (retries : nat)
    (left : nat) (backoff : Z) : M value :=
  match left with
  | O => raise (RetriesExhausted path retries)
  | S left' =>
      resp ← requests_post path payload;
      if transient (status_code resp) then
        _ ← time_sleep backoff;
        post_attempts path payload retries left' (next_backoff backoff)
      else
        let data := body_data resp in
        if negb (resp_ok resp) then
          raise (HttpError (status_code resp) path data)
        else mret data
  end.

Definition post_ozon (path : string) (payload : value) (retries : nat) : M value :=
  post_attempts path payload retries retries 1.

(** ** [chunked] *)

(** [range(0, len, n)] for a positive step. *)
Definition range_step (len n : nat) : list nat :=
  (λ j, j * n)%nat <$> seq 0 ((len + n - 1) / n)%nat.

Definition chunked {A} (lst : list A) (n : Z) : result (list (list A)) :=
  if n =? 0 then Raise ValueError          (* range() arg 3 must not be zero *)
  else if n <? 0 then Ok []                (* an empty range *)
  else
    let k := Z.to_nat n in
    Ok ((λ i, take k (drop i lst)) <$> range_step (length lst) k).

(** ** [json.dumps(obj, ensure_ascii=False)] and [json.dump(..., indent=2)] *)

Module Json.

Definition dquote : string := String "034"%char EmptyString.

Definition hex_digit (n : N) : ascii :=
  default "0"%char (list_ascii_of_string "0123456789abcdef" !! N.to_nat n).

(** The encoder's escape table: quote, backslash and the control characters. *)
Definition escape_char (c : ascii) : string :=
  let n := N_of_ascii c in
  if (n =? 34)%N then "\" +:+ dquote
  else if (n =? 92)%N then "\\"
  else if (n =? 8)%N then "\b"
  else if (n =? 9)%N then "\t"
  else if (n =? 10)%N then "\n"
  else if (n =? 12)%N then "\f"
  else if (n =? 13)%N then "\r"
  else if (n <? 32)%N then
         "\u00" +:+ String (hex_digit (n / 16)) (String (hex_digit (n mod 16)) EmptyString)
       else String c EmptyString.

Fixpoint escape (s : string) : string :=
  match s with
  | String c r => escape_char c +:+ escape r
  | EmptyString => EmptyString
  end.

Definition quoted (s : string) : string := dquote +:+ escape s +:+ dquote.

Fixpoint join (sep : string) (parts : list string) : string :=
  match parts with
  | [] => EmptyString
  | [x] => x
  | x :: r => x +:+ sep +:+ join sep r
  end.

Definition newline : string := String "010"%char EmptyString.

Fixpoint spaces (n : nat) : string :=
  match n with
  | O => EmptyString
  | S n' => String " "%char (spaces n')
  end.

(** Line break and indentation in front of an item at nesting [level]; empty
    in the compact form. *)
Definition break (indent : option nat) (level : nat) : string :=
  match indent with
  | Some k => newline +:+ spaces (k * level)
  | None => EmptyString
  end.

Definition item_separator (indent : option nat) (level : nat) : string :=
  match indent with
  | Some _ => "," +:+ break indent level
  | None => ", "
  end.

Section encode.
Variable py_repr : value → string.

Definition encode_float (f : float) : string :=
  if PrimFloat.is_nan f then "NaN"
  else if PrimFloat.is_infinity f then
         (if PrimFloat.ltb f 0%float then "-Infinity" else "Infinity")
       else py_repr (VFloat f).

Fixpoint encode (indent : option nat) (level : nat) (v : value) : string :=
  match v with
  | VNone => "null"
  | VBool true => "true"
  | VBool false => "false"
  | VInt z => Py.str_of_int z
  | VFloat f => encode_float f
  | VStr s => quoted s
  | VList [] => "[]"
  | VList l =>
      "[" +:+ break indent (S level)
      +:+ join (item_separator indent (S level)) (List.map (encode indent (S level)) l)
      +:+ break indent level +:+ "]"
  | VDict [] => "{}"
  | VDict kvs =>
      "{" +:+ break indent (S level)
      +:+ join (item_separator indent (S level))
            (List.map (λ kv, quoted (fst kv) +:+ ": " +:+ encode indent (S level) (snd kv)) kvs)
      +:+ break indent level +:+ "}"
  end.

(** [json.dumps(obj, ensure_ascii=False)] *)
Definition dumps (obj : value) : string := encode None 0 obj.

(** The text [json.dump(obj, f, ensure_ascii=False, indent=2)] writes. *)
Definition dump_indent2 (obj : value) : string := encode (Some 2%nat) 0 obj.

End encode.
End Json.

#[global] Instance result_ret : MRet result := λ A a, Ok a.
#[global] Instance result_bind : MBind result := λ A B k r,
  match r with
  | Ok a => k a
  | Raise e => Raise e
  | OutOfFuel => OutOfFuel
  end.

(** A [for] loop over [l] that threads an accumulator and may raise. *)
Fixpoint foldl_result {A B} (f : A → B → result A) (a : A) (l : list B) : result A :=
  match l with
  | [] => Ok a
  | x :: r => a' ← f a x; foldl_result f a' r
  end.

(** * stock_ozon.py *)

Module StockOzon.
Section defs.
Context {py_text : PyText}.
Variable py_repr : value → string.
Abbreviation str := (py_str py_repr).

Definition default_retries : nat := 6.

Definition product_list_payload (last_id : string) : value :=
  VDict [("filter", VDict [("visibility", VStr "ALL")]);
         ("last_id", VStr last_id);
         ("limit", VInt 1000)].

(** The body of [for it in items] in [get_all_product_ids]. *)
Definition append_product_id (product_ids : list string) (it : value)
  : result (list string) :=
  pid ← get_attr it "product_id";
  Ok (if is_none pid then product_ids else product_ids ++ [str pid]).

(** One unrolling of [while True] per unit of [fuel]. *)
Fixpoint product_ids_loop (fuel : nat) (last_id : string)
    (product_ids : list string) : M (list string) :=
  match fuel with
  | O => out_of_fuel
  | S fuel' =>
      data ← post_ozon "/v3/product/list" (product_list_payload last_id) default_retries;
      result0 ← lift (get_attr (py_or data (VDict [])) "result");
      let result := py_or result0 (VDict []) in
      items0 ← lift (get_attr result "items");
      let items := py_or items0 (VList []) in
      if negb (truthy items) then mret product_ids
      else
        product_ids' ← lift (its ← py_iter items;
                             foldl_result append_product_id product_ids its);
        last0 ← lift (get_attr result "last_id");
        let last_id' := str (py_or last0 (VStr "")) in
        if negb (truthy (VStr last_id')) then mret product_ids'
        else product_ids_loop fuel' last_id' product_ids'
  end.

Definition get_all_product_ids (fuel : nat) : M (list string) :=
  product_ids_loop fuel "" [].

Definition extract_attributes_items (data : value) : list dict :=
  match data with
  | VDict d =>
      match get d "result" with
      | VList r => only_dicts r
      | r =>
          match (match r with
                 | VDict rd => match get rd "items" with VList l => Some l | _ => None end
                 | _ => None
                 end) with
          | Some l => only_dicts l
          | None => match get d "items" with VList l => only_dicts l | _ => [] end
          end
      end
  | VList l => only_dicts l
  | _ => []
  end.

(** [int(s)] raises [ValueError] on text that passes [isdigit] and is no
    decimal numeral (a superscript digit), or that is too long. *)
Definition normalize_sku (v : value) : result (option Z) :=
  if is_none v then Ok None
  else
    let s := Py.strip (str v) in
    if negb (py_isdigit s) then Ok None
    else
      match py_int_of_str s with
      | Some n => Ok (if 0 <? n then Some n else None)
      | None => Raise ValueError
      end.

Definition extract_sku_from_item (it : dict) : result (option Z) :=
  by_sku ← normalize_sku (get it "sku");
  match by_sku with
  | Some n => Ok (Some n)
  | None =>
      by_sku_id ← normalize_sku (get it "sku_id");
      match by_sku_id with
      | Some n => Ok (Some n)
      | None =>
          match get it "skus" with
          | VList (v0 :: _) => normalize_sku v0
          | _ => Ok None
          end
      end
  end.

Definition attributes_payload (batch : list string) : value :=
  VDict [("filter", VDict [("product_id", VList (VStr <$> batch));
                           ("visibility", VStr "ALL")]);
         ("limit", VInt (Z.of_nat (length batch)));
         ("sort_dir", VStr "ASC")].

(** [sku_meta.setdefault(sku, {...})] for one attribute record. *)
Definition add_sku_meta (sku_meta : gmap Z dict) (it : dict)
  : result (gmap Z dict) :=
  derived ← extract_sku_from_item it;
  Ok match derived with
     | None => sku_meta
     | Some sku =>
         match sku_meta !! sku with
         | Some _ => sku_meta
         | None =>
             <[sku := [("name", get it "name"); ("offer_id", get it "offer_id")]]> sku_meta
         end
     end.

Fixpoint sku_meta_batches (batches : list (list string)) (sku_meta : gmap Z dict)
  : M (gmap Z dict) :=
  match batches with
  | [] => mret sku_meta
  | batch :: rest =>
      data ← post_ozon "/v4/product/info/attributes" (attributes_payload batch)
               default_retries;
      sku_meta' ← lift (foldl_result add_sku_meta sku_meta
                          (extract_attributes_items data));
      sku_meta_batches rest sku_meta'
  end.

Definition get_sku_meta_by_product_ids (product_ids : list string) : M (gmap Z dict) :=
  batches ← lift (chunked product_ids 1000);
  sku_meta_batches batches ∅.

Definition get_stocks_for_skus (skus : list Z) : M (list value) :=
  data ← post_ozon "/v1/analytics/stocks"
           (VDict [("skus", VList ((λ s, VStr (Py.str_of_int s)) <$> skus))])
           default_retries;
  mret (match data with
        | VDict d => match get d "items" with VList l => l | _ => [] end
        | _ => []
        end).

Definition compact_row (row fallback_meta : dict) : result dict :=
  available ← py_int (py_or (get row "available_stock_count") (VInt 0));
  valid ← py_int (py_or (get row "valid_stock_count") (VInt 0));
  Ok [("sku", get row "sku");
      ("name", py_or (get row "name") (get fallback_meta "name"));
      ("offer_id", py_or (get row "offer_id") (get fallback_meta "offer_id"));
      ("warehouse_id", get row "warehouse_id");
      ("warehouse_name", get row "warehouse_name");
      ("cluster_id", get row "cluster_id");
      ("cluster_name", get row "cluster_name");
      ("stock", VInt (available + valid))].

(** [{s: [] for s in sku_batch}] *)
Definition init_grouped (sku_batch : list Z) : gmap Z (list value) :=
  list_to_map ((λ s, (s, [])) <$> sku_batch).

(** The body of [for row in items]. *)
Definition group_row (sku_meta : gmap Z dict) (grouped : gmap Z (list value))
    (row : value) : result (gmap Z (list value)) :=
  sku_val ← get_attr row "sku";
  if is_none sku_val then Ok grouped
  else
    match py_int sku_val with
    | Ok sku_int =>
        let grouped' :=
          match grouped !! sku_int with
          | Some _ => grouped
          | None => <[sku_int := []]> grouped
          end in
        match row with
        | VDict d =>
            r ← compact_row d (default [] (sku_meta !! sku_int));
            Ok (<[sku_int := default [] (grouped' !! sku_int) ++ [VDict r]]> grouped')
        | _ => Raise AttributeError
        end
    | _ => Ok grouped    (* except Exception: continue *)
    end.

Definition sku_object (grouped : gmap Z (list value)) (s : Z) : value :=
  VDict [("sku", VStr (Py.str_of_int s));
         ("items", VList (default [] (grouped !! s)))].

(** The loop [for s in sku_batch] that writes one object per SKU; the
    result is the flag [first_sku_obj]. *)
Fixpoint write_sku_objects (out_path : string) (grouped : gmap Z (list value))
    (sku_batch : list Z) (first_sku_obj : bool) : M bool :=
  match sku_batch with
  | [] => mret first_sku_obj
  | s :: rest =>
      _ ← (if first_sku_obj then mret tt
           else file_write out_path ("," +:+ Json.newline));
      _ ← file_write out_path ("  " +:+ Json.dumps py_repr (sku_object grouped s));
      write_sku_objects out_path grouped rest false
  end.

(** The body of [for idx, sku_batch in enumerate(chunked(skus, chunk_size))]. *)
Definition export_batch (out_path : string) (sku_meta : gmap Z dict)
    (sku_batch : list Z) (first_sku_obj : bool) : M bool :=
  items ← get_stocks_for_skus sku_batch;
  grouped ← lift (foldl_result (group_row sku_meta) (init_grouped sku_batch) items);
  write_sku_objects out_path grouped sku_batch first_sku_obj.

Fixpoint export_batches (out_path : string) (sku_meta : gmap Z dict)
    (batches : list (list Z)) (first_sku_obj : bool) : M bool :=
  match batches with
  | [] => mret first_sku_obj
  | sku_batch :: rest =>
      first' ← export_batch out_path sku_meta sku_batch first_sku_obj;
      export_batches out_path sku_meta rest first'
  end.

(** [sorted(sku_meta.keys())] *)
Definition sorted_keys (sku_meta : gmap Z dict) : list Z :=
  merge_sort Z.le (map_to_list sku_meta).*1.

Definition export_stocks_compact (fuel : nat) (out_path : string) (chunk_size : Z)
  : M unit :=
  product_ids ← get_all_product_ids fuel;
  sku_meta ← get_sku_meta_by_product_ids product_ids;
  let skus := sorted_keys sku_meta in
  _ ← file_open_w out_path;
  _ ← file_write out_path ("[" +:+ Json.newline);
  batches ← lift (chunked skus chunk_size);
  _ ← export_batches out_path sku_meta batches true;
  file_write out_path (Json.newline +:+ "]" +:+ Json.newline).

End defs.
End StockOzon.

(** * fbo_clusters.py *)

Module FboClusters.
Section defs.
Context {py_text : PyText}.
Variable py_repr : value → string.
Abbreviation str := (py_str py_repr).

Definition default_retries : nat := 6.

Definition dump_json (path : string) (obj : value) : M unit :=
  _ ← file_open_w path;
  file_write path (Json.dump_indent2 py_repr obj).

Definition _is_list_of_dicts (x : value) : bool :=
  match x with
  | VList l => all_dicts l
  | _ => false
  end.

Definition priority_keys : list string := ["clusters"; "items"; "result"; "data"].

(** [f"{path}.{k}" if path else k] *)
Definition child_path (path k : string) : string :=
  if String.eqb path "" then k else path +:+ "." +:+ k.

(** [f"{path}[{i}]"] *)
Definition index_path (path : string) (i : nat) : string :=
  path +:+ "[" +:+ Py.str_of_int (Z.of_nat i) +:+ "]".

(** The pair of nonlocals [(best, best_path)] of [find_best_list_of_dicts]. *)
Definition best_state : Type := list value * string.

(** [if len(cand) > len(best): best = cand; best_path = ...] *)
Definition consider (cand : list value) (cand_path : string) (st : best_state)
  : best_state :=
  if (length st.1 <? length cand)%nat then (cand, cand_path) else st.

(** The body of [for k in priority_keys] at the dict [node]. *)
Definition check_priority_key (node : dict) (path : string) (st : best_state)
    (k : string) : best_state :=
  match lookup_key k node with
  | Some (VList cand) =>
      if all_dicts cand then consider cand (child_path path k) st else st
  | _ => st
  end.

Fixpoint walk (node : value) (path : string) (st : best_state) : best_state :=
  match node with
  | VDict d =>
      let st1 := foldl (check_priority_key d path) st priority_keys in
      (fix children (kvs : dict) (st : best_state) : best_state :=
         match kvs with
         | [] => st
         | kv :: r => children r (walk (snd kv) (child_path path (fst kv)) st)
         end) d st1
  | VList l =>
      if all_dicts l then
        consider l (if String.eqb path "" then "<root_list>" else path) st
      else
        (fix elements (l : list value) (i : nat) (st : best_state) : best_state :=
           match l with
           | [] => st
           | v :: r => elements r (S i) (walk v (index_path path i) st)
           end) l O st
  | _ => st
  end.

Definition find_best_list_of_dicts (obj : value) : list value * string :=
  walk obj "" ([], "").

(** [d[k] not in (None, "", [])] negated *)
Definition is_blank (v : value) : bool :=
  match v with
  | VNone => true
  | VStr s => String.eqb s ""
  | VList [] => true
  | _ => false
  end.

(** [pick(d, *keys)]; Python's [None] is [None] here: a picked value never
    is [VNone]. *)
Fixpoint pick (d : dict) (keys : list string) : option value :=
  match keys with
  | [] => None
  | k :: r =>
      match lookup_key k d with
      | Some v => if is_blank v then pick d r else Some v
      | None => pick d r
      end
  end.

Definition extract_clusters : M (list dict) :=
  data ← post_ozon "/v1/cluster/list"
           (VDict [("cluster_type", VStr "CLUSTER_TYPE_OZON")]) default_retries;
  _ ← dump_json "ozon_cluster_list_raw.json" data;
  let '(clusters, path) := find_best_list_of_dicts data in
  if negb (truthy (VList clusters)) then raise ClustersNotFound
  else
    _ ← dump_json "ozon_clusters_extracted.json"
          (VDict [("extracted_from", VStr path);
                  ("clusters_count", VInt (Z.of_nat (length clusters)))]);
    mret (only_dicts clusters).

Definition extract_list_any (data : value) : list dict :=
  match data with
  | VList l => only_dicts l
  | VDict d =>
      let from_items :=
        match get d "items" with VList l => only_dicts l | _ => [] end in
      match get d "result" with
      | VList r => only_dicts r
      | VDict rd =>
          match get rd "items" with
          | VList l => only_dicts l
          | _ =>
              match list_find _is_list_of_dicts rd.*2 with
              | Some (_, VList v) => only_dicts v
              | _ => from_items
              end
          end
      | _ => from_items
      end
  | _ => []
  end.

(** The body of [for w in rows] in [get_fbo_warehouse_map]. *)
Definition add_warehouse_name (mp : gmap string string) (w : dict)
  : gmap string string :=
  match pick w ["warehouse_id"; "id"], pick w ["name"; "warehouse_name"; "title"] with
  | Some wid, Some nm => if truthy nm then <[str wid := str nm]> mp else mp
  | _, _ => mp
  end.

Definition get_fbo_warehouse_map : M (gmap string string) :=
  try_except
    (data ← post_ozon "/v1/warehouse/fbo/list"
              (VDict [("filter_by_supply_type", VList [VStr "DIRECT"; VStr "CROSSDOCK"]);
                      ("limit", VInt 1000); ("offset", VInt 0)]) default_retries;
     mret (foldl add_warehouse_name ∅ (extract_list_any data)))
    (mret ∅).

(** A warehouse reference [(warehouse_id, warehouse_name)]. *)
Definition warehouse_ref : Type := option string * option string.

Definition ref_of_record (w : dict) : warehouse_ref :=
  (str <$> pick w ["warehouse_id"; "id"; "warehouseId"],
   str <$> pick w ["name"; "warehouse_name"; "title"; "warehouseName"]).

(** [isinstance(x, (int, str))]; [bool] is a subclass of [int]. *)
Definition is_int_or_str (x : value) : bool :=
  match x with
  | VInt _ | VBool _ | VStr _ => true
  | _ => false
  end.

Definition nonempty {A} (l : list A) : bool :=
  match l with [] => false | _ => true end.

(** [add_from_list(lst)]; [walked] is what [for x in lst: walk(x)] appends. *)
Definition add_from_list (lst : list value) (walked : list warehouse_ref)
  : list warehouse_ref :=
  if nonempty lst && all_dicts lst then ref_of_record <$> only_dicts lst
  else if nonempty lst && forallb is_int_or_str lst then
         (λ x, (Some (str x), None)) <$> lst
       else walked.

(** The inner [walk] of [collect_warehouse_refs]; the result is what it
    appends to [out], in order. *)
Fixpoint walk_refs (x : value) : list warehouse_ref :=
  match x with
  | VDict d =>
      (fix items (kvs : dict) : list warehouse_ref :=
         match kvs with
         | [] => []
         | kv :: r =>
             (if Py.contains "warehouse" (Py.lower (fst kv)) then
                match snd kv with
                | VList l =>
                    add_from_list l
                      ((fix each (l : list value) : list warehouse_ref :=
                          match l with
                          | [] => []
                          | y :: r => walk_refs y ++ each r
                          end) l)
                | _ => walk_refs (snd kv)
                end
              else walk_refs (snd kv)) ++ items r
         end) d
  | VList l =>
      (fix each (l : list value) : list warehouse_ref :=
         match l with
         | [] => []
         | y :: r => walk_refs y ++ each r
         end) l
  | _ => []
  end.

Definition collect_warehouse_refs (node : value) : list warehouse_ref :=
  walk_refs node.

(** Loop state of [build_regions]: [(regions, map_cluster_to_region_id, next_id)]. *)
Definition regions_state : Type := list dict * gmap string Z * Z.

Definition region_step (st : regions_state) (c : dict) : result regions_state :=
  let '(regions, map_cluster_to_region_id, next_id) := st in
  match pick c ["cluster_id"; "id"] with
  | None => Ok st
  | Some cid =>
      let cid_s := str cid in
      match map_cluster_to_region_id !! cid_s with
      | Some _ => Ok st
      | None =>
          let name := pick c ["cluster_name"; "name"; "title"] in
          let rid := next_id in
          id_cluster_ozon ← (if py_isdigit (str cid)
                             then (n ← py_int cid; Ok (VInt n))
                             else Ok cid);
          Ok (regions ++ [[("id", VInt rid);
                           ("Регион", default VNone name);
                           ("id_cluster_ozon", id_cluster_ozon)]],
              <[cid_s := rid]> map_cluster_to_region_id,
              next_id + 1)
      end
  end.

Definition build_regions (clusters : list dict) : result (list dict * gmap string Z) :=
  st ← foldl_result region_step ([], ∅, 1) clusters;
  Ok (st.1.1, st.1.2).

Definition opt_str (o : option string) : value :=
  match o with Some s => VStr s | None => VNone end.

(** [not nm] for an [Optional[str]] *)
Definition no_name (nm : option string) : bool :=
  match nm with
  | Some s => String.eqb s ""
  | None => true
  end.

(** The name after the look-up in the warehouse directory. *)
Definition resolve_name (warehouse_map : gmap string string) (r : warehouse_ref)
  : option string :=
  let '(wid, nm) := r in
  if no_name nm then
    match wid with
    | Some w => match warehouse_map !! w with Some n => Some n | None => nm end
    | None => nm
    end
  else nm.

(** [wid or nm] *)
Definition ref_identity (wid : option string) (nm : string) : string :=
  match wid with
  | Some w => if String.eqb w "" then nm else w
  | None => nm
  end.

(** Loop state of [build_warehouses]: [(rows, seen)]. *)
Definition warehouses_state : Type := list dict * gset (Z * string).

(** The body of [for wid, nm in refs]. *)
Definition warehouse_step (warehouse_map : gmap string string) (rid : Z)
    (st : warehouses_state) (r : warehouse_ref) : warehouses_state :=
  let nm := resolve_name warehouse_map r in
  if no_name nm then st
  else
    let name := default "" nm in
    let key := (rid, ref_identity r.1 name) in
    if decide (key ∈ st.2) then st
    else (st.1 ++ [[("id", VNone);
                    ("Склад", VStr name);
                    ("idРегион", VInt rid);
                    ("warehouse_id_ozon", opt_str r.1)]],
          {[key]} ∪ st.2).

(** The body of [for c in clusters]. *)
Definition cluster_step (map_cluster_to_region_id : gmap string Z)
    (warehouse_map : gmap string string) (st : warehouses_state) (c : dict)
  : warehouses_state :=
  match pick c ["cluster_id"; "id"] with
  | None => st
  | Some cid =>
      match map_cluster_to_region_id !! str cid with
      | None => st
      | Some rid =>
          foldl (warehouse_step warehouse_map rid) st (collect_warehouse_refs (VDict c))
      end
  end.

Definition build_warehouses (clusters : list dict)
    (map_cluster_to_region_id : gmap string Z) (warehouse_map : gmap string string)
  : list dict :=
  (foldl (cluster_step map_cluster_to_region_id warehouse_map) ([], ∅) clusters).1.

Definition main : M unit :=
  clusters ← extract_clusters;
  warehouse_map ← get_fbo_warehouse_map;
  '(regions, map_cluster_to_region_id) ← lift (build_regions clusters);
  let warehouses := build_warehouses clusters map_cluster_to_region_id warehouse_map in
  _ ← dump_json "регионы_ozon.json" (VDict [("регион_ozon", VList (VDict <$> regions))]);
  dump_json "склады_ozon.json" (VDict [("склады_ozon", VList (VDict <$> warehouses))]).

End defs.
End FboClusters.

(** * export_products_ozon.py *)

Module ExportProductsOzon.
Section defs.
Context {py_text : PyText}.
Variable py_repr : value → string.
Variable float_of_str : string → option float.
Abbreviation str := (py_str py_repr).

Definition default_retries : nat := 5.

Definition to_float_safe (v : value) : option float :=
  if is_none v then None
  else match py_float float_of_str v with
       | Ok f => Some f
       | _ => None      (* except Exception: return None *)
       end.

Definition opt_float (o : option float) : value :=
  match o with Some f => VFloat f | None => VNone end.

Definition extract_items_from_attributes_response (data : value) : list dict :=
  match data with
  | VDict d =>
      match get d "result" with
      | VList r => only_dicts r
      | r =>
          match (match r with
                 | VDict rd => match get rd "items" with VList l => Some l | _ => None end
                 | _ => None
                 end) with
          | Some l => only_dicts l
          | None => match get d "items" with VList l => only_dicts l | _ => [] end
          end
      end
  | VList l => only_dicts l
  | _ => []
  end.

(** [(dimension_unit or "").lower().strip()]; a truthy value that is no
    string has no [lower]. *)
Definition normal_unit (dimension_unit : value) : result string :=
  match py_or dimension_unit (VStr "") with
  | VStr s => Ok (Py.strip (Py.lower s))
  | _ => Raise AttributeError
  end.

Definition calc_volume_m3 (depth width height dimension_unit : value)
  : result (option float) :=
  match to_float_safe depth, to_float_safe width, to_float_safe height with
  | Some d, Some w, Some h =>
      unit ← normal_unit dimension_unit;
      let v := (d * w * h)%float in
      if String.eqb unit "mm" then Ok (Some (v / 1000000000.0)%float)
      else if String.eqb unit "cm" then Ok (Some (v / 1000000.0)%float)
      else if String.eqb unit "m" then Ok (Some v)
      else Ok (Some v)
  | _, _, _ => Ok None
  end.

Definition product_list_payload (last_id : string) : value :=
  VDict [("filter", VDict [("visibility", VStr "ALL")]);
         ("last_id", VStr last_id);
         ("limit", VInt 1000)].

Definition append_product_id (product_ids : list string) (it : value)
  : result (list string) :=
  pid ← get_attr it "product_id";
  Ok (if is_none pid then product_ids else product_ids ++ [str pid]).

Fixpoint product_ids_loop (fuel : nat) (last_id : string)
    (product_ids : list string) : M (list string) :=
  match fuel with
  | O => out_of_fuel
  | S fuel' =>
      data ← post_ozon "/v3/product/list" (product_list_payload last_id) default_retries;
      if negb (is_dict data) then mret product_ids
      else
        result0 ← lift (get_attr data "result");
        let result := py_or result0 (VDict []) in
        items0 ← lift (get_attr result "items");
        let items := py_or items0 (VList []) in
        if negb (truthy items) then mret product_ids
        else
          product_ids' ← lift (its ← py_iter items;
                               foldl_result append_product_id product_ids its);
          last0 ← lift (get_attr result "last_id");
          let last_id' := str (py_or last0 (VStr "")) in
          if String.eqb last_id' "" then mret product_ids'
          else product_ids_loop fuel' last_id' product_ids'
  end.

Definition get_all_product_ids (fuel : nat) : M (list string) :=
  product_ids_loop fuel "" [].

Definition attributes_payload (batch : list string) : value :=
  VDict [("filter", VDict [("product_id", VList (VStr <$> batch));
                           ("visibility", VStr "ALL")]);
         ("limit", VInt (Z.of_nat (length batch)));
         ("sort_dir", VStr "ASC")].

Fixpoint attributes_batches (batches : list (list string)) (all_items : list dict)
  : M (list dict) :=
  match batches with
  | [] => mret all_items
  | batch :: rest =>
      data ← post_ozon "/v4/product/info/attributes" (attributes_payload batch)
               default_retries;
      attributes_batches rest (all_items ++ extract_items_from_attributes_response data)
  end.

Definition get_attributes_by_product_ids (product_ids : list string) : M (list dict) :=
  batches ← lift (chunked product_ids 1000);
  attributes_batches batches [].

(** The row built for one attribute record in [export_products_to_json]. *)
Definition product_row (item : dict) : result dict :=
  let depth := get item "depth" in
  let width := get item "width" in
  let height := get item "height" in
  let dim_unit := py_or (get item "dimension_unit") (VStr "mm") in
  volume_m3 ← calc_volume_m3 depth width height dim_unit;
  Ok [("id", py_or (get item "id") (get item "product_id"));
      ("sku", get item "sku");
      ("Штрихкод", get item "barcode");
      ("Название", get item "name");
      ("Объем_м3", opt_float volume_m3);
      ("Артикул", get item "offer_id");
      ("Длина упаковки", opt_float (to_float_safe depth));
      ("Ширина упаковки", opt_float (to_float_safe width));
      ("Высота упаковки", opt_float (to_float_safe height));
      ("Размерность", dim_unit);
      ("Вес упаковки", opt_float (to_float_safe (get item "weight")));
      ("Ед.веса", get item "weight_unit");
      ("Категория", get item "description_category_id")].

Definition export_products_to_json (fuel : nat) (out_path : string) : M unit :=
  product_ids ← get_all_product_ids fuel;
  attrs ← get_attributes_by_product_ids product_ids;
  rows ← lift (foldl_result (λ acc item, row ← product_row item; Ok (acc ++ [row]))
                 [] attrs);
  _ ← file_open_w out_path;
  file_write out_path
    (Json.dump_indent2 py_repr (VDict [("товары", VList (VDict <$> rows))])).

End defs.
End ExportProductsOzon.

(** * ozon_product_info.py *)

Module OzonProductInfo.
Section defs.
Context {py_text : PyText}.
Variable py_repr : value → string.
Variable float_of_str : string → option float.
Abbreviation str := (py_str py_repr).

Definition default_retries : nat := 5.

Definition to_int_safe (v : value) : option Z :=
  if is_none v then None
  else match py_int v with
       | Ok n => Some n
       | _ => None      (* except Exception: return None *)
       end.

Definition opt_int (o : option Z) : value :=
  match o with Some n => VInt n | None => VNone end.

Definition normal_unit (unit : value) : result string :=
  match py_or unit (VStr "") with
  | VStr s => Ok (Py.strip (Py.lower s))
  | _ => Raise AttributeError
  end.

Definition calc_volume (depth width height unit : value) : result (option float) :=
  match py_float float_of_str depth, py_float float_of_str width,
        py_float float_of_str height with
  | Ok d, Ok w, Ok h =>
      u ← normal_unit unit;
      let v := (d * w * h)%float in
      if String.eqb u "mm" then Ok (Some (v / 1000000000.0)%float)
      else if String.eqb u "cm" then Ok (Some (v / 1000000.0)%float)
      else if String.eqb u "m" then Ok (Some v)
      else Ok (Some v)
  | _, _, _ => Ok None     (* except Exception: return None *)
  end.

Definition extract_result_list (data : value) : list dict :=
  match data with
  | VList l => only_dicts l
  | VDict d =>
      match get d "result" with
      | VList r => only_dicts r
      | r =>
          match (match r with
                 | VDict rd => match get rd "items" with VList l => Some l | _ => None end
                 | _ => None
                 end) with
          | Some l => only_dicts l
          | None => match get d "items" with VList l => only_dicts l | _ => [] end
          end
      end
  | _ => []
  end.

Definition get_all_product_ids (fuel : nat) : M (list string) :=
  ExportProductsOzon.get_all_product_ids py_repr fuel.

Fixpoint attributes_batches (batches : list (list string)) (all_items : list dict)
  : M (list dict) :=
  match batches with
  | [] => mret all_items
  | batch :: rest =>
      data ← post_ozon "/v4/product/info/attributes"
               (ExportProductsOzon.attributes_payload batch) default_retries;
      attributes_batches rest (all_items ++ extract_result_list data)
  end.

Definition get_attributes (product_ids : list string) : M (list dict) :=
  batches ← lift (chunked product_ids 1000);
  attributes_batches batches [].

Definition in_quotes (s : string) : string := Json.dquote +:+ s +:+ Json.dquote.

(** The row built for one attribute record in [export_characteristics_ozon]. *)
Definition characteristics_row (it : dict) : result dict :=
  let depth := get it "depth" in
  let width := get it "width" in
  let height := get it "height" in
  let dim_unit := py_or (get it "dimension_unit") (VStr "mm") in
  volume ← calc_volume depth width height dim_unit;
  Ok [("id", VNone);
      ("idtow", get it "id");
      ("SKU", get it "sku");
      ("Длина упаковки", opt_int (to_int_safe depth));
      ("Ширина упаковки", opt_int (to_int_safe width));
      ("Высота упаковки", opt_int (to_int_safe height));
      ("Вес с упаковкой", opt_int (to_int_safe (get it "weight")));
      ("weight_unit", get it "weight_unit");
      ("ставка НДС", VNone);
      ("idкатегории_товара_oz", get it "description_category_id");
      ("Наименование товара", get it "name");
      ("Бренд", VNone);
      ("Наименование модели (Склейка)", VNone);
      ("Кол-во шт", VNone);
      ("Вес самого товара", VNone);
      ("Кол-во товара в УЕИ", VNone);
      ("#", VNone);
      ("Аннотация", VNone);
      ("Названия группы", VNone);
      ("PartNumber", get it "offer_id");
      ("Длина " +:+ in_quotes "Лента", VNone);
      ("Ширина " +:+ in_quotes "Лента", VNone);
      ("Крепелние", VNone);
      ("Цвет", VNone);
      ("Материал", VNone);
      ("Вид техники", VNone);
      ("Вид выпуска товара", VNone);
      ("Страна изготовитель", VNone);
      ("Кол-во зав. упаковок", VNone);
      ("ТН ВЭД коды ЕАЭС", VNone);
      ("ОЕМ-номер", VNone);
      ("Алтер. артикул", VNone);
      ("Вид ламп", VNone);
      ("Типоразмер " +:+ in_quotes "Цоколь", VNone);
      ("Кол-во ламп", VNone);
      ("Назначение авто. лампы", VNone);
      ("Питание", VNone);
      ("Мощность " +:+ in_quotes "лампы", VNone);
      ("Комплектация упаковки", VNone);
      ("Вид запчасти", VNone);
      ("Сторона установки", VNone);
      ("Вид спец. техники", VNone);
      ("Кратность покупки", VNone);
      ("Класс опасности товара", VNone);
      ("Место установки", VNone);
      ("Объем_м3", ExportProductsOzon.opt_float volume);
      ("dimension_unit", dim_unit)].

Definition export_characteristics_ozon (items : list dict) (out_path : string)
  : M unit :=
  rows ← lift (foldl_result (λ acc it, row ← characteristics_row it; Ok (acc ++ [row]))
                 [] items);
  _ ← file_open_w out_path;
  file_write out_path
    (Json.dump_indent2 py_repr (VDict [("характеристики_ozon", VList (VDict <$> rows))])).

Definition main (fuel : nat) : M unit :=
  product_ids ← get_all_product_ids fuel;
  items ← get_attributes product_ids;
  export_characteristics_ozon items "характеристики_ozon.json".

End defs.
End OzonProductInfo.

(** * Specification-side definitions *)

(** The value of a decimal numeral read left to right, as a reference for
    what [int()] computes on a string of digits. *)
Fixpoint decimal_value_from (acc : N) (s : string) : N :=
  match s with
  | EmptyString => acc
  | String c r => decimal_value_from (10 * acc + (N_of_ascii c - 48)) r
  end.

Definition decimal_value (s : string) : Z := Z.of_N (decimal_value_from 0 s).

(** The sleeps of [k] consecutive transient replies, the first of length
    [backoff]. *)
Fixpoint backoff_schedule (backoff : Z) (k : nat) : list Z :=
  match k with
  | O => []
  | S k' => backoff :: backoff_schedule (next_backoff backoff) k'
  end.

(** The world after [n] more calls of [requests.post] with the same
    arguments and the sleeps [naps] (in the order they were taken). *)
Definition after_calls (w : world) (n : nat) (path : string) (payload : value)
    (naps : list Z) : world :=
  {| net := net w;
     calls := calls w + n;
     sent := replicate n (path, payload) ++ sent w;
     slept := rev naps ++ slept w;
     files := files w |}.

(** ** Sample worlds *)

Definition reply (status : Z) (body : option value) (raw : string) : attempt :=
  Replies {| status_code := status; json_body := body; text := raw |}.

(** A server that gives the scripted answers, then cannot be reached. *)
Definition scripted (script : list attempt) : world :=
  {| net := λ i, nth i script Unreachable;
     calls := 0; sent := []; slept := []; files := ∅ |}.

Definition sample_repr : value → string := λ _, "<repr>".

(** ** A sample of the text builtins

    The tables of Unicode 14.0.0 (those of CPython 3.11), read on the
    UTF-8 bytes of the text, with no bound on the length of a numeral. *)

(** The code points of [s]; none when [s] is no UTF-8 text. *)
Fixpoint code_points (s : string) : option (list N) :=
  let continues (b : N) : bool := ((128 <=? b) && (b <? 192))%N in
  match s with
  | EmptyString => Some []
  | String a r =>
      let a := N_of_ascii a in
      if (a <? 128)%N then cons a <$> code_points r
      else
        match r with
        | String b r1 =>
            let b := N_of_ascii b in
            if ((192 <=? a) && (a <? 224))%N && continues b then
              cons ((a - 192) * 64 + (b - 128))%N <$> code_points r1
            else
              match r1 with
              | String c r2 =>
                  let c := N_of_ascii c in
                  if ((224 <=? a) && (a <? 240))%N && continues b && continues c then
                    cons (((a - 224) * 64 + (b - 128)) * 64 + (c - 128))%N
                      <$> code_points r2
                  else
                    match r2 with
                    | String d r3 =>
                        let d := N_of_ascii d in
                        if ((240 <=? a) && (a <? 248))%N
                           && continues b && continues c && continues d
                        then
                          cons ((((a - 240) * 64 + (b - 128)) * 64 + (c - 128)) * 64
                                + (d - 128))%N <$> code_points r3
                        else None
                    | EmptyString => None
                    end
              | EmptyString => None
              end
        | EmptyString => None
        end
  end.

(** The characters that stand for the digit zero in the 66 decimal scripts
    (the nine digits that follow each are 1 to 9 of the script). *)
Definition decimal_zeros : list N :=
  [48;
   1632; 1776; 1984; 2406; 2534; 2662; 2790; 2918; 3046; 3174; 3302; 3430;
   3558; 3664; 3792; 3872; 4160; 4240; 6112; 6160; 6470; 6608; 6784; 6800;
   6992; 7088; 7232; 7248; 42528; 43216; 43264; 43472; 43504; 43600; 44016;
   65296; 66720; 68912; 69734; 69872; 69942; 70096; 70384; 70736; 70864;
   71248; 71360; 71472; 71904; 72016; 72784; 73040; 73120; 92768; 92864;
   93008; 120782; 120792; 120802; 120812; 120822; 123200; 123632; 125264;
   130032]%N.

(** The value of a decimal digit of any script. *)
Definition decimal_digit (c : N) : option N :=
  (λ found, (c - found.2)%N)
    <$> list_find (λ zero, ((zero <=? c) && (c <? zero + 10))%N) decimal_zeros.

(** The digits that are no decimal digits (superscripts, subscripts,
    circled digits and the like), as ranges of code points. *)
Definition other_digits : list (N * N) :=
  [(178, 179); (185, 185); (4969, 4977); (6618, 6618); (8304, 8304);
   (8308, 8313); (8320, 8329); (9312, 9320); (9332, 9340); (9352, 9360);
   (9450, 9450); (9461, 9469); (9471, 9471); (10102, 10110); (10112, 10120);
   (10122, 10130); (68160, 68163); (69216, 69224); (69714, 69722);
   (127232, 127242)]%N.

Definition is_other_digit (c : N) : bool :=
  existsb (λ range, (range.1 <=? c) && (c <=? range.2))%N other_digits.

(** The blanks beyond ASCII. *)
Definition unicode_blanks : list N :=
  [133; 160; 5760; 8192; 8193; 8194; 8195; 8196; 8197; 8198; 8199; 8200;
   8201; 8202; 8232; 8233; 8239; 8287; 12288]%N.

(** [s.isdigit()] *)
Definition unicode_isdigit (s : string) : bool :=
  match code_points s with
  | Some (c :: cs) =>
      forallb (λ c, bool_decide (is_Some (decimal_digit c)) || is_other_digit c) (c :: cs)
  | _ => false
  end.

(** What [int()] makes of a character before it reads the numeral: an
    ASCII character stays, a blank becomes a space, a decimal digit becomes
    its ASCII digit, and anything else makes [int()] raise. *)
Definition to_ascii (c : N) : option ascii :=
  if (c <? 127)%N then Some (ascii_of_N c)
  else if bool_decide (c ∈ unicode_blanks) then Some " "%char
  else (λ d, ascii_of_N (48 + d)) <$> decimal_digit c.

(** [int(s)]; [None] when it raises [ValueError]. *)
Definition unicode_int (s : string) : option Z :=
  points ← code_points s;
  image ← mapM to_ascii points;
  Py.int_of_str (string_of_list_ascii image).

#[global] Instance sample_text : PyText :=
  {| text_isdigit := unicode_isdigit; text_int := unicode_int |}.

(** ** Pages of the product listing *)

Section pages.
Context {py_text : PyText}.
Variable py_repr : value → string.

(** A page is the records it carries and the cursor it reports. *)
Definition page : Type := list dict * string.

(** [data] is a listing response that carries the page [pg]. *)
Definition page_of (data : value) (pg : page) : Prop :=
  ∃ d r, data = VDict d ∧ get d "result" = VDict r ∧
         get r "items" = VList (VDict <$> pg.1) ∧
         py_str py_repr (py_or (get r "last_id") (VStr "")) = pg.2.

(** The page ends the listing: no record, or no next cursor. *)
Definition last_page (pg : page) : Prop := pg.1 = [] ∨ pg.2 = "".

(** The product identifiers that the records of a page carry. *)
Definition record_ids (records : list dict) : list string :=
  omap (λ it, match get it "product_id" with
              | VNone => None
              | pid => Some (py_str py_repr pid)
              end) records.

(** [serves retries w cursor pages w']: from the world [w], the listing
    requests starting at [cursor] are answered, one after the other, by the
    pages [pages], each request carrying the cursor of the page before; the
    last page, and no page before it, ends the listing; [w'] is the world
    after the request for the last page. *)
Inductive serves (retries : nat) : world → string → list page → world → Prop :=
| serves_last w cursor data pg w' :
    post_ozon "/v3/product/list" (StockOzon.product_list_payload cursor) retries w
      = (Ok data, w') →
    page_of data pg →
    last_page pg →
    serves retries w cursor [pg] w'
| serves_next w cursor data pg w1 pages w' :
    post_ozon "/v3/product/list" (StockOzon.product_list_payload cursor) retries w
      = (Ok data, w1) →
    page_of data pg →
    ¬ last_page pg →
    serves retries w1 pg.2 pages w' →
    serves retries w cursor (pg :: pages) w'.

End pages.

Definition listing_response (records : list value) (last_id : value) : value :=
  VDict [("result", VDict [("items", VList records); ("last_id", last_id);
                           ("total", VInt 3)])].



(** ** SKU derivation *)

Section sku_spec.
Context {py_text : PyText}.
Variable py_repr : value → string.

(** The values that [extract_sku_from_item] may try, in order. *)
Definition sku_candidates (it : dict) : list value :=
  [get it "sku"; get it "sku_id"]
  ++ match get it "skus" with VList (v0 :: _) => [v0] | _ => [] end.

(** The first of [vs] that normalises to a SKU; an error on the way ends
    the search. *)
Fixpoint first_sku (vs : list value) : result (option Z) :=
  match vs with
  | [] => Ok None
  | v :: r =>
      normalized ← StockOzon.normalize_sku py_repr v;
      match normalized with
      | Some n => Ok (Some n)
      | None => first_sku r
      end
  end.

End sku_spec.

(** ** Candidates of the schema-tolerant extractor *)

(** A candidate: a homogeneous list of records and the path it was found at. *)
Definition candidate : Type := list value * string.

(** The candidate under the priority key [k] of the object [d], if any. *)
Definition priority_candidate (d : dict) (path : string) (k : string)
  : option candidate :=
  match lookup_key k d with
  | Some (VList cand) =>
      if all_dicts cand then Some (cand, FboClusters.child_path path k) else None
  | _ => None
  end.

(** The candidates in the order of the depth-first walk: at an object, the
    priority keys in their order, then the children in the order of the
    object; at a list, the list itself if it is a list of records, else its
    elements in turn. *)
Fixpoint candidates (node : value) (path : string) : list candidate :=
  match node with
  | VDict d =>
      omap (priority_candidate d path) FboClusters.priority_keys ++
      (fix children (kvs : dict) : list candidate :=
         match kvs with
         | [] => []
         | kv :: r => candidates (snd kv) (FboClusters.child_path path (fst kv))
                      ++ children r
         end) d
  | VList l =>
      if all_dicts l then
        [(l, if String.eqb path "" then "<root_list>" else path)]
      else
        (fix elements (l : list value) (i : nat) : list candidate :=
           match l with
           | [] => []
           | v :: r => candidates v (FboClusters.index_path path i) ++ elements r (S i)
           end) l O
  | _ => []
  end.

(** Keep the best so far unless the next candidate is strictly longer. *)
Definition keep_longest (st : FboClusters.best_state) (c : candidate)
  : FboClusters.best_state :=
  FboClusters.consider c.1 c.2 st.

(** [node] holds the candidate [c]: it is the list of records [c], or an
    object with [c] under a priority key. *)
Definition candidate_at (node : value) (c : list value) : Prop :=
  all_dicts c = true ∧
  (node = VList c ∨
   ∃ d k, node = VDict d ∧ k ∈ FboClusters.priority_keys ∧
          lookup_key k d = Some (VList c)).

(** [inside obj node]: [node] occurs in [obj], at any depth. *)
Inductive inside : value → value → Prop :=
| inside_here v : inside v v
| inside_dict d k v node : (k, v) ∈ d → inside v node → inside (VDict d) node
| inside_list l v node : v ∈ l → inside v node → inside (VList l) node.

(** [reached obj node]: [node] occurs in [obj] and not under an element of
    a list of records. *)
Inductive reached : value → value → Prop :=
| reached_here v : reached v v
| reached_dict d k v node : (k, v) ∈ d → reached v node → reached (VDict d) node
| reached_list l v node :
    all_dicts l = false → v ∈ l → reached v node → reached (VList l) node.

(** A response whose list of records holds a longer list of records. *)
Definition nested_response : value :=
  VDict [("result",
          VList [VDict [("id", VInt 1);
                        ("clusters", VList [VDict [("id", VInt 10)];
                                            VDict [("id", VInt 11)]])]])].


(** ** Warehouse references with a name *)

Section warehouse_spec.
Context {py_text : PyText}.
Variable py_repr : value → string.

(** A reference that has a name: region id, warehouse id if any, name. *)
Definition named_ref : Type := Z * option string * string.

(** The pair by which rows are told apart: the region and the warehouse
    identifier, or the name when there is no identifier. *)
Definition named_ref_key (x : named_ref) : Z * string :=
  (x.1.1, FboClusters.ref_identity x.1.2 x.2).

Definition row_of (x : named_ref) : dict :=
  [("id", VNone);
   ("Склад", VStr x.2);
   ("idРегион", VInt x.1.1);
   ("warehouse_id_ozon", FboClusters.opt_str x.1.2)].

(** The same pair, read off a row of the warehouse table. *)
Definition row_key (row : dict) : value * value :=
  (get row "idРегион",
   if truthy (get row "warehouse_id_ozon") then get row "warehouse_id_ozon"
   else get row "Склад").

(** A reference of region [rid] with the name the directory gives it when
    it has none; nothing when it still has no name. *)
Definition name_ref (warehouse_map : gmap string string) (rid : Z)
    (r : FboClusters.warehouse_ref) : option named_ref :=
  match FboClusters.resolve_name warehouse_map r with
  | Some name => if String.eqb name "" then None else Some (rid, r.1, name)
  | None => None
  end.

(** The named references of one cluster, in the order they are collected;
    none when the cluster has no identifier or no region. *)
Definition cluster_named_refs (map_cluster_to_region_id : gmap string Z)
    (warehouse_map : gmap string string) (c : dict) : list named_ref :=
  match FboClusters.pick c ["cluster_id"; "id"] with
  | None => []
  | Some cid =>
      match map_cluster_to_region_id !! py_str py_repr cid with
      | None => []
      | Some rid =>
          omap (name_ref warehouse_map rid)
               (FboClusters.collect_warehouse_refs py_repr (VDict c))
      end
  end.

Definition named_refs (map_cluster_to_region_id : gmap string Z)
    (warehouse_map : gmap string string) (clusters : list dict) : list named_ref :=
  concat (cluster_named_refs map_cluster_to_region_id warehouse_map <$> clusters).

End warehouse_spec.

(** The elements of [l] whose key is neither in [seen] nor the key of an
    earlier element of [l]. *)
Fixpoint first_by {A K : Type} `{EqDecision K} (key : A → K) (seen : list K)
    (l : list A) : list A :=
  match l with
  | [] => []
  | x :: r =>
      if decide (key x ∈ seen) then first_by key seen r
      else x :: first_by key (key x :: seen) r
  end.

(** One step of the loop of [build_warehouses] on a named reference. *)
Definition take_ref (st : FboClusters.warehouses_state) (x : named_ref)
  : FboClusters.warehouses_state :=
  if decide (named_ref_key x ∈ st.2) then st
  else (st.1 ++ [row_of x], {[named_ref_key x]} ∪ st.2).

(** A cluster with a warehouse listed twice, one without a name, and one
    that only the directory names. *)
Definition sample_clusters : list dict :=
  [[("id", VInt 7); ("name", VStr "Msk");
    ("warehouses", VList [VDict [("warehouse_id", VInt 10); ("name", VStr "W10")];
                          VDict [("warehouse_id", VInt 11)];
                          VDict [("warehouse_id", VInt 12)];
                          VDict [("warehouse_id", VInt 10); ("name", VStr "W10 bis")]])]].

(** ** The compact stock export *)

Section stock_spec.
Context {py_text : PyText}.
Variable py_repr : value → string.

(** The SKU a stock row reports, when [int()] accepts it. *)
Definition reported_sku (row : dict) : option Z :=
  if is_none (get row "sku") then None
  else match py_int (get row "sku") with
       | Ok n => Some n
       | _ => None
       end.





(** The text written for a sequence of objects; [first] tells whether
    nothing was written before. *)
Fixpoint render_objects (first : bool) (objs : list value) : string :=
  match objs with
  | [] => EmptyString
  | obj :: rest =>
      (if first then EmptyString else "," +:+ Json.newline)
      +:+ "  " +:+ Json.dumps py_repr obj +:+ render_objects false rest
  end.

End stock_spec.

(** The world [w] with the file [path] holding [content]. *)
Definition with_file (w : world) (path : string) (content : string) : world :=
  {| net := net w; calls := calls w; sent := sent w; slept := slept w;
     files := <[path := content]> (files w) |}.

Definition is_nil {A} (l : list A) : bool :=
  match l with [] => true | _ => false end.

(** A stock response with one row, for the SKU 111. *)
Definition sample_stock_rows : list dict :=
  [[("sku", VInt 111); ("available_stock_count", VInt 2); ("valid_stock_count", VInt 1)]].


(** A JSON document with exactly one top-level key, whose value is a list of
    records, in the compact or in an indented layout. *)
Definition single_key_document (py_repr : value → string) (doc : string) : Prop :=
  ∃ (table : string) (records : list dict) (indent : option nat),
    doc = Json.encode py_repr indent 0 (VDict [(table, VList (VDict <$> records))]).

(** An object of the compact stock export for the SKU [s]. *)
Definition sku_object_of (s : Z) (obj : value) : Prop :=
  ∃ items, obj = VDict [("sku", VStr (Py.str_of_int s)); ("items", VList items)].

(** The text of the compact stock export that holds the objects [objs]. *)
Definition stock_document (py_repr : value → string) (objs : list value) : string :=
  ("[" +:+ Json.newline) +:+ render_objects py_repr true objs
  +:+ (Json.newline +:+ "]" +:+ Json.newline).

(** A whole run: a 429, the listing (two products), their attributes (SKUs
    222 and 111), the stocks (one row, for 111). *)
Definition sample_pipeline : world :=
  scripted
    [reply 429 None "Too Many Requests";
     reply 200 (Some (listing_response
                        [VDict [("product_id", VInt 1)]; VDict [("product_id", VInt 2)]]
                        (VStr ""))) "";
     reply 200 (Some (VDict [("result",
                              VList [VDict [("id", VInt 1); ("sku", VInt 222);
                                            ("name", VStr "B")];
                                     VDict [("id", VInt 2); ("sku", VStr "111")]])])) "";
     reply 200 (Some (VDict [("items", VList (VDict <$> sample_stock_rows))])) ""].

(** A server that answers every request with the same reply. *)
Definition always (r : response) : world :=
  {| net := λ _, Replies r; calls := 0; sent := []; slept := []; files := ∅ |}.

Definition one_product_page : response :=
  {| status_code := 200;
     json_body := Some (listing_response [VDict [("product_id", VInt 1)]] (VStr "again"));
     text := "" |}.

(** [m] changes no file other than those of [touched], whatever it
    returns. *)
Definition keeps_other_files {A} (touched : list string) (m : M A) : Prop :=
  ∀ w p, p ∉ touched → files (m w).2 !! p = files w !! p.

(** The key [k] gives nothing to [pick]: it is missing from [d], or its
    value is [None], [""] or [[]]. *)
Definition unusable (d : dict) (k : string) : Prop :=
  ∀ v, lookup_key k d = Some v → FboClusters.is_blank v = true.

(** A listing that holds no product. *)
Definition empty_listing : world :=
  scripted [reply 200 (Some (listing_response [] (VStr ""))) ""].

(** What a record of the warehouse directory registers: its identifier and
    its name, as text, when it has both and the name is truthy. *)
Definition directory_entry (py_repr : value → string) (w : dict)
  : option (string * string) :=
  match FboClusters.pick w ["warehouse_id"; "id"],
        FboClusters.pick w ["name"; "warehouse_name"; "title"] with
  | Some wid, Some nm =>
      if truthy nm then Some (py_str py_repr wid, py_str py_repr nm) else None
  | _, _ => None
  end.

(** Some key of [v], at any depth, contains "warehouse" (in any case). *)
Fixpoint mentions_warehouse (v : value) : bool :=
  match v with
  | VDict d =>
      (fix items (kvs : dict) : bool :=
         match kvs with
         | [] => false
         | kv :: r =>
             Py.contains "warehouse" (Py.lower (fst kv))
             || mentions_warehouse (snd kv) || items r
         end) d
  | VList l =>
      (fix each (l : list value) : bool :=
         match l with
         | [] => false
         | y :: r => mentions_warehouse y || each r
         end) l
  | _ => false
  end.


(** The request of [get_fbo_warehouse_map]. *)
Definition warehouse_list_request : M value :=
  post_ozon "/v1/warehouse/fbo/list"
    (VDict [("filter_by_supply_type", VList [VStr "DIRECT"; VStr "CROSSDOCK"]);
            ("limit", VInt 1000); ("offset", VInt 0)]) FboClusters.default_retries.


(** The requests made for the batches [batches] when batch [i] takes
    [tries !! i] attempts, oldest first: each batch is posted to [path]
    with its own payload, as many times as it takes. *)
Definition batch_requests {A} (path : string) (payload_of : list A → value)
    (batches : list (list A)) (tries : list nat) : list (string * value) :=
  concat (zip_with (λ batch n, replicate n (path, payload_of batch)) batches tries).

(** A listing of one page whose records do not all carry an identifier. *)
Definition sparse_records : list dict :=
  [[("offer_id", VStr "a")]; [("product_id", VInt 2)]; [("product_id", VNone)]].

Definition sparse_listing : world :=
  scripted [reply 200 (Some (listing_response (VDict <$> sparse_records) (VStr ""))) ""].

(** Two lists of the same length in the subtrees of two sibling keys: the
    first under [data], two levels down; the second under [clusters], one
    level down. *)
Definition sibling_response : value :=
  VDict [("a", VDict [("b", VDict [("data", VList [VDict [("id", VInt 1)];
                                                   VDict [("id", VInt 2)]])])]);
         ("z", VDict [("clusters", VList [VDict [("id", VInt 3)];
                                          VDict [("id", VInt 4)]])])].

(** A stock response whose row for the SKU 111 has a count that is no
    number. *)
Definition unreadable_stock_world : world :=
  with_file
    (scripted [reply 200 (Some (VDict [("items",
                 VList [VDict [("sku", VInt 111);
                               ("available_stock_count", VStr "many")]])])) ""])
    "stocks_compact.json" ("[" +:+ Json.newline).

(** Text beyond ASCII: the no-break space U+00A0, the em space U+2003, the
    Arabic-Indic digit three U+0663 and the superscript two U+00B2, by
    their UTF-8 bytes. *)
Definition no_break_space : string := String "194" (String "160" EmptyString).
Definition em_space : string := String "226" (String "128" (String "131" EmptyString)).
Definition arabic_three : string := String "217" (String "163" EmptyString).
Definition superscript_two : string := String "194" (String "178" EmptyString).



(** ** Proof steps *)


(** * Facts about the Python primitives *)

Section py_facts.
Context {py_text : PyText}.

Lemma is_digit_cases c :
  Py.is_digit c = true →
  c ∈ list_ascii_of_string "0123456789".
Proof.
  destruct c as [[] [] [] [] [] [] [] []]; cbv; try discriminate; intros _;
    repeat (first [apply list_elem_of_here | apply list_elem_of_further]).
Qed.

Lemma digit_not_space c : Py.is_digit c = true → Py.is_space c = false.
Proof.
  destruct c as [[] [] [] [] [] [] [] []]; cbv; congruence.
Qed.

Lemma is_digit_ascii c : Py.is_digit c = true → (N_of_ascii c <? 128)%N = true.
Proof.
  unfold Py.is_digit. cbn zeta. intros [_ H%N.leb_le]%andb_true_iff.
  apply N.ltb_lt. lia.
Qed.

(** A blank of several bytes does not start with an ASCII byte. *)
Lemma is_space2_ascii a b : (N_of_ascii a <? 128)%N = true → Py.is_space2 a b = false.
Proof.
  intros Ha%N.ltb_lt. unfold Py.is_space2.
  destruct (N.eqb_spec (N_of_ascii a) 194) as [Heq|_]; [lia|done].
Qed.

Lemma is_space3_ascii a b c :
  (N_of_ascii a <? 128)%N = true → Py.is_space3 a b c = false.
Proof.
  intros Ha%N.ltb_lt. unfold Py.is_space3.
  destruct (N.eqb_spec (N_of_ascii a) 225) as [Heq|_]; [lia|].
  destruct (N.eqb_spec (N_of_ascii a) 226) as [Heq|_]; [lia|].
  destruct (N.eqb_spec (N_of_ascii a) 227) as [Heq|_]; [lia|done].
Qed.

Lemma lstrip_cons_nonspace c r :
  (N_of_ascii c <? 128)%N = true → Py.is_space c = false →
  Py.lstrip (String c r) = String c r.
Proof.
  intros Hascii Hc. cbn [Py.lstrip]. rewrite Hc.
  destruct r as [|b [|d r]]; [done|by rewrite is_space2_ascii|].
  by rewrite is_space2_ascii, is_space3_ascii.
Qed.

Lemma rstrip_cons_nonspace c r :
  (N_of_ascii c <? 128)%N = true → Py.is_space c = false →
  Py.rstrip (String c r) = String c (Py.rstrip r).
Proof.
  intros Hascii Hc. cbn [Py.rstrip]. cbn zeta.
  destruct (Py.rstrip r) as [|b [|d [|e t]]]; cbn [Py.is_blank_char];
    by rewrite ?Hc, ?is_space2_ascii, ?is_space3_ascii.
Qed.

Lemma strip_cons_nonspace c r :
  (N_of_ascii c <? 128)%N = true → Py.is_space c = false →
  Py.strip (String c r) = String c (Py.rstrip r).
Proof.
  intros Hascii Hc. unfold Py.strip.
  rewrite (lstrip_cons_nonspace _ _ Hascii Hc). by apply rstrip_cons_nonspace.
Qed.

Lemma all_digits_lstrip s : Py.all_digits s = true → Py.lstrip s = s.
Proof.
  destruct s as [|c r]; [done|]. simpl Py.all_digits. intros [Hc _]%andb_true_iff.
  apply lstrip_cons_nonspace; [by apply is_digit_ascii|by apply digit_not_space].
Qed.

Lemma all_digits_rstrip s : Py.all_digits s = true → Py.rstrip s = s.
Proof.
  induction s as [|c r IH]; [done|]. simpl Py.all_digits.
  intros [Hc Hr]%andb_true_iff.
  rewrite rstrip_cons_nonspace; [|by apply is_digit_ascii|by apply digit_not_space].
  by rewrite (IH Hr).
Qed.

Lemma all_digits_strip s : Py.all_digits s = true → Py.strip s = s.
Proof.
  intros H. unfold Py.strip. rewrite (all_digits_lstrip s H).
  by apply all_digits_rstrip.
Qed.

Lemma isdigit_all_digits s : Py.isdigit s = true → Py.all_digits s = true.
Proof. by destruct s. Qed.

(** On digits, the library's numeral reader succeeds, and the number it
    denotes is the left-to-right value. *)
Lemma uint_of_string_digits s :
  Py.all_digits s = true →
  ∃ d, NilEmpty.uint_of_string s = Some d ∧
       ∀ acc, decimal_value_from acc s =
              match acc with
              | N0 => Pos.of_uint d
              | Npos p => Npos (Pos.of_uint_acc d p)
              end.
Proof.
  induction s as [|c r IH]; simpl.
  - intros _. exists Decimal.Nil. split; [done|]. by intros [].
  - intros [Hc Hr]%andb_true_iff. destruct (IH Hr) as (d & Hd & Hv).
    rewrite Hd. apply is_digit_cases in Hc.
    repeat (apply elem_of_cons in Hc as [-> | Hc];
            [eexists; split; [reflexivity|];
             intros [|p]; rewrite Hv; simpl; try reflexivity;
             f_equal; f_equal; lia |]).
    by apply elem_of_nil in Hc.
Qed.

Lemma int_of_digits_value s :
  Py.all_digits s = true → Py.int_of_digits s = Some (decimal_value s).
Proof.
  intros H. destruct (uint_of_string_digits s H) as (d & Hd & Hv).
  unfold Py.int_of_digits, decimal_value. rewrite Hd. simpl.
  by rewrite (Hv 0%N).
Qed.

Lemma all_digits_string_of_uint d :
  Py.all_digits (NilEmpty.string_of_uint d) = true.
Proof. induction d; simpl; auto. Qed.

Lemma str_of_int_pos p :
  Py.str_of_int (Z.pos p) = NilEmpty.string_of_uint (Pos.to_uint p).
Proof.
  unfold Py.str_of_int. simpl.
  pose proof (Unsigned.to_uint_nonnil p) as Hnil.
  unfold NilZero.string_of_uint. by destruct (Pos.to_uint p).
Qed.

Lemma isdigit_str_of_int_pos p : Py.isdigit (Py.str_of_int (Z.pos p)) = true.
Proof.
  rewrite str_of_int_pos.
  pose proof (Unsigned.to_uint_nonnil p) as Hnil.
  pose proof (all_digits_string_of_uint (Pos.to_uint p)) as Hd.
  destruct (Pos.to_uint p); try done.
Qed.

Lemma int_of_digits_str_of_int_pos p :
  Py.int_of_digits (Py.str_of_int (Z.pos p)) = Some (Z.pos p).
Proof.
  rewrite str_of_int_pos. unfold Py.int_of_digits.
  rewrite NilEmpty.usu. simpl. unfold Z.of_uint.
  by rewrite Unsigned.of_to.
Qed.

Lemma digit_not_c_space c : Py.is_digit c = true → Py.is_c_space c = false.
Proof. destruct c as [[] [] [] [] [] [] [] []]; cbv; congruence. Qed.

Lemma all_digits_c_strip s :
  Py.all_digits s = true →
  Py.rstrip_by Py.is_c_space (Py.lstrip_by Py.is_c_space s) = s.
Proof.
  intros Hs.
  assert (Py.lstrip_by Py.is_c_space s = s) as ->.
  { destruct s as [|c r]; [done|]. simpl in *. apply andb_true_iff in Hs as [Hc _].
    by rewrite (digit_not_c_space c Hc). }
  induction s as [|c r IH]; [done|]. simpl in *. apply andb_true_iff in Hs as [Hc Hr].
  rewrite (IH Hr). destruct r; [|done]. by rewrite (digit_not_c_space c Hc).
Qed.

Lemma drop_underscores_digits s : ∀ after_digit,
  Py.all_digits s = true → (s ≠ "" ∨ after_digit = true) →
  Py.drop_underscores after_digit s = Some s.
Proof.
  induction s as [|c r IH]; intros after_digit Hs Hne.
  - destruct Hne as [?| ->]; done.
  - simpl in *. apply andb_true_iff in Hs as [Hc Hr].
    rewrite Hc, (IH true Hr) by (by right). done.
Qed.

Lemma nat_literal_digits s :
  Py.isdigit s = true → Py.nat_literal s = Some (decimal_value s).
Proof.
  intros Hs. unfold Py.nat_literal.
  rewrite drop_underscores_digits.
  - simpl. by apply int_of_digits_value, isdigit_all_digits.
  - by apply isdigit_all_digits.
  - left. by destruct s.
Qed.

(** [int()] reads a string of digits as the number it denotes. *)
Lemma int_of_str_digits s :
  Py.isdigit s = true → Py.int_of_str s = Some (decimal_value s).
Proof.
  intros Hs. unfold Py.int_of_str.
  rewrite (all_digits_c_strip s (isdigit_all_digits s Hs)).
  rewrite <- (nat_literal_digits s Hs).
  destruct s as [|c r]; [done|]. simpl in Hs. apply andb_true_iff in Hs as [Hc _].
  destruct c as [[] [] [] [] [] [] [] []]; try reflexivity; discriminate Hc.
Qed.

Lemma decimal_value_str_of_int_pos p : decimal_value (Py.str_of_int (Z.pos p)) = Z.pos p.
Proof.
  pose proof (int_of_digits_value _ (isdigit_all_digits _ (isdigit_str_of_int_pos p))) as H.
  rewrite int_of_digits_str_of_int_pos in H. by injection H.
Qed.

Lemma int_of_str_str_of_int z : Py.int_of_str (Py.str_of_int z) = Some z.
Proof.
  destruct z as [|p|p].
  - reflexivity.
  - by rewrite (int_of_str_digits _ (isdigit_str_of_int_pos p)), decimal_value_str_of_int_pos.
  - change (Py.str_of_int (Z.neg p)) with (String "-" (Py.str_of_int (Z.pos p))).
    unfold Py.int_of_str. cbn [Py.lstrip_by].
    change (Py.is_c_space "-") with false. cbn iota.
    assert (Py.rstrip_by Py.is_c_space (String "-" (Py.str_of_int (Z.pos p)))
            = String "-" (Py.str_of_int (Z.pos p))) as ->.
    { pose proof (all_digits_c_strip _ (isdigit_all_digits _ (isdigit_str_of_int_pos p))) as H.
      assert (Py.lstrip_by Py.is_c_space (Py.str_of_int (Z.pos p))
              = Py.str_of_int (Z.pos p)) as Hl.
      { pose proof (isdigit_str_of_int_pos p) as Hd.
        destruct (Py.str_of_int (Z.pos p)) as [|c r]; [done|]. simpl in *.
        apply andb_true_iff in Hd as [Hc _]. by rewrite (digit_not_c_space c Hc). }
      rewrite Hl in H. cbn [Py.rstrip_by]. rewrite H.
      pose proof (isdigit_str_of_int_pos p) as Hd.
      by destruct (Py.str_of_int (Z.pos p)). }
    rewrite (nat_literal_digits _ (isdigit_str_of_int_pos p)), decimal_value_str_of_int_pos.
    reflexivity.
Qed.

Lemma all_digits_ascii s : Py.all_digits s = true → Py.is_ascii s = true.
Proof.
  induction s as [|c r IH]; [done|]. simpl. intros [Hc Hr]%andb_true_iff.
  by rewrite (is_digit_ascii c Hc), (IH Hr).
Qed.

Lemma is_ascii_str_of_int z : Py.is_ascii (Py.str_of_int z) = true.
Proof.
  destruct z as [|p|p]; [done| |].
  - apply all_digits_ascii, isdigit_all_digits, isdigit_str_of_int_pos.
  - change (Py.str_of_int (Z.neg p)) with (String "-" (Py.str_of_int (Z.pos p))).
    cbn [Py.is_ascii]. 
    by rewrite (all_digits_ascii _ (isdigit_all_digits _ (isdigit_str_of_int_pos p))).
Qed.

(** On ASCII text the two builtins are the modelled ones. *)
Lemma py_isdigit_ascii s : Py.is_ascii s = true → py_isdigit s = Py.isdigit s.
Proof. intros Hs. unfold py_isdigit. by rewrite Hs. Qed.

Lemma py_int_of_str_ascii s : Py.is_ascii s = true → py_int_of_str s = Py.int_of_str s.
Proof. intros Hs. unfold py_int_of_str. by rewrite Hs. Qed.

Lemma py_isdigit_digits s : Py.isdigit s = true → py_isdigit s = true.
Proof.
  intros Hs. by rewrite (py_isdigit_ascii _ (all_digits_ascii _ (isdigit_all_digits _ Hs))).
Qed.


Lemma py_int_of_str_str_of_int z : py_int_of_str (Py.str_of_int z) = Some z.
Proof. by rewrite (py_int_of_str_ascii _ (is_ascii_str_of_int z)), int_of_str_str_of_int. Qed.

End py_facts.

(** * SKU normalisation and derivation (stock_ozon.py) *)

Section sku.
Context {py_text : PyText}.
Variable py_repr : value → string.

Lemma normalize_sku_text v n :
  StockOzon.normalize_sku py_repr v = Ok (Some n) ↔
  py_isdigit (Py.strip (py_str py_repr v)) = true ∧
  py_int_of_str (Py.strip (py_str py_repr v)) = Some n ∧ 0 < n.
Proof.
  unfold StockOzon.normalize_sku.
  destruct (is_none v) eqn:Hnone.
  { destruct v; try discriminate. simpl.
    split; [done|]. unfold py_isdigit. simpl. by intros [? _]. }
  destruct (py_isdigit (Py.strip (py_str py_repr v))) eqn:Hdig; simpl.
  - destruct (py_int_of_str (Py.strip (py_str py_repr v))) as [m|]; [|split; [done|]].
    + destruct (Z.ltb_spec 0 m).
      * split; [intros [= <-]; auto | intros (_ & [= <-] & _); done].
      * split; [done | intros (_ & [= <-] & ?); lia].
    + by intros (_ & ? & _).
  - split; [done | by intros [? _]].
Qed.



Lemma normalize_sku_int z :
  StockOzon.normalize_sku py_repr (VInt z) = Ok (if 0 <? z then Some z else None).
Proof.
  unfold StockOzon.normalize_sku. cbn [is_none py_str]. destruct z as [|p|p].
  - reflexivity.
  - rewrite (all_digits_strip _ (isdigit_all_digits _ (isdigit_str_of_int_pos p))).
    rewrite (py_isdigit_digits _ (isdigit_str_of_int_pos p)).
    by rewrite py_int_of_str_str_of_int.
  - assert (Py.strip (Py.str_of_int (Z.neg p)) = Py.str_of_int (Z.neg p)) as ->.
    { change (Py.str_of_int (Z.neg p)) with (String "-" (Py.str_of_int (Z.pos p))).
      rewrite strip_cons_nonspace by done.
      by rewrite (all_digits_rstrip _ (isdigit_all_digits _ (isdigit_str_of_int_pos p))). }
    by rewrite (py_isdigit_ascii _ (is_ascii_str_of_int _)).
Qed.

Lemma normalize_sku_positive v n :
  StockOzon.normalize_sku py_repr v = Ok (Some n) → 0 < n.
Proof. intros Hn. by apply normalize_sku_text in Hn as (_ & _ & ?). Qed.

Lemma normalize_sku_ends v : StockOzon.normalize_sku py_repr v ≠ OutOfFuel.
Proof.
  unfold StockOzon.normalize_sku. destruct (is_none v); [done|].
  destruct (negb _); [done|]. by destruct (py_int_of_str _).
Qed.

Lemma extract_first_sku it :
  StockOzon.extract_sku_from_item py_repr it = first_sku py_repr (sku_candidates it).
Proof.
  unfold StockOzon.extract_sku_from_item, sku_candidates.
  cbn [app first_sku]. unfold mbind, result_bind.
  destruct (StockOzon.normalize_sku py_repr (get it "sku")) as [[n|]|e|]; try done.
  destruct (StockOzon.normalize_sku py_repr (get it "sku_id")) as [[n|]|e|]; try done.
  destruct (get it "skus") as [| | | | |[|v0 l]|]; try done.
  cbn [first_sku]. unfold mbind, result_bind.
  by destruct (StockOzon.normalize_sku py_repr v0) as [[n|]|e|].
Qed.

Lemma first_sku_found vs n :
  first_sku py_repr vs = Ok (Some n) ↔
  ∃ before v after,
    vs = before ++ v :: after ∧
    Forall (λ u, StockOzon.normalize_sku py_repr u = Ok None) before ∧
    StockOzon.normalize_sku py_repr v = Ok (Some n).
Proof.
  induction vs as [|v vs IH]; cbn [first_sku].
  - split; [done|]. intros (before & ? & ? & Heq & _). by destruct before.
  - unfold mbind, result_bind.
    destruct (StockOzon.normalize_sku py_repr v) as [[m|]|e|] eqn:Hv.
    + split.
      * intros [= ->]. by exists [], v, vs.
      * intros ([|u before] & v' & after & Heq & Hbefore & Hv').
        -- injection Heq as <- _. congruence.
        -- injection Heq as <- _. apply Forall_cons in Hbefore as [Hu _]. congruence.
    + rewrite IH. split.
      * intros (before & v' & after & -> & Hbefore & Hv').
        exists (v :: before), v', after. split_and!; [done|by constructor|done].
      * intros ([|u before] & v' & after & Heq & Hbefore & Hv').
        -- injection Heq as <- _. congruence.
        -- injection Heq as <- ->. apply Forall_cons in Hbefore as [_ Hbefore].
           by exists before, v', after.
    + split; [done|].
      intros ([|u before] & v' & after & Heq & Hbefore & Hv').
      * injection Heq as <- _. congruence.
      * injection Heq as <- _. apply Forall_cons in Hbefore as [Hu _]. congruence.
    + split; [done|].
      intros ([|u before] & v' & after & Heq & Hbefore & Hv').
      * injection Heq as <- _. congruence.
      * injection Heq as <- _. apply Forall_cons in Hbefore as [Hu _]. congruence.
Qed.



Lemma extract_sku_positive it n :
  StockOzon.extract_sku_from_item py_repr it = Ok (Some n) → 0 < n.
Proof.
  rewrite extract_first_sku, first_sku_found.
  intros (_ & v & _ & _ & _ & Hv). by apply normalize_sku_positive in Hv.
Qed.

(** [sku_meta.setdefault] goes through when the derivation does. *)
Lemma add_sku_meta_inv sku_meta it final :
  StockOzon.add_sku_meta py_repr sku_meta it = Ok final →
  ∃ derived,
    StockOzon.extract_sku_from_item py_repr it = Ok derived ∧
    final = match derived with
            | None => sku_meta
            | Some sku =>
                match sku_meta !! sku with
                | Some _ => sku_meta
                | None =>
                    <[sku := [("name", get it "name"); ("offer_id", get it "offer_id")]]>
                      sku_meta
                end
            end.
Proof.
  unfold StockOzon.add_sku_meta, mbind, result_bind.
  destruct (StockOzon.extract_sku_from_item py_repr it) as [derived| |]; [|done..].
  intros [= <-]. by exists derived.
Qed.


End sku.

(** C7 as stated fails: the superscript two passes [isdigit()] and is
    refused by [int()], so it is neither mapped to a SKU nor to nothing,
    and a record that carries it under ["sku"] makes the derivation raise
    although ["sku_id"] holds a SKU. *)
Lemma superscript_sku_raises :
  py_isdigit superscript_two = true ∧
  py_int_of_str superscript_two = None ∧
  StockOzon.normalize_sku sample_repr (VStr superscript_two) = Raise ValueError ∧
  StockOzon.normalize_sku sample_repr (VInt 5) = Ok (Some 5) ∧
  StockOzon.extract_sku_from_item sample_repr
    [("sku", VStr superscript_two); ("sku_id", VInt 5)] = Raise ValueError.
Proof. split_and!; vm_compute; reflexivity. Qed.

(** * The request client *)

Section request_client.
Context {py_text : PyText}.

Lemma after_calls_0 w path payload : after_calls w 0 path payload [] = w.
Proof. destruct w. unfold after_calls. simpl. f_equal. lia. Qed.

(** One transient reply costs one call and one sleep, and leaves the loop
    with one attempt less and the next backoff. *)
Lemma post_attempts_transient path payload retries left backoff w r :
  net w (calls w) = Replies r →
  transient (status_code r) = true →
  post_attempts path payload retries (S left) backoff w =
  post_attempts path payload retries left (next_backoff backoff)
    (after_calls w 1 path payload [backoff]).
Proof.
  intros Hnet Htr. cbn [post_attempts]. unfold mbind, M_bind, requests_post.
  rewrite Hnet, Htr. unfold time_sleep, after_calls. simpl.
  by replace (calls w + 1)%nat with (S (calls w)) by lia.
Qed.

(** A reply that is neither transient nor a success raises at once. *)
Lemma post_attempts_rejected path payload retries left backoff w r :
  net w (calls w) = Replies r →
  transient (status_code r) = false →
  resp_ok r = false →
  post_attempts path payload retries (S left) backoff w =
  (Raise (HttpError (status_code r) path (body_data r)),
   after_calls w 1 path payload []).
Proof.
  intros Hnet Htr Hok. cbn [post_attempts]. unfold mbind, M_bind, requests_post.
  rewrite Hnet, Htr, Hok. unfold raise, after_calls. simpl.
  by replace (calls w + 1)%nat with (S (calls w)) by lia.
Qed.

Lemma post_attempts_accepted path payload retries left backoff w r :
  net w (calls w) = Replies r →
  transient (status_code r) = false →
  resp_ok r = true →
  post_attempts path payload retries (S left) backoff w =
  (Ok (body_data r), after_calls w 1 path payload []).
Proof.
  intros Hnet Htr Hok. cbn [post_attempts]. unfold mbind, M_bind, requests_post.
  rewrite Hnet, Htr, Hok. unfold mret, M_ret, after_calls. simpl.
  by replace (calls w + 1)%nat with (S (calls w)) by lia.
Qed.

Lemma after_calls_after_calls w n m path payload naps naps' :
  after_calls (after_calls w n path payload naps) m path payload naps' =
  after_calls w (n + m) path payload (naps ++ naps').
Proof.
  unfold after_calls. simpl. f_equal.
  - lia.
  - by rewrite app_assoc, <- replicate_add, Nat.add_comm.
  - by rewrite rev_app_distr, app_assoc.
Qed.

(** [k] transient replies in a row, with attempts to spare. *)
Lemma post_attempts_skip_transient path payload retries k : ∀ left backoff w,
  (∀ i, (i < k)%nat →
        ∃ r', net w (calls w + i) = Replies r' ∧ transient (status_code r') = true) →
  post_attempts path payload retries (k + left) backoff w =
  post_attempts path payload retries left (Nat.iter k next_backoff backoff)
    (after_calls w k path payload (backoff_schedule backoff k)).
Proof.
  induction k as [|k IH]; intros left backoff w Hk.
  - simpl. by rewrite after_calls_0.
  - destruct (Hk O ltac:(lia)) as (r' & Hr' & Htr).
    rewrite Nat.add_0_r in Hr'.
    change (S k + left)%nat with (S (k + left)).
    rewrite (post_attempts_transient _ _ _ _ _ _ r' Hr' Htr).
    rewrite IH.
    + rewrite after_calls_after_calls, Nat.iter_succ_r. reflexivity.
    + intros i Hi. destruct (Hk (S i) ltac:(lia)) as (r'' & Hr'' & Htr'').
      exists r''. split; [|done]. simpl. rewrite <- Hr''. f_equal. lia.
Qed.

Lemma length_backoff_schedule backoff k :
  length (backoff_schedule backoff k) = k.
Proof. revert backoff. induction k as [|k IH]; intros b; simpl; [done|]. by rewrite IH. Qed.

(** C9. A reply whose status is neither a success nor transient makes
    [post_ozon] raise on that very attempt, with the status and the body
    (the parsed JSON when it parses, the raw text otherwise): after [k]
    transient replies the client has made [k + 1] calls and slept [k] times,
    and nothing more. *)
Theorem post_ozon_rejected_at_once path payload retries w k r :
  (k < retries)%nat →
  (∀ i, (i < k)%nat →
        ∃ r', net w (calls w + i) = Replies r' ∧ transient (status_code r') = true) →
  net w (calls w + k) = Replies r →
  transient (status_code r) = false →
  resp_ok r = false →
  post_ozon path payload retries w =
    (Raise (HttpError (status_code r) path (body_data r)),
     after_calls w (k + 1) path payload (backoff_schedule 1 k)) ∧
  body_data r = match json_body r with Some v => v | None => VStr (text r) end ∧
  length (backoff_schedule 1 k) = k.
Proof.
  intros Hk Htrans Hr Hnt Hok. split_and!.
  - unfold post_ozon.
    replace retries with (k + S (retries - k - 1))%nat at 2 by lia.
    rewrite (post_attempts_skip_transient _ _ _ k _ _ _ Htrans).
    rewrite (post_attempts_rejected _ _ _ _ _ _ r); [|done..].
    by rewrite after_calls_after_calls, app_nil_r.
  - reflexivity.
  - apply length_backoff_schedule.
Qed.

Lemma post_ozon_rejected_at_once_witness :
  let w := scripted [reply 429 None "busy"; reply 404 None "not found";
                     reply 200 (Some VNone) "null"] in
  post_ozon "/v1/cluster/list" VNone 6 w =
    (Raise (HttpError 404 "/v1/cluster/list" (VStr "not found")),
     after_calls w 2 "/v1/cluster/list" VNone [1]).
Proof.
  intros w.
  refine (proj1 (post_ozon_rejected_at_once "/v1/cluster/list" VNone 6 w 1
                   {| status_code := 404; json_body := None; text := "not found" |}
                   _ _ _ _ _)).
  - lia.
  - intros i Hi. assert (i = O) as -> by lia. eexists. split; reflexivity.
  - reflexivity.
  - reflexivity.
  - reflexivity.
Defined.

End request_client.

(** * Running the monad *)

Section monad_facts.
Context {py_text : PyText}.
Context {A B : Type}.

Lemma bind_ok (m : M A) (k : A → M B) w a w1 :
  m w = (Ok a, w1) → (m ≫= k) w = k a w1.
Proof. intros H. unfold mbind, M_bind. by rewrite H. Qed.

Lemma bind_raise (m : M A) (k : A → M B) w e w1 :
  m w = (Raise e, w1) → (m ≫= k) w = (Raise e, w1).
Proof. intros H. unfold mbind, M_bind. by rewrite H. Qed.

Lemma bind_lift_ok (a : A) (k : A → M B) w : (lift (Ok a) ≫= k) w = k a w.
Proof. reflexivity. Qed.

Lemma bind_mret (a : A) (k : A → M B) w : (mret a ≫= k) w = k a w.
Proof. reflexivity. Qed.

Lemma result_bind_ok (a : A) (k : A → result B) : (Ok a ≫= k) = k a.
Proof. reflexivity. Qed.

End monad_facts.

Lemma py_or_truthy a b : truthy a = true → py_or a b = a.
Proof. unfold py_or. by intros ->. Qed.

Lemma py_or_falsy a b : truthy a = false → py_or a b = b.
Proof. unfold py_or. by intros ->. Qed.

Lemma py_or_dict_empty r : py_or (VDict r) (VDict []) = VDict r.
Proof. by destruct r. Qed.

Lemma py_or_list_empty l : py_or (VList l) (VList []) = VList l.
Proof. by destruct l. Qed.

Lemma foldl_result_app {A B} (f : A → B → result A) a l1 l2 :
  foldl_result f a (l1 ++ l2) = (a' ← foldl_result f a l1; foldl_result f a' l2).
Proof.
  revert a. induction l1 as [|x l1 IH]; intros a; simpl; [done|].
  unfold mbind, result_bind. destruct (f a x); simpl; [apply IH|done..].
Qed.

(** * The paginated collector *)

Section collector.
Context {py_text : PyText}.
Variable py_repr : value → string.

Lemma append_record_ids_stock records : ∀ acc,
  foldl_result (StockOzon.append_product_id py_repr) acc (VDict <$> records) =
  Ok (acc ++ record_ids py_repr records).
Proof.
  induction records as [|it records IH]; intros acc; simpl.
  - by rewrite app_nil_r.
  - unfold mbind, result_bind. simpl. rewrite IH. unfold record_ids. simpl.
    destruct (get it "product_id"); simpl; by rewrite <- ?app_assoc.
Qed.

Lemma append_record_ids_export records : ∀ acc,
  foldl_result (ExportProductsOzon.append_product_id py_repr) acc (VDict <$> records) =
  Ok (acc ++ record_ids py_repr records).
Proof. apply append_record_ids_stock. Qed.

Lemma truthy_str s : truthy (VStr s) = negb (String.eqb s "").
Proof. reflexivity. Qed.

(** One unrolling of the loop of [stock_ozon.py] on a response that
    carries a page. *)
Lemma stock_loop_step fuel cursor acc w data pg w1 :
  post_ozon "/v3/product/list" (StockOzon.product_list_payload cursor)
    StockOzon.default_retries w = (Ok data, w1) →
  page_of py_repr data pg →
  StockOzon.product_ids_loop py_repr (S fuel) cursor acc w =
  if decide (pg.1 = []) then (Ok acc, w1)
  else if decide (pg.2 = "") then (Ok (acc ++ record_ids py_repr pg.1), w1)
  else StockOzon.product_ids_loop py_repr fuel pg.2 (acc ++ record_ids py_repr pg.1) w1.
Proof.
  intros Hpost (d & r & -> & Hres & Hitems & Hcur).
  cbn [StockOzon.product_ids_loop]. rewrite (bind_ok _ _ _ _ _ Hpost).
  rewrite py_or_truthy by (destruct d; [discriminate Hres | done]).
  cbn [get_attr]. rewrite bind_lift_ok, Hres, py_or_dict_empty.
  cbn [get_attr]. rewrite bind_lift_ok, Hitems, py_or_list_empty.
  destruct pg as [records next]. simpl in Hcur, Hitems |- *.
  destruct records as [|it records]; [done|].
  rewrite decide_False by done.
  rewrite append_record_ids_stock, fmap_cons. cbn [negb].
  rewrite !bind_lift_ok, Hcur, negb_involutive.
  destruct (String.eqb_spec next ""); [by rewrite decide_True|by rewrite decide_False].
Qed.

(** The same for the loop of [export_products_ozon.py]. *)
Lemma export_loop_step fuel cursor acc w data pg w1 :
  post_ozon "/v3/product/list" (StockOzon.product_list_payload cursor)
    ExportProductsOzon.default_retries w = (Ok data, w1) →
  page_of py_repr data pg →
  ExportProductsOzon.product_ids_loop py_repr (S fuel) cursor acc w =
  if decide (pg.1 = []) then (Ok acc, w1)
  else if decide (pg.2 = "") then (Ok (acc ++ record_ids py_repr pg.1), w1)
  else ExportProductsOzon.product_ids_loop py_repr fuel pg.2
         (acc ++ record_ids py_repr pg.1) w1.
Proof.
  intros Hpost (d & r & -> & Hres & Hitems & Hcur).
  cbn [ExportProductsOzon.product_ids_loop].
  change (ExportProductsOzon.product_list_payload cursor)
    with (StockOzon.product_list_payload cursor).
  rewrite (bind_ok _ _ _ _ _ Hpost).
  cbn [is_dict negb get_attr]. rewrite bind_lift_ok, Hres, py_or_dict_empty.
  cbn [get_attr]. rewrite bind_lift_ok, Hitems, py_or_list_empty.
  destruct pg as [records next]. simpl in Hcur, Hitems |- *.
  destruct records as [|it records]; [done|].
  rewrite decide_False by done.
  rewrite append_record_ids_export, fmap_cons. cbn [negb].
  rewrite !bind_lift_ok, Hcur.
  destruct (String.eqb_spec next ""); [by rewrite decide_True|by rewrite decide_False].
Qed.



(** The last page of a served sequence ends the listing, and no page before
    it does. *)
Lemma serves_last_page retries w cursor pages w' :
  serves py_repr retries w cursor pages w' →
  ∃ before pg, pages = before ++ [pg] ∧ last_page pg ∧
               Forall (λ p, ¬ last_page p) before.
Proof.
  induction 1 as [w cursor data pg w' _ _ Hlast
                 |w cursor data pg w1 pages w' _ _ Hlast _ IH].
  - exists [], pg. by repeat split.
  - destruct IH as (before & pg' & -> & Hl & Hb).
    exists (pg :: before), pg'. repeat split; [done|]. by constructor.
Qed.



End collector.



(** C3 as stated fails: the collectors return identifiers, not records, and
    a record that carries none is left out.  Of the three records of this
    one-page listing a single identifier is returned. *)
Lemma collector_drops_records_without_id :
  page_of sample_repr (listing_response (VDict <$> sparse_records) (VStr ""))
    (sparse_records, "") ∧
  last_page (sparse_records, "") ∧
  length sparse_records = 3%nat ∧
  (StockOzon.get_all_product_ids sample_repr 1 sparse_listing).1 = Ok ["2"] ∧
  (ExportProductsOzon.get_all_product_ids sample_repr 1 sparse_listing).1 = Ok ["2"].
Proof.
  split_and!; try reflexivity.
  - eexists _, _. split_and!; reflexivity.
  - by right.
Qed.

(** * Packaging volume (export_products_ozon.py, ozon_product_info.py) *)

Section volume.
Context {py_text : PyText}.
Variable float_of_str : string → option float.

Lemma to_float_safe_ok v f :
  py_float float_of_str v = Ok f →
  ExportProductsOzon.to_float_safe float_of_str v = Some f.
Proof.
  intros H. unfold ExportProductsOzon.to_float_safe. rewrite H.
  by destruct v.
Qed.

Lemma to_float_safe_none v :
  (∀ f, py_float float_of_str v ≠ Ok f) →
  ExportProductsOzon.to_float_safe float_of_str v = None.
Proof.
  intros H. unfold ExportProductsOzon.to_float_safe.
  destruct (is_none v); [done|].
  destruct (py_float float_of_str v) as [f| |] eqn:E; [|done..].
  by destruct (H f).
Qed.

(** The volume both functions compute from three numbers and a unit. *)
Lemma volume_of_numbers depth width height unit d w h :
  py_float float_of_str depth = Ok d →
  py_float float_of_str width = Ok w →
  py_float float_of_str height = Ok h →
  let raw := (d * w * h)%float in
  let u := Py.strip (Py.lower unit) in
  let expected :=
    if String.eqb u "mm" then (raw / 1000000000.0)%float
    else if String.eqb u "cm" then (raw / 1000000.0)%float
    else raw in
  ExportProductsOzon.calc_volume_m3 float_of_str depth width height (VStr unit)
    = Ok (Some expected) ∧
  OzonProductInfo.calc_volume float_of_str depth width height (VStr unit)
    = Ok (Some expected).
Proof.
  intros Hd Hw Hh raw u expected.
  unfold ExportProductsOzon.calc_volume_m3, OzonProductInfo.calc_volume.
  rewrite (to_float_safe_ok _ _ Hd), (to_float_safe_ok _ _ Hw), (to_float_safe_ok _ _ Hh).
  rewrite Hd, Hw, Hh.
  unfold ExportProductsOzon.normal_unit, OzonProductInfo.normal_unit, py_or.
  subst expected u raw.
  destruct unit as [|c r]; [done|]. cbn [truthy String.eqb negb].
  rewrite !result_bind_ok.
  destruct (String.eqb _ "mm"); [done|].
  destruct (String.eqb _ "cm"); [done|].
  by destruct (String.eqb _ "m").
Qed.

Lemma volume_absent depth width height unit :
  (∀ f, py_float float_of_str depth ≠ Ok f) ∨
  (∀ f, py_float float_of_str width ≠ Ok f) ∨
  (∀ f, py_float float_of_str height ≠ Ok f) →
  ExportProductsOzon.calc_volume_m3 float_of_str depth width height unit = Ok None ∧
  OzonProductInfo.calc_volume float_of_str depth width height unit = Ok None.
Proof.
  intros H.
  unfold ExportProductsOzon.calc_volume_m3, OzonProductInfo.calc_volume.
  destruct H as [H|[H|H]]; rewrite (to_float_safe_none _ H).
  - split; [done|].
    destruct (py_float float_of_str depth) as [f| |] eqn:E; [by destruct (H f)|done..].
  - split; [by destruct (ExportProductsOzon.to_float_safe float_of_str depth)|].
    destruct (py_float float_of_str depth); [|done..].
    destruct (py_float float_of_str width) as [f| |] eqn:E; [by destruct (H f)|done..].
  - split.
    { by destruct (ExportProductsOzon.to_float_safe float_of_str depth),
                  (ExportProductsOzon.to_float_safe float_of_str width). }
    destruct (py_float float_of_str depth); [|done..].
    destruct (py_float float_of_str width); [|done..].
    destruct (py_float float_of_str height) as [f| |] eqn:E; [by destruct (H f)|done..].
Qed.

(** C6. With numeric [d], [w], [h], [calc_volume_m3] and [calc_volume]
    return [d*w*h/1e9] for the unit ["mm"], [d*w*h/1e6] for ["cm"], [d*w*h]
    for ["m"] and for any unit they do not recognise (the unit is read in
    lower case, blanks stripped); when one of the three is not numeric they
    return nothing, whatever the unit. *)
Theorem packaging_volume depth width height :
  (∀ d w h,
     py_float float_of_str depth = Ok d →
     py_float float_of_str width = Ok w →
     py_float float_of_str height = Ok h →
     let both (unit : string) (volume : float) :=
       ExportProductsOzon.calc_volume_m3 float_of_str depth width height (VStr unit)
         = Ok (Some volume) ∧
       OzonProductInfo.calc_volume float_of_str depth width height (VStr unit)
         = Ok (Some volume) in
     both "mm" (d * w * h / 1000000000.0)%float ∧
     both "cm" (d * w * h / 1000000.0)%float ∧
     both "m" (d * w * h)%float ∧
     (∀ unit, Py.strip (Py.lower unit) = "mm" → both unit (d * w * h / 1000000000.0)%float) ∧
     (∀ unit, Py.strip (Py.lower unit) = "cm" → both unit (d * w * h / 1000000.0)%float) ∧
     (∀ unit, Py.strip (Py.lower unit) ≠ "mm" → Py.strip (Py.lower unit) ≠ "cm" →
              both unit (d * w * h)%float)) ∧
  (∀ unit,
     (∀ f, py_float float_of_str depth ≠ Ok f) ∨
     (∀ f, py_float float_of_str width ≠ Ok f) ∨
     (∀ f, py_float float_of_str height ≠ Ok f) →
     ExportProductsOzon.calc_volume_m3 float_of_str depth width height unit = Ok None ∧
     OzonProductInfo.calc_volume float_of_str depth width height unit = Ok None).
Proof.
  split; [|intros unit; apply volume_absent].
  intros d w h Hd Hw Hh both.
  pose proof (λ unit, volume_of_numbers depth width height unit d w h Hd Hw Hh) as V.
  cbn zeta in V. subst both. cbn beta.
  refine (conj _ (conj _ (conj _ (conj _ (conj _ _))))).
  - apply (V "mm").
  - apply (V "cm").
  - apply (V "m").
  - intros unit Hu. specialize (V unit). by rewrite Hu in V.
  - intros unit Hu. specialize (V unit). by rewrite Hu in V.
  - intros unit H1 H2. specialize (V unit).
    apply String.eqb_neq in H1, H2. by rewrite H1, H2 in V.
Qed.

End volume.

Lemma packaging_volume_witness :
  let float_of_str := λ s, if String.eqb s "4" then Some 4%float else None in
  ExportProductsOzon.calc_volume_m3 float_of_str (VInt 2) (VFloat 3) (VStr "4") (VStr "mm")
    = Ok (Some (24 / 1000000000.0)%float) ∧
  OzonProductInfo.calc_volume float_of_str (VInt 2) (VFloat 3) (VStr "4") (VStr "mm")
    = Ok (Some (24 / 1000000000.0)%float).
Proof.
  intros float_of_str.
  exact (proj1 (proj1 (packaging_volume float_of_str (VInt 2) (VFloat 3) (VStr "4"))
                  2%float 3%float 4%float eq_refl eq_refl eq_refl)).
Defined.

(** * The schema-tolerant extractor (fbo_clusters.py) *)

Section extractor.
Context {py_text : PyText}.

Lemma check_priority_key_candidate d path st k :
  FboClusters.check_priority_key d path st k =
  match priority_candidate d path k with
  | Some c => keep_longest st c
  | None => st
  end.
Proof.
  unfold FboClusters.check_priority_key, priority_candidate.
  destruct (lookup_key k d) as [[]|]; try done.
  by destruct (all_dicts _).
Qed.

Lemma foldl_check_priority_keys d path keys : ∀ st,
  foldl (FboClusters.check_priority_key d path) st keys =
  foldl keep_longest st (omap (priority_candidate d path) keys).
Proof.
  induction keys as [|k keys IH]; intros st; [done|].
  cbn [foldl omap list_omap]. rewrite IH, check_priority_key_candidate.
  by destruct (priority_candidate d path k).
Qed.

(** The walk is the fold of [keep_longest] over the candidates in
    depth-first order. *)
Lemma walk_candidates node : ∀ path st,
  FboClusters.walk node path st = foldl keep_longest st (candidates node path).
Proof.
  induction node as [| | | | |l IH|d IH] using value_nested_ind; intros path st;
    try reflexivity.
  - cbn [FboClusters.walk candidates]. destruct (all_dicts l); [reflexivity|].
    generalize O. revert st.
    induction IH as [|v r Hv _ IHr]; intros st i; [reflexivity|].
    rewrite foldl_app, <- Hv. apply IHr.
  - cbn [FboClusters.walk candidates].
    rewrite foldl_app, <- foldl_check_priority_keys.
    generalize (foldl (FboClusters.check_priority_key d path) st FboClusters.priority_keys).
    induction IH as [|kv r Hv _ IHr]; intros st'; [reflexivity|].
    rewrite foldl_app, <- Hv. apply IHr.
Qed.

Lemma find_best_candidates obj :
  FboClusters.find_best_list_of_dicts obj =
  foldl keep_longest ([], "") (candidates obj "").
Proof. apply walk_candidates. Qed.

Lemma keep_longest_cases st c :
  (keep_longest st c = st ∧ length c.1 ≤ length st.1)%nat ∨
  (keep_longest st c = c ∧ length st.1 < length c.1)%nat.
Proof.
  unfold keep_longest, FboClusters.consider.
  destruct (Nat.ltb_spec (length st.1) (length c.1)); [right|left]; by destruct c.
Qed.

(** The fold never shortens the best, ends no shorter than any candidate,
    and ends on the initial state or on one of the candidates. *)
Lemma foldl_keep_longest_max cs : ∀ st,
  let r := foldl keep_longest st cs in
  (length st.1 ≤ length r.1)%nat ∧
  Forall (λ c, length c.1 ≤ length r.1)%nat cs ∧
  (r = st ∨ r ∈ cs).
Proof.
  induction cs as [|c cs IH]; intros st; simpl.
  - by repeat split; [|constructor|left].
  - destruct (IH (keep_longest st c)) as (Hle & Hall & Hin).
    destruct (keep_longest_cases st c) as [[Hk Hc]|[Hk Hc]]; rewrite Hk in *.
    + split_and!; [done| |].
      * constructor; [lia|done].
      * destruct Hin; [by left|right; by constructor].
    + split_and!; [lia| |].
      * constructor; [lia|done].
      * right. destruct Hin as [->|]; [constructor|by constructor].
Qed.



Lemma candidates_all_dicts node : ∀ path c,
  c ∈ candidates node path → all_dicts c.1 = true.
Proof.
  induction node as [| | | | |l IH|d IH] using value_nested_ind; intros path c;
    cbn [candidates]; try (by intros ?%elem_of_nil).
  - destruct (all_dicts l) eqn:Hl.
    { by intros ->%list_elem_of_singleton. }
    clear Hl. generalize O.
    induction IH as [|v r Hv _ IHr]; intros i; [by intros ?%elem_of_nil|].
    intros [?|?]%elem_of_app; eauto.
  - intros [Hc|Hc]%elem_of_app.
    + apply list_elem_of_omap in Hc as (k & _ & Hk).
      unfold priority_candidate in Hk.
      destruct (lookup_key k d) as [[]|]; try done.
      destruct (all_dicts l) eqn:Hl; [|done]. by injection Hk as <-.
    + revert Hc. induction IH as [|kv r Hv _ IHr]; [by intros ?%elem_of_nil|].
      intros [?|?]%elem_of_app; eauto.
Qed.

Lemma children_candidates (d : dict) path k v c :
  (k, v) ∈ d →
  c ∈ candidates v (FboClusters.child_path path k) →
  c ∈ (fix children (kvs : dict) : list candidate :=
         match kvs with
         | [] => []
         | kv :: r => candidates (snd kv) (FboClusters.child_path path (fst kv))
                      ++ children r
         end) d.
Proof.
  induction d as [|kv d IH]; [by intros ?%elem_of_nil|].
  intros [Heq|Hin]%elem_of_cons Hc; apply elem_of_app; [subst kv; by left|right; auto].
Qed.

Lemma elements_candidates (l : list value) path v c :
  v ∈ l → (∀ p, ∃ q, (c, q) ∈ candidates v p) →
  ∀ i, ∃ q, (c, q) ∈
    (fix elements (l : list value) (i : nat) : list candidate :=
       match l with
       | [] => []
       | v :: r => candidates v (FboClusters.index_path path i) ++ elements r (S i)
       end) l i.
Proof.
  intros Hin Hc. induction l as [|x l IH]; [by apply elem_of_nil in Hin|].
  intros i. apply elem_of_cons in Hin as [->|Hin].
  - destruct (Hc (FboClusters.index_path path i)) as [q Hq].
    exists q. apply elem_of_app. by left.
  - destruct (IH Hin (S i)) as [q Hq]. exists q. apply elem_of_app. by right.
Qed.

(** Every candidate that the walk reaches is in its candidate sequence. *)
Lemma reached_candidates obj node c :
  reached obj node → candidate_at node c →
  ∀ path, ∃ q, (c, q) ∈ candidates obj path.
Proof.
  induction 1 as [v|d k v node Hin _ IH|l v node Hl Hin _ IH]; intros Hc path.
  - destruct Hc as [Hall [->|(d & k & -> & Hk & Hlk)]]; cbn [candidates].
    + rewrite Hall. eexists. apply list_elem_of_singleton. reflexivity.
    + exists (FboClusters.child_path path k). apply elem_of_app. left.
      apply list_elem_of_omap. exists k. split; [done|].
      unfold priority_candidate. by rewrite Hlk, Hall.
  - destruct (IH Hc (FboClusters.child_path path k)) as [q Hq].
    exists q. cbn [candidates]. apply elem_of_app. right.
    by apply children_candidates with k v.
  - cbn [candidates]. rewrite Hl.
    apply elements_candidates with v; [done|]. intros p. by apply IH.
Qed.

(** Every candidate of the sequence is one that the walk reaches. *)
Lemma candidates_reached node : ∀ path c,
  c ∈ candidates node path → ∃ n, reached node n ∧ candidate_at n c.1.
Proof.
  induction node as [| | | | |l IH|d IH] using value_nested_ind; intros path c;
    cbn [candidates]; try (by intros ?%elem_of_nil).
  - destruct (all_dicts l) eqn:Hl.
    { intros ->%list_elem_of_singleton. exists (VList l).
      split; [constructor|]. split; [done|by left]. }
    assert (∀ i, c ∈ (fix elements (l : list value) (i : nat) : list candidate :=
                        match l with
                        | [] => []
                        | v :: r => candidates v (FboClusters.index_path path i)
                                    ++ elements r (S i)
                        end) l i →
                 ∃ v n, v ∈ l ∧ reached v n ∧ candidate_at n c.1) as Hel.
    { clear Hl. induction IH as [|v r Hv _ IHr]; intros i; [by intros ?%elem_of_nil|].
      intros [Hc|Hc]%elem_of_app.
      - destruct (Hv _ _ Hc) as (n & ? & ?). exists v, n. split; [constructor|done].
      - destruct (IHr _ Hc) as (v' & n & ? & ? & ?). exists v', n.
        split; [by constructor|done]. }
    intros Hc. destruct (Hel _ Hc) as (v & n & Hin & Hr & Hcand).
    exists n. split; [|done]. by apply reached_list with v.
  - intros [Hc|Hc]%elem_of_app.
    + apply list_elem_of_omap in Hc as (k & Hk & Hpk).
      unfold priority_candidate in Hpk.
      destruct (lookup_key k d) as [[| | | | |cand|]|] eqn:Hlk; try done.
      destruct (all_dicts cand) eqn:Hall; [|done]. injection Hpk as <-.
      exists (VDict d). split; [constructor|]. split; [done|]. right. by exists d, k.
    + assert (∃ k v n, (k, v) ∈ d ∧ reached v n ∧ candidate_at n c.1)
        as (k & v & n & Hin & Hr & Hcand).
      { revert Hc. induction IH as [|[k v] r Hv _ IHr]; [by intros ?%elem_of_nil|].
        intros [Hc|Hc]%elem_of_app.
        - destruct (Hv _ _ Hc) as (n & ? & ?). exists k, v, n.
          split; [constructor|done].
        - destruct (IHr Hc) as (k' & v' & n & ? & ? & ?). exists k', v', n.
          split; [by constructor|done]. }
      exists n. split; [|done]. by apply reached_dict with k v.
Qed.

(** C2, as amended. The result of [find_best_list_of_dicts] is a
    homogeneous list of records, at least as long as every candidate that
    the walk reaches: the walk goes into all children of an object and into
    the elements of a list that is not itself a list of records, and it does
    not go into the elements of a list of records.  The result is empty or
    is one of the candidates reached. *)
Theorem best_among_reached obj :
  let best := (FboClusters.find_best_list_of_dicts obj).1 in
  all_dicts best = true ∧
  (∀ node c, reached obj node → candidate_at node c → (length c ≤ length best)%nat) ∧
  (best = [] ∨ ∃ node, reached obj node ∧ candidate_at node best).
Proof.
  intros best. subst best. rewrite find_best_candidates.
  destruct (foldl_keep_longest_max (candidates obj "") ([], "")) as (_ & Hmax & Hin).
  cbv zeta in Hmax, Hin. split_and!.
  - destruct Hin as [->|Hin]; [done|]. by apply candidates_all_dicts in Hin.
  - intros node c Hr Hc. destruct (reached_candidates _ _ _ Hr Hc "") as [q Hq].
    by apply (proj1 (Forall_forall _ _) Hmax) in Hq.
  - destruct Hin as [->|Hin]; [by left|right]. by apply candidates_reached in Hin.
Qed.

(** C2 as stated fails: a list of records nested in an element of a list of
    records is not examined. *)
Lemma nested_candidate_missed :
  ∃ node c, inside nested_response node ∧ candidate_at node c ∧
            (length (FboClusters.find_best_list_of_dicts nested_response).1
             < length c)%nat.
Proof.
  exists (VDict [("id", VInt 1);
                 ("clusters", VList [VDict [("id", VInt 10)]; VDict [("id", VInt 11)]])]),
         [VDict [("id", VInt 10)]; VDict [("id", VInt 11)]].
  split_and!.
  - eapply inside_dict; [apply list_elem_of_here|].
    eapply inside_list; [apply list_elem_of_here|]. constructor.
  - split; [reflexivity|]. right. eexists _, "clusters". split_and!; [reflexivity| |reflexivity].
    apply list_elem_of_here.
  - vm_compute. lia.
Qed.



(** C4 as stated fails: on equal length neither the earlier priority key
    nor the shallower match wins against a list met earlier in the walk.
    The list under [data], two levels down the first key, is returned, not
    the list under [clusters], one level down the second key. *)
Lemma later_key_deeper_match_wins :
  candidates sibling_response "" =
    [([VDict [("id", VInt 1)]; VDict [("id", VInt 2)]], "a.b.data");
     ([VDict [("id", VInt 1)]; VDict [("id", VInt 2)]], "a.b.data");
     ([VDict [("id", VInt 3)]; VDict [("id", VInt 4)]], "z.clusters");
     ([VDict [("id", VInt 3)]; VDict [("id", VInt 4)]], "z.clusters")] ∧
  FboClusters.find_best_list_of_dicts sibling_response =
    ([VDict [("id", VInt 1)]; VDict [("id", VInt 2)]], "a.b.data").
Proof. split; reflexivity. Qed.

End extractor.

(** * The warehouse table (fbo_clusters.py) *)

Section first_by_facts.
Context {py_text : PyText}.
Context {A K : Type} `{EqDecision K} (key : A → K).

Lemma first_by_keys_fresh l : ∀ seen x,
  x ∈ first_by key seen l → key x ∉ seen.
Proof.
  induction l as [|y l IH]; intros seen x; simpl; [by intros ?%elem_of_nil|].
  destruct (decide (key y ∈ seen)) as [|Hy]; [by apply IH|].
  intros [->|Hx]%elem_of_cons; [done|].
  apply IH in Hx. intros ?. apply Hx. by constructor.
Qed.

Lemma first_by_NoDup l : ∀ seen, NoDup (key <$> first_by key seen l).
Proof.
  induction l as [|y l IH]; intros seen; simpl; [constructor|].
  destruct (decide (key y ∈ seen)); [apply IH|].
  rewrite fmap_cons. constructor; [|apply IH].
  intros (x & Hk & Hx)%list_elem_of_fmap.
  apply first_by_keys_fresh in Hx. apply Hx. rewrite <- Hk. constructor.
Qed.

(** An element is kept exactly when its key is new and no element before it
    has the same key. *)
Lemma first_by_spec l : ∀ seen x,
  x ∈ first_by key seen l ↔
  ∃ pre post, l = pre ++ (x :: post) ∧ (key x ∉ seen) ∧ (key x ∉ (key <$> pre)).
Proof.
  induction l as [|y l IH]; intros seen x; simpl.
  - split; [by intros ?%elem_of_nil|]. intros (pre & post & Hl & _).
    by destruct pre.
  - destruct (decide (key y ∈ seen)) as [Hy|Hy].
    + rewrite IH. split.
      * intros (pre & post & -> & Hs & Hp). exists (y :: pre), post.
        split_and!; [done..|]. rewrite fmap_cons.
        intros [Hk|?]%elem_of_cons; [|done]. by rewrite Hk in Hs.
      * intros (pre & post & Hl & Hs & Hp). destruct pre as [|z pre].
        { injection Hl as <- _. done. }
        injection Hl as <- ->. exists pre, post. split_and!; [done..|].
        intros ?. apply Hp. rewrite fmap_cons. by constructor.
    + rewrite elem_of_cons, IH. split.
      * intros [->|(pre & post & -> & Hs & Hp)].
        { exists [], l. split_and!; [done..|]. by intros ?%elem_of_nil. }
        exists (y :: pre), post. split_and!; [done| |].
        -- intros ?. apply Hs. by constructor.
        -- rewrite fmap_cons. intros [Hk|?]%elem_of_cons; [|done].
           apply Hs. rewrite Hk. constructor.
      * intros (pre & post & Hl & Hs & Hp). destruct pre as [|z pre].
        { injection Hl as <- _. by left. }
        injection Hl as <- ->. right. exists pre, post. split_and!; [done| |].
        -- intros [Hk|?]%elem_of_cons; [|done]. apply Hp. rewrite fmap_cons, Hk.
           constructor.
        -- intros ?. apply Hp. rewrite fmap_cons. by constructor.
Qed.

End first_by_facts.

Section warehouses.
Context {py_text : PyText}.
Variable py_repr : value → string.

Lemma warehouse_step_named warehouse_map rid st r :
  FboClusters.warehouse_step warehouse_map rid st r =
  match name_ref warehouse_map rid r with
  | Some x => take_ref st x
  | None => st
  end.
Proof.
  unfold FboClusters.warehouse_step, name_ref, FboClusters.no_name.
  destruct (FboClusters.resolve_name warehouse_map r) as [name|]; [|done].
  by destruct (String.eqb name "").
Qed.

Lemma foldl_warehouse_step warehouse_map rid refs : ∀ st,
  foldl (FboClusters.warehouse_step warehouse_map rid) st refs =
  foldl take_ref st (omap (name_ref warehouse_map rid) refs).
Proof.
  induction refs as [|r refs IH]; intros st; [done|].
  cbn [foldl omap list_omap]. rewrite IH, warehouse_step_named.
  by destruct (name_ref warehouse_map rid r).
Qed.

Lemma cluster_step_named m warehouse_map st c :
  FboClusters.cluster_step py_repr m warehouse_map st c =
  foldl take_ref st (cluster_named_refs py_repr m warehouse_map c).
Proof.
  unfold FboClusters.cluster_step, cluster_named_refs.
  destruct (FboClusters.pick c _); [|done].
  destruct (m !! _); [|done]. apply foldl_warehouse_step.
Qed.

Lemma foldl_cluster_step m warehouse_map clusters : ∀ st,
  foldl (FboClusters.cluster_step py_repr m warehouse_map) st clusters =
  foldl take_ref st (named_refs py_repr m warehouse_map clusters).
Proof.
  unfold named_refs.
  induction clusters as [|c clusters IH]; intros st; [done|].
  rewrite fmap_cons. cbn [foldl concat]. by rewrite foldl_app, IH, cluster_step_named.
Qed.

(** The rows grow by the references whose key is new; [seen] holds the keys
    met so far. *)
Lemma foldl_take_ref l : ∀ rows (seen : gset (Z * string)) (met : list (Z * string)),
  (∀ k, k ∈ seen ↔ k ∈ met) →
  (foldl take_ref (rows, seen) l).1 =
  rows ++ (row_of <$> first_by named_ref_key met l).
Proof.
  induction l as [|x l IH]; intros rows seen met Hseen.
  - simpl. by rewrite app_nil_r.
  - cbn [foldl first_by]. unfold take_ref at 2. cbn [fst snd].
    destruct (decide (named_ref_key x ∈ seen)) as [Hin|Hin].
    + rewrite decide_True by (by apply Hseen). by apply IH.
    + rewrite decide_False by (by rewrite <- Hseen).
      rewrite (IH _ _ (named_ref_key x :: met)).
      * rewrite fmap_cons, <- app_assoc. reflexivity.
      * intros k. rewrite elem_of_union, elem_of_singleton, elem_of_cons, Hseen. tauto.
Qed.

Lemma build_warehouses_first_by clusters m warehouse_map :
  FboClusters.build_warehouses py_repr clusters m warehouse_map =
  row_of <$> first_by named_ref_key [] (named_refs py_repr m warehouse_map clusters).
Proof.
  unfold FboClusters.build_warehouses. rewrite foldl_cluster_step.
  rewrite (foldl_take_ref _ [] ∅ []); [done|]. intros k. set_solver.
Qed.

Lemma foldl_result_invariant {A B} (P : A → Prop) (f : A → B → result A) l :
  (∀ a x a', P a → f a x = Ok a' → P a') →
  ∀ a a', P a → foldl_result f a l = Ok a' → P a'.
Proof.
  intros Hf. induction l as [|x l IH]; intros a a' Ha; simpl.
  - by intros [= <-].
  - destruct (f a x) as [a1| |] eqn:E; simpl; [|done..]. eauto.
Qed.

(** Every region id handed out by [build_regions] is the id of a row of
    the region table. *)
Lemma build_regions_ids clusters regions m :
  FboClusters.build_regions py_repr clusters = Ok (regions, m) →
  ∀ cid rid, m !! cid = Some rid →
             ∃ region, region ∈ regions ∧ get region "id" = VInt rid.
Proof.
  unfold FboClusters.build_regions.
  destruct (foldl_result _ _ clusters) as [[[regions' m'] next]| |] eqn:E;
    simpl; [|done..].
  intros [= <- <-].
  set (P := λ st : FboClusters.regions_state,
              ∀ cid rid, st.1.2 !! cid = Some rid →
                         ∃ region, region ∈ st.1.1 ∧ get region "id" = VInt rid).
  refine (foldl_result_invariant P (FboClusters.region_step py_repr) clusters
            _ ([], ∅, 1) (regions', m', next) _ E).
  - clear. intros [[regions m] next] c st' Hinv. unfold FboClusters.region_step.
    destruct (FboClusters.pick c ["cluster_id"; "id"]) as [cid|]; [|by intros [= <-]].
    destruct (m !! py_str py_repr cid) eqn:Hm; [by intros [= <-]|].
    destruct (if py_isdigit _ then _ else _) as [oz| |]; simpl; [|done..].
    intros [= <-]. intros cid' rid'. simpl.
    destruct (decide (py_str py_repr cid = cid')) as [<-|Hne].
    + rewrite lookup_insert_eq. intros [= <-].
      eexists. split; [apply elem_of_app; right; apply list_elem_of_singleton; reflexivity|].
      reflexivity.
    + rewrite lookup_insert_ne by done. intros Hl.
      destruct (Hinv _ _ Hl) as (region & ? & ?). exists region.
      split; [apply elem_of_app; by left|done].
  - intros cid rid. simpl. by rewrite lookup_empty.
Qed.

Lemma row_key_row_of (x : named_ref) :
  row_key (row_of x) = (VInt x.1.1, VStr (named_ref_key x).2).
Proof.
  destruct x as [[rid [w|]] name]; unfold row_key, named_ref_key; simpl; [|done].
  change (truthy (VStr w)) with (negb (String.eqb w "")).
  by destruct (String.eqb w "").
Qed.

Lemma elem_of_concat {A} (x : A) (ls : list (list A)) :
  x ∈ concat ls ↔ ∃ l, x ∈ l ∧ l ∈ ls.
Proof.
  induction ls as [|l ls IH]; simpl.
  - split; [by intros ?%elem_of_nil|]. by intros (l & _ & ?%elem_of_nil).
  - rewrite elem_of_app, IH. split.
    + intros [?|(l' & ? & ?)]; [exists l|exists l']; split; try done; by constructor.
    + intros (l' & Hx & [->|?]%elem_of_cons); [by left|right; eauto].
Qed.

Lemma named_refs_region m warehouse_map clusters x :
  x ∈ named_refs py_repr m warehouse_map clusters →
  x.2 ≠ "" ∧ ∃ cid, m !! cid = Some x.1.1.
Proof.
  unfold named_refs. intros (l & Hx & (c & -> & _)%list_elem_of_fmap)%elem_of_concat.
  unfold cluster_named_refs in Hx.
  destruct (FboClusters.pick c _) as [cid|]; [|by apply elem_of_nil in Hx].
  destruct (m !! py_str py_repr cid) as [rid|] eqn:Hm; [|by apply elem_of_nil in Hx].
  apply list_elem_of_omap in Hx as (r & _ & Hr). unfold name_ref in Hr.
  destruct (FboClusters.resolve_name warehouse_map r) as [name|]; [|done].
  destruct (String.eqb_spec name ""); [done|]. injection Hr as <-. simpl. eauto.
Qed.

(** C8. The rows of [build_warehouses] are the named references of the
    clusters, in order, less those whose pair (region id, warehouse
    identifier, or name when there is no identifier) was met before: so no
    two rows have the same pair and the first occurrence is the one kept;
    every row carries a region id of the assignment, which is the id of a
    row of the region table when the assignment comes from [build_regions];
    a reference that has no name after the directory look-up adds no row,
    and every row has a name. *)
Theorem warehouse_table clusters m warehouse_map :
  let rows := FboClusters.build_warehouses py_repr clusters m warehouse_map in
  let refs := named_refs py_repr m warehouse_map clusters in
  rows = row_of <$> first_by named_ref_key [] refs ∧
  NoDup (row_key <$> rows) ∧
  (∀ x, x ∈ first_by named_ref_key [] refs ↔
        ∃ pre post, refs = pre ++ x :: post ∧
                    named_ref_key x ∉ (named_ref_key <$> pre)) ∧
  (∀ row, row ∈ rows →
          ∃ cid rid, m !! cid = Some rid ∧ get row "idРегион" = VInt rid) ∧
  (∀ clusters' regions,
     FboClusters.build_regions py_repr clusters' = Ok (regions, m) →
     ∀ row, row ∈ rows →
            ∃ region, region ∈ regions ∧ get region "id" = get row "idРегион") ∧
  (∀ rid st r,
     FboClusters.no_name (FboClusters.resolve_name warehouse_map r) = true →
     FboClusters.warehouse_step warehouse_map rid st r = st) ∧
  (∀ row, row ∈ rows → ∃ name, get row "Склад" = VStr name ∧ name ≠ "").
Proof.
  intros rows refs.
  assert (rows = row_of <$> first_by named_ref_key [] refs) as Hrows
    by apply build_warehouses_first_by.
  assert (∀ row, row ∈ rows →
                 ∃ x, row = row_of x ∧ x.2 ≠ "" ∧ ∃ cid, m !! cid = Some x.1.1) as Hrow.
  { intros row. rewrite Hrows. intros (x & -> & Hx)%list_elem_of_fmap.
    exists x. split; [done|].
    apply first_by_spec in Hx as (pre & post & Hrefs & _).
    apply (named_refs_region m warehouse_map clusters). fold refs. rewrite Hrefs.
    apply elem_of_app. right. constructor. }
  split_and!.
  - done.
  - rewrite Hrows, <- list_fmap_compose.
    rewrite (list_fmap_ext (row_key ∘ row_of)
               ((λ k : Z * string, (VInt k.1, VStr k.2)) ∘ named_ref_key)).
    + rewrite list_fmap_compose. apply NoDup_fmap_2; [|apply first_by_NoDup].
      intros [r1 s1] [r2 s2] [= -> ->]. done.
    + intros i x _. simpl. apply row_key_row_of.
  - intros x. rewrite first_by_spec. split.
    + intros (pre & post & ? & _ & ?). eauto.
    + intros (pre & post & ? & ?). exists pre, post. split_and!; [done| |done].
      by intros ?%elem_of_nil.
  - intros row Hin. destruct (Hrow row Hin) as (x & -> & _ & cid & Hcid).
    exists cid, x.1.1. done.
  - intros clusters' regions Hreg row Hin.
    destruct (Hrow row Hin) as (x & -> & _ & cid & Hcid).
    destruct (build_regions_ids _ _ _ Hreg _ _ Hcid) as (region & ? & ?).
    exists region. done.
  - intros rid st r Hno. rewrite warehouse_step_named. unfold name_ref.
    unfold FboClusters.no_name in Hno.
    destruct (FboClusters.resolve_name warehouse_map r); [|done]. by rewrite Hno.
  - intros row Hin. destruct (Hrow row Hin) as (x & -> & Hname & _).
    exists x.2. done.
Qed.

End warehouses.

(** * The compact stock export (stock_ozon.py) *)

Section text_facts.
Context {py_text : PyText}.

Lemma append_cons c s t : String c s +:+ t = String c (s +:+ t).
Proof. reflexivity. Qed.

Lemma append_nil_r s : s +:+ "" = s.
Proof. induction s as [|c s IH]; [done|]. by rewrite append_cons, IH. Qed.

Lemma append_assoc s1 s2 s3 : (s1 +:+ s2) +:+ s3 = s1 +:+ (s2 +:+ s3).
Proof. induction s1 as [|c s1 IH]; [done|]. by rewrite !append_cons, IH. Qed.

End text_facts.

Section file_facts.
Context {py_text : PyText}.

Lemma file_write_with_file path s w :
  file_write path s w = (Ok tt, with_file w path (default "" (files w !! path) +:+ s)).
Proof. reflexivity. Qed.

Lemma file_open_w_with_file path w :
  file_open_w path w = (Ok tt, with_file w path "").
Proof. reflexivity. Qed.

Lemma with_file_with_file w path a b :
  with_file (with_file w path a) path b = with_file w path b.
Proof. unfold with_file. simpl. by rewrite insert_insert_eq. Qed.

Lemma with_file_lookup w path a : files (with_file w path a) !! path = Some a.
Proof. unfold with_file. simpl. apply lookup_insert_eq. Qed.

Lemma with_file_id w path a : files w !! path = Some a → with_file w path a = w.
Proof. intros H. destruct w. unfold with_file. simpl in *. by rewrite insert_id. Qed.

Lemma file_write_after w path old s :
  files w !! path = Some old →
  file_write path s w = (Ok tt, with_file w path (old +:+ s)).
Proof. intros H. by rewrite file_write_with_file, H. Qed.

End file_facts.

Section stock_export.
Context {py_text : PyText}.
Variable py_repr : value → string.

(** The loop that writes the objects of a batch appends their text. *)
Lemma write_sku_objects_text out_path grouped sku_batch : ∀ first w old,
  files w !! out_path = Some old →
  StockOzon.write_sku_objects py_repr out_path grouped sku_batch first w =
  (Ok (first && is_nil sku_batch),
   with_file w out_path
     (old +:+ render_objects py_repr first (StockOzon.sku_object grouped <$> sku_batch))).
Proof.
  induction sku_batch as [|s rest IH]; intros first w old Hold.
  - simpl. rewrite append_nil_r, andb_true_r, (with_file_id _ _ _ Hold). done.
  - cbn [StockOzon.write_sku_objects fmap list_fmap render_objects is_nil].
    rewrite andb_false_r. destruct first.
    + rewrite bind_mret.
      rewrite (bind_ok _ _ _ _ _ (file_write_after _ _ _ _ Hold)).
      rewrite (IH false _ _ (with_file_lookup _ _ _)), with_file_with_file.
      cbn [andb]. by rewrite !append_assoc.
    + rewrite (bind_ok _ _ _ _ _ (file_write_after _ _ _ _ Hold)).
      rewrite (bind_ok _ _ _ _ _ (file_write_after _ _ _ _ (with_file_lookup _ _ _))).
      rewrite (IH false _ _ (with_file_lookup _ _ _)), !with_file_with_file.
      cbn [andb]. by rewrite !append_assoc.
Qed.








End stock_export.


(** C5 as stated fails: the SKUs 111 and 222 are requested, the response
    has a row for 111 whose count is no number, and the batch raises with
    nothing written: neither SKU appears in the output. *)
Lemma stock_batch_with_unreadable_count :
  (StockOzon.export_batch sample_repr "stocks_compact.json" ∅ [111; 222] true
     unreadable_stock_world).1 = Raise ValueError ∧
  files (StockOzon.export_batch sample_repr "stocks_compact.json" ∅ [111; 222] true
           unreadable_stock_world).2 !! "stocks_compact.json"
    = Some ("[" +:+ Json.newline).
Proof. split; vm_compute; reflexivity. Qed.

(** * The export as a whole *)

Section bind_inversion.
Context {py_text : PyText}.
Context {A B : Type}.

Lemma bind_ok_inv (m : M A) (k : A → M B) w b w' :
  (m ≫= k) w = (Ok b, w') → ∃ a w1, m w = (Ok a, w1) ∧ k a w1 = (Ok b, w').
Proof.
  unfold mbind, M_bind. destruct (m w) as [[a| |] w1]; [eauto|done..].
Qed.

Lemma lift_ok_inv (r : result A) w a w' :
  lift r w = (Ok a, w') → r = Ok a ∧ w' = w.
Proof. unfold lift. by intros [= -> ->]. Qed.

Lemma mret_ok_inv (a a' : A) w w' :
  (mret a : M A) w = (Ok a', w') → a' = a ∧ w' = w.
Proof. by intros [= -> ->]. Qed.

End bind_inversion.

Section files_untouched.
Context {py_text : PyText}.

Lemma post_attempts_files path payload retries left : ∀ backoff w,
  files (post_attempts path payload retries left backoff w).2 = files w.
Proof.
  induction left as [|left IH]; intros backoff w; [done|].
  cbn [post_attempts]. unfold mbind, M_bind, requests_post.
  destruct (net w (calls w)) as [|r]; [done|].
  destruct (transient (status_code r)).
  - unfold time_sleep. rewrite IH. done.
  - by destruct (negb (resp_ok r)).
Qed.

Lemma post_ozon_files path payload retries w r w' :
  post_ozon path payload retries w = (r, w') → files w' = files w.
Proof.
  intros H. pose proof (post_attempts_files path payload retries retries 1 w) as Hf.
  unfold post_ozon in H. by rewrite H in Hf.
Qed.

Lemma get_stocks_files skus w items w' :
  StockOzon.get_stocks_for_skus skus w = (Ok items, w') → files w' = files w.
Proof.
  unfold StockOzon.get_stocks_for_skus.
  intros (data & w1 & Hpost & [_ ->]%mret_ok_inv)%bind_ok_inv.
  by apply post_ozon_files in Hpost.
Qed.

End files_untouched.

Section chunks.
Context {py_text : PyText}.
Context {A : Type}.

Lemma concat_chunks (k : nat) : ∀ m (l : list A),
  (0 < k)%nat → (length l ≤ m * k)%nat →
  concat ((λ i, take k (drop i l)) <$> ((λ j, j * k)%nat <$> seq 0 m)) = l.
Proof.
  intros m l Hk. revert l. induction m as [|m IH]; intros l Hlen.
  - destruct l; [done|simpl in Hlen; lia].
  - cbn [seq fmap list_fmap concat]. rewrite Nat.mul_0_l, drop_0.
    transitivity (take k l ++ drop k l); [|apply take_drop]. f_equal.
    rewrite <- (IH (drop k l)) by (rewrite length_drop; simpl in Hlen; lia).
    f_equal. rewrite <- seq_shift, <- !list_fmap_compose.
    apply list_fmap_ext. intros _ j _. simpl. rewrite drop_drop. do 2 f_equal; lia.
Qed.

(** For a positive size the chunks, put end to end, are the list. *)
Lemma concat_chunked (l : list A) n batches :
  0 < n → chunked l n = Ok batches → concat batches = l.
Proof.
  intros Hn. unfold chunked.
  destruct (Z.eqb_spec n 0); [lia|]. destruct (Z.ltb_spec n 0); [lia|].
  intros [= <-]. unfold range_step. apply concat_chunks; [lia|].
  set (k := Z.to_nat n). assert (0 < k)%nat by lia.
  pose proof (Nat.div_mod_eq (length l + k - 1) k).
  pose proof (Nat.mod_upper_bound (length l + k - 1) k). nia.
Qed.

End chunks.

Section sorted_skus.
Context {py_text : PyText}.

Lemma StronglySorted_le_lt (l : list Z) :
  StronglySorted Z.le l → NoDup l → StronglySorted Z.lt l.
Proof.
  induction 1 as [|x l Hl IH Hx]; intros Hnd; [constructor|].
  apply NoDup_cons in Hnd as [Hnotin Hnd]. constructor; [by apply IH|].
  apply Forall_forall. intros y Hy.
  pose proof (proj1 (Forall_forall _ _) Hx y Hy).
  assert (x ≠ y) by (by intros ->). lia.
Qed.

(** [sorted(sku_meta.keys())]: the keys, each once, strictly increasing. *)
Lemma sorted_keys_spec (sku_meta : gmap Z dict) :
  StronglySorted Z.lt (StockOzon.sorted_keys sku_meta) ∧
  NoDup (StockOzon.sorted_keys sku_meta) ∧
  ∀ s, s ∈ StockOzon.sorted_keys sku_meta ↔ is_Some (sku_meta !! s).
Proof.
  unfold StockOzon.sorted_keys.
  pose proof (merge_sort_Permutation Z.le (map_to_list sku_meta).*1) as Hperm.
  assert (NoDup (merge_sort Z.le (map_to_list sku_meta).*1)) as Hnd.
  { rewrite Hperm. apply NoDup_fst_map_to_list. }
  split_and!; [|done|].
  - apply StronglySorted_le_lt; [|done]. apply StronglySorted_merge_sort; apply _.
  - intros s. rewrite Hperm, list_elem_of_fmap. split.
    + intros ([k v] & -> & Hkv). apply elem_of_map_to_list in Hkv. by exists v.
    + intros [v Hv]. exists (s, v). split; [done|]. by apply elem_of_map_to_list.
Qed.

End sorted_skus.

Section stock_document.
Context {py_text : PyText}.
Variable py_repr : value → string.

Lemma render_objects_app first l1 l2 :
  render_objects py_repr first (l1 ++ l2) =
  render_objects py_repr first l1 +:+ render_objects py_repr (first && is_nil l1) l2.
Proof.
  revert first. induction l1 as [|obj l1 IH]; intros first.
  - simpl. by rewrite andb_true_r.
  - cbn [app render_objects is_nil]. rewrite IH, andb_false_r. cbn [andb].
    by rewrite !append_assoc.
Qed.

Lemma sku_objects_of grouped sku_batch :
  Forall2 sku_object_of sku_batch (StockOzon.sku_object grouped <$> sku_batch).
Proof.
  induction sku_batch as [|s rest IH]; [constructor|].
  rewrite fmap_cons. constructor; [|done]. by eexists.
Qed.

Lemma export_batch_objects out_path sku_meta sku_batch first w b w' old :
  files w !! out_path = Some old →
  StockOzon.export_batch py_repr out_path sku_meta sku_batch first w = (Ok b, w') →
  ∃ objs, Forall2 sku_object_of sku_batch objs ∧
          b = first && is_nil objs ∧
          files w' !! out_path = Some (old +:+ render_objects py_repr first objs).
Proof.
  intros Hold. unfold StockOzon.export_batch.
  intros (items & w1 & Hget & (grouped & w2 & [Hg ->]%lift_ok_inv & Hwrite)%bind_ok_inv)%bind_ok_inv.
  apply get_stocks_files in Hget. rewrite <- Hget in Hold.
  rewrite (write_sku_objects_text _ _ _ _ _ _ _ Hold) in Hwrite.
  injection Hwrite as <- <-.
  exists (StockOzon.sku_object grouped <$> sku_batch). split_and!.
  - apply sku_objects_of.
  - by destruct sku_batch.
  - apply with_file_lookup.
Qed.

Lemma export_batches_objects out_path sku_meta batches : ∀ first w b w' old,
  files w !! out_path = Some old →
  StockOzon.export_batches py_repr out_path sku_meta batches first w = (Ok b, w') →
  ∃ objs, Forall2 sku_object_of (concat batches) objs ∧
          b = first && is_nil objs ∧
          files w' !! out_path = Some (old +:+ render_objects py_repr first objs).
Proof.
  induction batches as [|sku_batch rest IH]; intros first w b w' old Hold.
  - intros [-> ->]%mret_ok_inv. exists []. split_and!; [constructor| |].
    + by rewrite andb_true_r.
    + simpl. by rewrite append_nil_r.
  - cbn [StockOzon.export_batches].
    intros (b1 & w1 & Hbatch & Hrest)%bind_ok_inv.
    destruct (export_batch_objects _ _ _ _ _ _ _ _ Hold Hbatch) as (objs1 & H1 & -> & Hf1).
    destruct (IH _ _ _ _ _ Hf1 Hrest) as (objs2 & H2 & -> & Hf2).
    exists (objs1 ++ objs2). split_and!.
    + cbn [concat]. by apply Forall2_app.
    + destruct objs1; simpl; [by rewrite andb_true_r|]. by rewrite !andb_false_r.
    + by rewrite render_objects_app, <- append_assoc.
Qed.

(** What a successful run of [export_stocks_compact] leaves on disk. *)
Lemma export_stocks_compact_document fuel out_path chunk_size w w' :
  0 < chunk_size →
  StockOzon.export_stocks_compact py_repr fuel out_path chunk_size w = (Ok tt, w') →
  ∃ product_ids w1 sku_meta w2 objs,
    StockOzon.get_all_product_ids py_repr fuel w = (Ok product_ids, w1) ∧
    StockOzon.get_sku_meta_by_product_ids py_repr product_ids w1 = (Ok sku_meta, w2) ∧
    Forall2 sku_object_of (StockOzon.sorted_keys sku_meta) objs ∧
    files w' !! out_path = Some (stock_document py_repr objs).
Proof.
  intros Hchunk. unfold StockOzon.export_stocks_compact.
  intros (product_ids & w1 & Hids & (sku_meta & w2 & Hmeta & H)%bind_ok_inv)%bind_ok_inv.
  exists product_ids, w1, sku_meta, w2.
  apply bind_ok_inv in H as ([] & w3 & [= <-] & H).
  apply bind_ok_inv in H as ([] & w4 & [= <-] & H).
  apply bind_ok_inv in H as (batches & w5 & [Hbatches ->]%lift_ok_inv & H).
  apply bind_ok_inv in H as (b & w6 & Hexport & H).
  apply concat_chunked in Hbatches; [|done].
  assert (files (with_file (with_file w2 out_path "") out_path
                   (default "" (files (with_file w2 out_path "") !! out_path)
                    +:+ ("[" +:+ Json.newline))) !! out_path
          = Some ("[" +:+ Json.newline)) as Hold.
  { rewrite with_file_lookup. by rewrite with_file_lookup. }
  destruct (export_batches_objects _ _ _ _ _ _ _ _ Hold Hexport) as (objs & Hobjs & _ & Hf).
  exists objs. rewrite Hbatches in Hobjs. split_and!; [done..|].
  rewrite file_write_with_file in H. injection H as <-.
  rewrite with_file_lookup, Hf. simpl. unfold stock_document.
  by rewrite !append_assoc.
Qed.

Lemma escape_string_of_uint d :
  Json.escape (NilEmpty.string_of_uint d) = NilEmpty.string_of_uint d.
Proof. induction d; cbn [NilEmpty.string_of_uint Json.escape]; [done|by rewrite IHd..]. Qed.

(** A decimal numeral needs no escape: it is written between quotes as
    it is. *)
Lemma encode_str_of_int indent level s :
  Json.encode py_repr indent level (VStr (Py.str_of_int s)) =
  Json.dquote +:+ Py.str_of_int s +:+ Json.dquote.
Proof.
  cbn [Json.encode]. unfold Json.quoted. do 2 f_equal.
  unfold Py.str_of_int, NilZero.string_of_int, NilZero.string_of_uint.
  destruct s as [|p|p]; cbn [Z.to_int]; [done| |].
  - destruct (Pos.to_uint p); [done|apply escape_string_of_uint..].
  - cbn [Json.escape]. change (Json.escape_char "-") with "-".
    rewrite append_cons. f_equal.
    destruct (Pos.to_uint p); [done|apply escape_string_of_uint..].
Qed.

(** The SKUs of [sku_meta] are those already there and those derived from
    the attribute records. *)
Lemma add_sku_meta_keys items : ∀ (sku_meta final : gmap Z dict) s,
  foldl_result (StockOzon.add_sku_meta py_repr) sku_meta items = Ok final →
  (is_Some (final !! s) ↔
   is_Some (sku_meta !! s) ∨
   ∃ it, it ∈ items ∧ StockOzon.extract_sku_from_item py_repr it = Ok (Some s)).
Proof.
  induction items as [|it items IH]; intros sku_meta final s; cbn [foldl_result].
  - intros [= <-]. split; [by left|]. intros [?|(it & ?%elem_of_nil & _)]; done.
  - destruct (StockOzon.add_sku_meta py_repr sku_meta it) as [known| |] eqn:Hadd;
      simpl; [|done..].
    intros Hrest. rewrite (IH _ _ _ Hrest).
    apply add_sku_meta_inv in Hadd as ([sku|] & Hsku & ->).
    + destruct (sku_meta !! sku) eqn:Hm.
      * split.
        -- intros [?|(it' & ? & ?)]; [by left|right]. exists it'. split; [by constructor|done].
        -- intros [?|(it' & [->|?]%elem_of_cons & Hs)]; [by left| |right; eauto].
           left. rewrite Hsku in Hs. injection Hs as <-. by rewrite Hm.
      * rewrite lookup_insert_is_Some. split.
        -- intros [[<-|[_ ?]]|(it' & ? & ?)].
           ++ right. exists it. split; [constructor|done].
           ++ by left.
           ++ right. exists it'. split; [by constructor|done].
        -- intros [?|(it' & [->|?]%elem_of_cons & Hs)].
           ++ left. destruct (decide (sku = s)); [by left|right; done].
           ++ left. left. rewrite Hsku in Hs. by injection Hs.
           ++ right. eauto.
    + split.
      * intros [?|(it' & ? & ?)]; [by left|right]. exists it'. split; [by constructor|done].
      * intros [?|(it' & [->|?]%elem_of_cons & Hs)]; [by left| |right; eauto].
        by rewrite Hsku in Hs.
Qed.

(** C10. In the file of a successful run of [export_stocks_compact] (with a
    positive chunk size) the objects are those of the SKUs of [sku_meta],
    one object per SKU, in strictly increasing order of the SKU over the
    whole file; the field [sku] of an object is the decimal numeral of the
    SKU, written as a JSON string. *)
Theorem stock_export_order fuel out_path chunk_size w w' :
  0 < chunk_size →
  StockOzon.export_stocks_compact py_repr fuel out_path chunk_size w = (Ok tt, w') →
  ∃ sku_meta skus objs,
    (∃ product_ids w1 w2,
       StockOzon.get_all_product_ids py_repr fuel w = (Ok product_ids, w1) ∧
       StockOzon.get_sku_meta_by_product_ids py_repr product_ids w1 = (Ok sku_meta, w2)) ∧
    files w' !! out_path = Some (stock_document py_repr objs) ∧
    Forall2 sku_object_of skus objs ∧
    StronglySorted Z.lt skus ∧
    NoDup skus ∧
    (∀ s, s ∈ skus ↔ is_Some (sku_meta !! s)) ∧
    (∀ s indent level,
       Json.encode py_repr indent level (VStr (Py.str_of_int s)) =
       Json.dquote +:+ Py.str_of_int s +:+ Json.dquote) ∧
    (∀ items (known final : gmap Z dict) s,
       foldl_result (StockOzon.add_sku_meta py_repr) known items = Ok final →
       (is_Some (final !! s) ↔
        is_Some (known !! s) ∨
        ∃ it, it ∈ items ∧ StockOzon.extract_sku_from_item py_repr it = Ok (Some s))).
Proof.
  intros Hchunk Hrun.
  destruct (export_stocks_compact_document _ _ _ _ _ Hchunk Hrun)
    as (product_ids & w1 & sku_meta & w2 & objs & Hids & Hmeta & Hobjs & Hfile).
  destruct (sorted_keys_spec sku_meta) as (Hsorted & Hnd & Hkeys).
  exists sku_meta, (StockOzon.sorted_keys sku_meta), objs.
  split_and!; try done.
  - by exists product_ids, w1, w2.
  - intros s indent level. apply encode_str_of_int.
  - intros items known s. apply add_sku_meta_keys.
Qed.

End stock_document.

Lemma stock_export_order_witness :
  ∃ skus objs,
    files (StockOzon.export_stocks_compact sample_repr 2 "stocks_compact.json" 99
             sample_pipeline).2 !! "stocks_compact.json"
      = Some (stock_document sample_repr objs) ∧
    Forall2 sku_object_of skus objs ∧
    StronglySorted Z.lt skus.
Proof.
  destruct (stock_export_order sample_repr 2 "stocks_compact.json" 99 sample_pipeline
              (StockOzon.export_stocks_compact sample_repr 2 "stocks_compact.json" 99
                 sample_pipeline).2 ltac:(lia) ltac:(vm_compute; reflexivity))
    as (sku_meta & skus & objs & _ & Hfile & Hobjs & Hsorted & _).
  exists skus, objs. split_and!; assumption.
Defined.

(** * The form of the export files *)

Section documents.
Context {py_text : PyText}.
Variable py_repr : value → string.
Variable float_of_str : string → option float.

Lemma dump_json_with_file path obj w :
  FboClusters.dump_json py_repr path obj w =
  (Ok tt, with_file w path (Json.dump_indent2 py_repr obj)).
Proof.
  unfold FboClusters.dump_json.
  rewrite (bind_ok _ _ _ _ _ (file_open_w_with_file path w)).
  rewrite (file_write_after _ _ "" _ (with_file_lookup _ _ _)).
  by rewrite with_file_with_file.
Qed.

Lemma main_documents w w' :
  FboClusters.main py_repr w = (Ok tt, w') →
  ∃ regions warehouses,
    files w' !! "регионы_ozon.json" =
      Some (Json.dump_indent2 py_repr (VDict [("регион_ozon", VList (VDict <$> regions))])) ∧
    files w' !! "склады_ozon.json" =
      Some (Json.dump_indent2 py_repr (VDict [("склады_ozon", VList (VDict <$> warehouses))])).
Proof.
  unfold FboClusters.main.
  intros (clusters & w1 & _ & (warehouse_map & w2 & _ & H)%bind_ok_inv)%bind_ok_inv.
  apply bind_ok_inv in H as ([regions m] & w3 & _ & H).
  apply bind_ok_inv in H as ([] & w4 & Hd1 & Hd2).
  rewrite dump_json_with_file in Hd1, Hd2. injection Hd1 as <-. injection Hd2 as <-.
  eexists regions, _. split.
  - unfold with_file at 1. cbn [files]. rewrite lookup_insert_ne by done.
    apply with_file_lookup.
  - apply with_file_lookup.
Qed.

Lemma export_products_document fuel out_path w w' :
  ExportProductsOzon.export_products_to_json py_repr float_of_str fuel out_path w
    = (Ok tt, w') →
  ∃ rows, files w' !! out_path =
          Some (Json.dump_indent2 py_repr (VDict [("товары", VList (VDict <$> rows))])).
Proof.
  unfold ExportProductsOzon.export_products_to_json.
  intros (product_ids & w1 & _ & (attrs & w2 & _ & H)%bind_ok_inv)%bind_ok_inv.
  apply bind_ok_inv in H as (rows & w3 & _ & H).
  apply bind_ok_inv in H as ([] & w4 & Hopen & H).
  rewrite file_open_w_with_file in Hopen. injection Hopen as <-.
  rewrite (file_write_after _ _ "" _ (with_file_lookup _ _ _)) in H.
  injection H as <-. exists rows. apply with_file_lookup.
Qed.

Lemma export_characteristics_document items out_path w w' :
  OzonProductInfo.export_characteristics_ozon py_repr float_of_str items out_path w
    = (Ok tt, w') →
  ∃ rows, files w' !! out_path =
          Some (Json.dump_indent2 py_repr
                  (VDict [("характеристики_ozon", VList (VDict <$> rows))])).
Proof.
  unfold OzonProductInfo.export_characteristics_ozon.
  intros (rows & w3 & _ & H)%bind_ok_inv.
  apply bind_ok_inv in H as ([] & w4 & Hopen & H).
  rewrite file_open_w_with_file in Hopen. injection Hopen as <-.
  rewrite (file_write_after _ _ "" _ (with_file_lookup _ _ _)) in H.
  injection H as <-. exists rows. apply with_file_lookup.
Qed.

Lemma single_key_document_first doc :
  single_key_document py_repr doc → String.get 0 doc = Some "{"%char.
Proof. intros (table & records & indent & ->). reflexivity. Qed.

Lemma stock_document_first objs :
  String.get 0 (stock_document py_repr objs) = Some "["%char.
Proof. reflexivity. Qed.

(** C1, as amended. The table exports written with [json.dump] (regions and
    warehouses by [main] of fbo_clusters.py, products by
    [export_products_to_json], characteristics by
    [export_characteristics_ozon]) are JSON documents with exactly one
    top-level key, the name of the table, whose value is the list of
    records in order.  The compact stock export of [export_stocks_compact]
    is a bare JSON array of per-SKU objects, and no document of that form. *)
Theorem export_documents :
  (∀ w w', FboClusters.main py_repr w = (Ok tt, w') →
     ∃ regions warehouses,
       files w' !! "регионы_ozon.json" =
         Some (Json.dump_indent2 py_repr
                 (VDict [("регион_ozon", VList (VDict <$> regions))])) ∧
       files w' !! "склады_ozon.json" =
         Some (Json.dump_indent2 py_repr
                 (VDict [("склады_ozon", VList (VDict <$> warehouses))]))) ∧
  (∀ fuel out_path w w',
     ExportProductsOzon.export_products_to_json py_repr float_of_str fuel out_path w
       = (Ok tt, w') →
     ∃ rows, files w' !! out_path =
             Some (Json.dump_indent2 py_repr
                     (VDict [("товары", VList (VDict <$> rows))]))) ∧
  (∀ items out_path w w',
     OzonProductInfo.export_characteristics_ozon py_repr float_of_str items out_path w
       = (Ok tt, w') →
     ∃ rows, files w' !! out_path =
             Some (Json.dump_indent2 py_repr
                     (VDict [("характеристики_ozon", VList (VDict <$> rows))]))) ∧
  (∀ table records,
     single_key_document py_repr
       (Json.dump_indent2 py_repr (VDict [(table, VList (VDict <$> records))]))) ∧
  (∀ fuel out_path chunk_size w w',
     0 < chunk_size →
     StockOzon.export_stocks_compact py_repr fuel out_path chunk_size w = (Ok tt, w') →
     ∃ skus objs,
       files w' !! out_path = Some (stock_document py_repr objs) ∧
       Forall2 sku_object_of skus objs) ∧
  (∀ objs, ¬ single_key_document py_repr (stock_document py_repr objs)).
Proof.
  split_and!.
  - apply main_documents.
  - apply export_products_document.
  - apply export_characteristics_document.
  - intros table records. by exists table, records, (Some 2%nat).
  - intros fuel out_path chunk_size w w' Hchunk Hrun.
    destruct (export_stocks_compact_document _ _ _ _ _ _ Hchunk Hrun)
      as (_ & _ & sku_meta & _ & objs & _ & _ & Hobjs & Hfile).
    by exists (StockOzon.sorted_keys sku_meta), objs.
  - intros objs Hdoc%single_key_document_first.
    by rewrite stock_document_first in Hdoc.
Qed.

End documents.

(** C1 as stated fails: the compact stock export of a run is no document
    with a single top-level key. *)
Lemma stock_export_is_bare_array :
  (StockOzon.export_stocks_compact sample_repr 2 "stocks_compact.json" 99
     sample_pipeline).1 = Ok tt ∧
  ∃ doc,
    files (StockOzon.export_stocks_compact sample_repr 2 "stocks_compact.json" 99
             sample_pipeline).2 !! "stocks_compact.json" = Some doc ∧
    String.get 0 doc = Some "["%char ∧
    ¬ single_key_document sample_repr doc.
Proof.
  split; [vm_compute; reflexivity|].
  eexists. split; [vm_compute; reflexivity|]. split; [reflexivity|].
  intros Hdoc%single_key_document_first. discriminate Hdoc.
Qed.

(** * Worked examples *)

Section examples.
Context {py_text : PyText}.

Example backoff_starts_at_1_doubles_caps_at_30 :
  backoff_schedule 1 7 = [1; 2; 4; 8; 16; 30; 30].
Proof. reflexivity. Qed.

Example retries_exhausted :
  (post_ozon "/v1/cluster/list" VNone 2
     (scripted [reply 503 None ""; reply 502 None ""; reply 200 (Some VNone) ""])).1
  = Raise (RetriesExhausted "/v1/cluster/list" 2).
Proof. reflexivity. Qed.

Example chunked_by_2 : chunked [1; 2; 3; 4; 5] 2 = Ok [[1; 2]; [3; 4]; [5]].
Proof. reflexivity. Qed.

Example chunked_by_0 : chunked [1; 2; 3] 0 = Raise ValueError.
Proof. reflexivity. Qed.

Example chunked_by_negative : chunked [1; 2; 3] (-2) = Ok [].
Proof. reflexivity. Qed.

Example extraction_under_result :
  FboClusters.find_best_list_of_dicts
    (VDict [("result", VList [VDict [("id", VInt 1)]; VDict [("id", VInt 2)]])])
  = ([VDict [("id", VInt 1)]; VDict [("id", VInt 2)]], "result").
Proof. reflexivity. Qed.

Example extraction_under_result_items :
  FboClusters.find_best_list_of_dicts
    (VDict [("result",
             VDict [("items", VList [VDict [("id", VInt 1)]; VDict [("id", VInt 2)]])])])
  = ([VDict [("id", VInt 1)]; VDict [("id", VInt 2)]], "result.items").
Proof. reflexivity. Qed.

Example extraction_of_bare_list :
  FboClusters.find_best_list_of_dicts
    (VList [VDict [("id", VInt 1)]; VDict [("id", VInt 2)]])
  = ([VDict [("id", VInt 1)]; VDict [("id", VInt 2)]], "<root_list>").
Proof. reflexivity. Qed.

Example extraction_finds_nothing :
  FboClusters.find_best_list_of_dicts (VDict [("error", VStr "no data")]) = ([], "").
Proof. reflexivity. Qed.

(** First found is first in the walk, not nearest to the root: the list
    under the first key is found before the list of its sibling, deeper
    though it lies. *)
Example extraction_deeper_sibling_first :
  FboClusters.find_best_list_of_dicts
    (VDict [("a", VDict [("b", VDict [("data", VList [VDict [("id", VInt 1)]])])]);
            ("z", VDict [("clusters", VList [VDict [("id", VInt 2)]])])])
  = ([VDict [("id", VInt 1)]], "a.b.data").
Proof. reflexivity. Qed.

Example same_cluster_twice_one_region :
  match FboClusters.build_regions sample_repr
          [[("id", VInt 7); ("name", VStr "Msk")];
           [("cluster_id", VStr "7"); ("name", VStr "Msk again")];
           [("id", VStr "x8"); ("title", VStr "Spb")]] with
  | Ok (regions, _) => regions
  | _ => []
  end
  = [[("id", VInt 1); ("Регион", VStr "Msk"); ("id_cluster_ozon", VInt 7)];
     [("id", VInt 2); ("Регион", VStr "Spb"); ("id_cluster_ozon", VStr "x8")]].
Proof. vm_compute. reflexivity. Qed.

Example warehouses_of_sample_clusters :
  FboClusters.build_warehouses sample_repr sample_clusters {["7" := 1]} {["11" := "Eleven"]}
  = [[("id", VNone); ("Склад", VStr "W10"); ("idРегион", VInt 1);
      ("warehouse_id_ozon", VStr "10")];
     [("id", VNone); ("Склад", VStr "Eleven"); ("idРегион", VInt 1);
      ("warehouse_id_ozon", VStr "11")]].
Proof. vm_compute. reflexivity. Qed.

Example stock_is_available_plus_valid :
  StockOzon.compact_row
    [("available_stock_count", VInt 3); ("valid_stock_count", VInt 5)] []
  = Ok [("sku", VNone); ("name", VNone); ("offer_id", VNone);
        ("warehouse_id", VNone); ("warehouse_name", VNone);
        ("cluster_id", VNone); ("cluster_name", VNone); ("stock", VInt 8)].
Proof. reflexivity. Qed.

Example stock_counts_default_to_0 :
  StockOzon.compact_row [("sku", VInt 5); ("valid_stock_count", VNone)] []
  = Ok [("sku", VInt 5); ("name", VNone); ("offer_id", VNone);
        ("warehouse_id", VNone); ("warehouse_name", VNone);
        ("cluster_id", VNone); ("cluster_name", VNone); ("stock", VInt 0)].
Proof. reflexivity. Qed.

Example end_to_end_stock_export :
  files (StockOzon.export_stocks_compact sample_repr 2 "stocks_compact.json" 99
           sample_pipeline).2 !! "stocks_compact.json"
  = Some (stock_document sample_repr
            [VDict [("sku", VStr "111");
                    ("items",
                     VList [VDict [("sku", VInt 111); ("name", VNone); ("offer_id", VNone);
                                   ("warehouse_id", VNone); ("warehouse_name", VNone);
                                   ("cluster_id", VNone); ("cluster_name", VNone);
                                   ("stock", VInt 3)]])];
             VDict [("sku", VStr "222"); ("items", VList [])]]).
Proof. vm_compute. reflexivity. Qed.

Example volume_in_millimetres :
  ExportProductsOzon.calc_volume_m3 (λ _, None) (VInt 100) (VInt 200) (VFloat 300) (VStr " MM")
  = Ok (Some (6000000 / 1000000000)%float).
Proof. reflexivity. Qed.

Example volume_of_unknown_unit :
  OzonProductInfo.calc_volume (λ _, None) (VInt 1) (VInt 2) (VInt 3) (VStr "inch")
  = Ok (Some 6%float).
Proof. reflexivity. Qed.

Example volume_without_height :
  ExportProductsOzon.calc_volume_m3 (λ _, None) (VInt 1) (VInt 2) VNone (VStr "mm")
  = Ok None.
Proof. reflexivity. Qed.

End examples.

(** * Further properties of the request client *)

Section request_client_more.
Context {py_text : PyText}.

(** X1. After [k] transient replies, with attempts to spare, a reply that is
    a success is returned at once: [post_ozon] yields its body (the parsed
    JSON, or the raw text when it does not parse) after [k + 1] calls with
    the same path and payload and [k] sleeps. *)
Theorem post_ozon_returns_body path payload retries w k r :
  (k < retries)%nat →
  (∀ i, (i < k)%nat →
        ∃ r', net w (calls w + i) = Replies r' ∧ transient (status_code r') = true) →
  net w (calls w + k) = Replies r →
  transient (status_code r) = false →
  resp_ok r = true →
  post_ozon path payload retries w =
    (Ok (body_data r), after_calls w (k + 1) path payload (backoff_schedule 1 k)).
Proof.
  intros Hk Htrans Hr Hnt Hok. unfold post_ozon.
  replace retries with (k + S (retries - k - 1))%nat at 2 by lia.
  rewrite (post_attempts_skip_transient _ _ _ k _ _ _ Htrans).
  rewrite (post_attempts_accepted _ _ _ _ _ _ r); [|done..].
  by rewrite after_calls_after_calls, app_nil_r.
Qed.

Lemma post_ozon_returns_body_witness :
  let w := scripted [reply 500 None "oops"; reply 503 None "busy";
                     reply 200 None "plain text"] in
  post_ozon "/v1/analytics/stocks" VNone 6 w =
    (Ok (VStr "plain text"), after_calls w 3 "/v1/analytics/stocks" VNone [1; 2]).
Proof.
  intros w.
  refine (post_ozon_returns_body "/v1/analytics/stocks" VNone 6 w 2
            {| status_code := 200; json_body := None; text := "plain text" |}
            _ _ _ _ _).
  - lia.
  - intros i Hi. destruct i as [|[|i]]; [| |lia]; eexists; split; reflexivity.
  - reflexivity.
  - reflexivity.
  - reflexivity.
Defined.

Lemma backoff_iter i : Nat.iter i next_backoff 1 = Z.min (2 ^ Z.of_nat i) 30.
Proof.
  induction i as [|i IH]; [done|].
  rewrite Nat.iter_succ, IH, Nat2Z.inj_succ, Z.pow_succ_r by lia.
  unfold next_backoff. pose proof (Z.pow_pos_nonneg 2 (Z.of_nat i)). lia.
Qed.

Lemma backoff_schedule_lookup k : ∀ backoff i,
  (i < k)%nat → backoff_schedule backoff k !! i = Some (Nat.iter i next_backoff backoff).
Proof.
  induction k as [|k IH]; intros backoff i Hi; [lia|].
  destruct i as [|i]; [done|]. cbn [backoff_schedule lookup list_lookup].
  rewrite IH by lia. by rewrite Nat.iter_succ_r.
Qed.

(** X2. When every one of the [retries] attempts gets a transient reply,
    [post_ozon] raises the error that names the path and the number of
    attempts, after exactly [retries] calls and [retries] sleeps; the i-th
    sleep (from 0) lasts [min (2^i) 30]. *)
Theorem post_ozon_gives_up path payload retries w :
  (∀ i, (i < retries)%nat →
        ∃ r', net w (calls w + i) = Replies r' ∧ transient (status_code r') = true) →
  post_ozon path payload retries w =
    (Raise (RetriesExhausted path retries),
     after_calls w retries path payload (backoff_schedule 1 retries)) ∧
  ∀ i, (i < retries)%nat →
       backoff_schedule 1 retries !! i = Some (Z.min (2 ^ Z.of_nat i) 30).
Proof.
  intros Htrans. split.
  - unfold post_ozon.
    replace retries with (retries + 0)%nat at 2 by lia.
    by rewrite (post_attempts_skip_transient _ _ _ retries _ _ _ Htrans).
  - intros i Hi. by rewrite backoff_schedule_lookup, backoff_iter.
Qed.

Lemma post_ozon_gives_up_witness :
  let w := scripted [reply 429 None ""; reply 502 None ""; reply 504 None ""] in
  post_ozon "/v3/product/list" VNone 3 w =
    (Raise (RetriesExhausted "/v3/product/list" 3),
     after_calls w 3 "/v3/product/list" VNone [1; 2; 4]).
Proof.
  intros w.
  refine (proj1 (post_ozon_gives_up "/v3/product/list" VNone 3 w _)).
  intros i Hi. destruct i as [|[|[|i]]]; [| | |lia]; eexists; split; reflexivity.
Defined.

Lemma backoff_schedule_bounds k : ∀ backoff,
  1 ≤ backoff ≤ 30 → Forall (λ d, 1 ≤ d ≤ 30) (backoff_schedule backoff k).
Proof.
  induction k as [|k IH]; intros backoff Hb; [constructor|].
  cbn [backoff_schedule]. constructor; [done|]. apply IH. unfold next_backoff. lia.
Qed.

Lemma post_attempts_unreachable path payload retries left backoff w :
  net w (calls w) = Unreachable →
  post_attempts path payload retries (S left) backoff w =
  (Raise RequestException, after_calls w 1 path payload []).
Proof.
  intros Hnet. cbn [post_attempts]. unfold mbind, M_bind, requests_post.
  rewrite Hnet. unfold after_calls. simpl.
  by replace (calls w + 1)%nat with (S (calls w)) by lia.
Qed.

Lemma post_attempts_outcome path payload retries left : ∀ backoff w,
  ∃ n k,
    (n ≤ left)%nat ∧ (k = n ∨ S k = n) ∧
    (post_attempts path payload retries left backoff w).2
      = after_calls w n path payload (backoff_schedule backoff k) ∧
    (post_attempts path payload retries left backoff w).1 ≠ OutOfFuel ∧
    (0 < left → 0 < n)%nat.
Proof.
  induction left as [|left IH]; intros backoff w.
  - exists O, O. split_and!; [lia|by left| |done|lia].
    simpl. by rewrite after_calls_0.
  - destruct (net w (calls w)) as [|r] eqn:Hnet.
    { rewrite (post_attempts_unreachable _ _ _ _ _ _ Hnet).
      exists 1%nat, O. split_and!; [lia|by right|done|done|lia]. }
    destruct (transient (status_code r)) eqn:Htr.
    + rewrite (post_attempts_transient _ _ _ _ _ _ r Hnet Htr).
      destruct (IH (next_backoff backoff) (after_calls w 1 path payload [backoff]))
        as (n & k & Hn & Hk & Hw & Hr & _).
      exists (S n), (S k). split_and!; [lia|lia| |done|lia].
      by rewrite Hw, after_calls_after_calls.
    + destruct (resp_ok r) eqn:Hok.
      * rewrite (post_attempts_accepted _ _ _ _ _ _ r Hnet Htr Hok).
        exists 1%nat, O. split_and!; [lia|by right|done|done|lia].
      * rewrite (post_attempts_rejected _ _ _ _ _ _ r Hnet Htr Hok).
        exists 1%nat, O. split_and!; [lia|by right|done|done|lia].
Qed.

(** X3. Whatever the server does, [post_ozon] makes at most [retries] calls
    (at least one when [retries] is positive), all with the path and payload
    it was given; it sleeps once per call, or once less, each sleep lasting
    between 1 and 30; it leaves the files alone and always ends, with a
    value or an error. *)
Theorem post_ozon_is_bounded path payload retries w :
  ∃ n k,
    (n ≤ retries)%nat ∧ (0 < retries → 0 < n)%nat ∧ (k = n ∨ S k = n) ∧
    (post_ozon path payload retries w).2
      = after_calls w n path payload (backoff_schedule 1 k) ∧
    Forall (λ d, 1 ≤ d ≤ 30) (backoff_schedule 1 k) ∧
    files (post_ozon path payload retries w).2 = files w ∧
    (post_ozon path payload retries w).1 ≠ OutOfFuel.
Proof.
  destruct (post_attempts_outcome path payload retries retries 1 w)
    as (n & k & Hn & Hk & Hw & Hr & Hpos).
  exists n, k. unfold post_ozon. split_and!; try done.
  - apply backoff_schedule_bounds. lia.
  - by rewrite Hw.
Qed.

End request_client_more.

(** * Further properties of [chunked], [pick] and the envelope readers *)

Section chunked_more.
Context {py_text : PyText}.
Context {A : Type}.

(** X4. For a positive size [n], [chunked] cuts the list into
    [ceil(len / n)] consecutive pieces that, put end to end, give the list
    back: piece [i] starts at offset [i * n], no piece is empty or longer
    than [n], and every piece but the last has exactly [n] elements. *)
Theorem chunked_partitions (l : list A) (n : Z) :
  0 < n →
  ∃ batches,
    chunked l n = Ok batches ∧
    concat batches = l ∧
    length batches = ((length l + Z.to_nat n - 1) / Z.to_nat n)%nat ∧
    ∀ i b, batches !! i = Some b →
           b = take (Z.to_nat n) (drop (i * Z.to_nat n) l) ∧
           (0 < length b ≤ Z.to_nat n)%nat ∧
           (S i < length batches → length b = Z.to_nat n)%nat.
Proof.
  intros Hn.
  assert (∃ batches, chunked l n = Ok batches) as [batches Hb].
  { unfold chunked. destruct (Z.eqb_spec n 0); [lia|].
    destruct (Z.ltb_spec n 0); [lia|]. eauto. }
  exists batches. split; [done|]. split; [by apply (concat_chunked l n)|].
  unfold chunked in Hb. destruct (Z.eqb_spec n 0); [lia|].
  destruct (Z.ltb_spec n 0); [lia|]. injection Hb as <-.
  set (k := Z.to_nat n). assert (0 < k)%nat as Hk by lia.
  unfold range_step. rewrite !length_fmap, length_seq. split; [done|].
  intros i b. rewrite !list_lookup_fmap.
  destruct (seq 0 ((length l + k - 1) / k) !! i) as [j|] eqn:Hj; [|done].
  apply lookup_seq in Hj as [-> Hi]. simpl. intros [= <-].
  pose proof (Nat.div_mod_eq (length l + k - 1) k) as Hdiv.
  pose proof (Nat.mod_upper_bound (length l + k - 1) k ltac:(lia)) as Hmod.
  set (m := ((length l + k - 1) / k)%nat) in *.
  rewrite length_take, length_drop. split_and!; [done|nia|lia|nia].
Qed.

End chunked_more.

Lemma chunked_partitions_witness :
  ∃ batches, chunked [1; 2; 3; 4; 5; 6; 7] 3 = Ok batches ∧
             concat batches = [1; 2; 3; 4; 5; 6; 7] ∧ length batches = 3%nat.
Proof.
  destruct (chunked_partitions [1; 2; 3; 4; 5; 6; 7] 3 ltac:(lia))
    as (batches & H1 & H2 & H3 & _).
  exists batches. split_and!; [exact H1|exact H2|exact H3].
Defined.


Section envelope_readers.
Context {py_text : PyText}.

Lemma only_dicts_records (records : list dict) : only_dicts (VDict <$> records) = records.
Proof.
  unfold only_dicts. induction records as [|r records IH]; [done|].
  rewrite fmap_cons. cbn [omap list_omap]. by rewrite IH.
Qed.

Lemma all_dicts_records (records : list dict) : all_dicts (VDict <$> records) = true.
Proof. unfold all_dicts. induction records as [|r records IH]; [done|]. by rewrite fmap_cons. Qed.

Lemma only_dicts_all_dicts l : all_dicts l = true → VDict <$> only_dicts l = l.
Proof.
  unfold all_dicts, only_dicts. induction l as [|x l IH]; [done|].
  cbn [forallb]. intros [Hx Hl]%andb_true_iff. destruct x; try done.
  cbn [omap list_omap]. rewrite fmap_cons. by rewrite IH.
Qed.

(** X5. The three readers of the attribute response
    ([extract_attributes_items], [extract_items_from_attributes_response],
    [extract_result_list]) return the same records on every response.
    [extract_list_any] differs from them in one case: when [result] is an
    object without a list under [items] and some value of this object is a
    list of records, it returns the first such list; in every other case it
    returns what the three return. *)
Theorem attribute_readers_agree data :
  StockOzon.extract_attributes_items data
    = ExportProductsOzon.extract_items_from_attributes_response data ∧
  ExportProductsOzon.extract_items_from_attributes_response data
    = OzonProductInfo.extract_result_list data ∧
  (∀ d rd i v,
     data = VDict d → get d "result" = VDict rd →
     is_list (get rd "items") = false →
     list_find FboClusters._is_list_of_dicts rd.*2 = Some (i, v) →
     ∃ l, v = VList l ∧ all_dicts l = true ∧
          rd.*2 !! i = Some (VList l) ∧
          (∀ j x, (j < i)%nat → rd.*2 !! j = Some x →
                  FboClusters._is_list_of_dicts x = false) ∧
          FboClusters.extract_list_any data = only_dicts l) ∧
  ((∀ d rd,
      data = VDict d → get d "result" = VDict rd →
      is_list (get rd "items") = false →
      list_find FboClusters._is_list_of_dicts rd.*2 = None) →
   FboClusters.extract_list_any data = OzonProductInfo.extract_result_list data).
Proof.
  split_and!.
  - reflexivity.
  - by destruct data.
  - intros d rd i v -> Hres Hitems Hfind.
    unfold FboClusters.extract_list_any. rewrite Hres, Hfind.
    apply list_find_Some in Hfind as (Hlookup & Hrecords & Hfirst).
    destruct v as [| | | | |l|]; try done. exists l.
    split_and!; [done|by apply Is_true_true|done| |].
    + intros j x Hj Hx. specialize (Hfirst j x Hx Hj).
      by destruct (FboClusters._is_list_of_dicts x).
    + by destruct (get rd "items").
  - intros Hnone. destruct data as [| | | | |l|d]; try done.
    unfold FboClusters.extract_list_any, OzonProductInfo.extract_result_list.
    destruct (get d "result") as [| | | | |r|rd] eqn:Hres; try done.
    destruct (get rd "items") as [| | | | |items|] eqn:Hitems; try done.
    all: by rewrite (Hnone d rd eq_refl Hres) by (by rewrite Hitems).
Qed.

(** X6. Whatever the list [l] under it, each reader takes the records (the
    elements of [l] that are objects) out of the four envelopes
    [{"result": l}], [{"result": {"items": l}}], [{"items": l}] and [l]
    itself; and when [l] is a non-empty list of records,
    [find_best_list_of_dicts] returns [l] itself from each, with the path
    where it lies. *)
Theorem envelopes_are_unwrapped (l : list value) :
  let envelopes :=
    [VDict [("result", VList l)];
     VDict [("result", VDict [("items", VList l)])];
     VDict [("items", VList l)];
     VList l] in
  Forall (λ data, StockOzon.extract_attributes_items data = only_dicts l) envelopes ∧
  Forall (λ data, ExportProductsOzon.extract_items_from_attributes_response data
                  = only_dicts l) envelopes ∧
  Forall (λ data, OzonProductInfo.extract_result_list data = only_dicts l) envelopes ∧
  Forall (λ data, FboClusters.extract_list_any data = only_dicts l) envelopes ∧
  (all_dicts l = true → l ≠ [] →
   Forall2 (λ data path, FboClusters.find_best_list_of_dicts data = (l, path))
           envelopes ["result"; "result.items"; "items"; "<root_list>"]).
Proof.
  intros envelopes. subst envelopes. split_and!.
  - repeat constructor.
  - repeat constructor.
  - repeat constructor.
  - repeat constructor.
  - intros Hall Hne.
    assert (∀ q, FboClusters.consider l q ([], "") = (l, q)) as Hfirst.
    { intros q. unfold FboClusters.consider. by destruct l. }
    assert (∀ q q', FboClusters.consider l q' (l, q) = (l, q)) as Hagain.
    { intros q q'. unfold FboClusters.consider. cbn [fst].
      by rewrite Nat.ltb_irrefl. }
    unfold FboClusters.find_best_list_of_dicts.
    repeat constructor; cbn; rewrite ?Hall; cbn; rewrite ?Hall, ?Hfirst, ?Hagain; done.
Qed.

Lemma envelopes_are_unwrapped_witness :
  FboClusters.find_best_list_of_dicts
    (VDict [("result", VDict [("items", VList [VDict [("id", VInt 1)]])])])
  = ([VDict [("id", VInt 1)]], "result.items").
Proof.
  pose proof (proj2 (proj2 (proj2 (proj2
                (envelopes_are_unwrapped [VDict [("id", VInt 1)]]))))
                eq_refl ltac:(discriminate)) as H.
  apply Forall2_cons in H as [_ H]. apply Forall2_cons in H as [H _]. exact H.
Defined.

End envelope_readers.

Section pick_more.
Context {py_text : PyText}.

(** X7. [pick] returns the value of the first of the keys, in the order
    given, that is present with a value other than [None], [""] and [[]];
    it returns nothing exactly when no key is such.  A picked value is never
    one of those three. *)
Theorem pick_first_usable d keys :
  (FboClusters.pick d keys = None ↔ ∀ k, k ∈ keys → unusable d k) ∧
  (∀ v, FboClusters.pick d keys = Some v ↔
        ∃ before k after,
          keys = before ++ k :: after ∧
          lookup_key k d = Some v ∧ FboClusters.is_blank v = false ∧
          ∀ k', k' ∈ before → unusable d k').
Proof.
  induction keys as [|k keys [IHn IHs]]; cbn [FboClusters.pick].
  - split.
    + split; [by intros _ k ?%elem_of_nil|done].
    + intros v. split; [done|]. intros (before & k & after & Hk & _). by destruct before.
  - assert (unusable d k ∨ ∃ v, lookup_key k d = Some v ∧ FboClusters.is_blank v = false)
      as [Hk|(v & Hv & Hb)].
    { unfold unusable. destruct (lookup_key k d) as [v|]; [|by left].
      destruct (FboClusters.is_blank v) eqn:Hb; [left|right; eauto].
      by intros ? [= <-]. }
    + assert (match lookup_key k d with
              | Some v => if FboClusters.is_blank v then FboClusters.pick d keys else Some v
              | None => FboClusters.pick d keys
              end = FboClusters.pick d keys) as ->.
      { destruct (lookup_key k d) as [v|] eqn:Hv; [|done]. by rewrite (Hk v Hv). }
      split.
      * rewrite IHn. split.
        -- intros H k' [->|?]%elem_of_cons; auto.
        -- intros H k' ?. apply H. by constructor.
      * intros v. rewrite IHs. split.
        -- intros (before & k' & after & -> & ? & ? & Hbefore).
           exists (k :: before), k', after. split_and!; [done..|].
           intros k'' [->|?]%elem_of_cons; auto.
        -- intros (before & k' & after & Hkeys & Hv & Hb & Hbefore).
           destruct before as [|k0 before].
           { injection Hkeys as <- <-. by rewrite (Hk v Hv) in Hb. }
           injection Hkeys as <- ->. exists before, k', after.
           split_and!; [done..|]. intros k'' ?. apply Hbefore. by constructor.
    + rewrite Hv, Hb. split.
      * split; [done|]. intros H.
        specialize (H k ltac:(constructor) v Hv). by rewrite H in Hb.
      * intros v'. split.
        -- intros [= <-]. exists [], k, keys. split_and!; [done..|].
           by intros ? ?%elem_of_nil.
        -- intros (before & k' & after & Hkeys & Hv' & Hb' & Hbefore).
           destruct before as [|k0 before].
           { injection Hkeys as <- <-. congruence. }
           injection Hkeys as <- ->.
           specialize (Hbefore k ltac:(constructor) v Hv). by rewrite Hbefore in Hb.
Qed.

End pick_more.

(** * Further properties of the SKU join *)

Section sku_meta_more.
Context {py_text : PyText}.
Variable py_repr : value → string.

Lemma add_sku_meta_keeps items : ∀ (sku_meta final : gmap Z dict) s meta,
  foldl_result (StockOzon.add_sku_meta py_repr) sku_meta items = Ok final →
  sku_meta !! s = Some meta →
  final !! s = Some meta.
Proof.
  induction items as [|it items IH]; intros sku_meta final s meta; cbn [foldl_result].
  - by intros [= <-].
  - destruct (StockOzon.add_sku_meta py_repr sku_meta it) as [known| |] eqn:Hadd;
      simpl; [|done..].
    intros Hrest Hs. apply (IH _ _ _ _ Hrest).
    apply add_sku_meta_inv in Hadd as ([sku|] & _ & ->); [|done].
    destruct (sku_meta !! sku) eqn:Hsku; [done|].
    rewrite lookup_insert_ne; [done|]. intros ->. congruence.
Qed.

Lemma add_sku_meta_other before : ∀ (sku_meta final : gmap Z dict) s,
  foldl_result (StockOzon.add_sku_meta py_repr) sku_meta before = Ok final →
  sku_meta !! s = None →
  Forall (λ it, StockOzon.extract_sku_from_item py_repr it ≠ Ok (Some s)) before →
  final !! s = None.
Proof.
  induction before as [|it before IH]; intros sku_meta final s; cbn [foldl_result].
  - by intros [= <-].
  - destruct (StockOzon.add_sku_meta py_repr sku_meta it) as [known| |] eqn:Hadd;
      simpl; [|done..].
    intros Hrest Hnone [Hit Hbefore]%Forall_cons. apply (IH _ _ _ Hrest); [|done].
    apply add_sku_meta_inv in Hadd as ([sku|] & Hsku & ->); [|done].
    destruct (sku_meta !! sku); [done|].
    rewrite lookup_insert_ne; [done|]. intros ->. by destruct Hit.
Qed.

Lemma add_sku_meta_returns items : ∀ (sku_meta : gmap Z dict),
  (∃ final, foldl_result (StockOzon.add_sku_meta py_repr) sku_meta items = Ok final) ↔
  Forall (λ it, ∃ derived, StockOzon.extract_sku_from_item py_repr it = Ok derived) items.
Proof.
  induction items as [|it items IH]; intros sku_meta; cbn [foldl_result].
  - split; [constructor|by eexists].
  - split.
    + intros [final Hrun].
      destruct (StockOzon.add_sku_meta py_repr sku_meta it) as [known| |] eqn:Hadd;
        simpl in Hrun; [|done..].
      apply add_sku_meta_inv in Hadd as (derived & Hderived & _).
      constructor; [by eexists|]. apply (IH known). by eexists.
    + intros [[derived Hderived] Hrest]%Forall_cons.
      assert (∃ known, StockOzon.add_sku_meta py_repr sku_meta it = Ok known)
        as [known ->].
      { unfold StockOzon.add_sku_meta. rewrite Hderived. by eexists. }
      simpl. by apply IH.
Qed.

(** X8. The name and offer code kept for a SKU are those of the first
    attribute record from which this SKU is derived: an entry that is there
    is never overwritten by a later record, and every SKU of a map built
    from nothing is positive.  The table is built exactly when the
    derivation returns on every record. *)
Theorem sku_meta_keeps_first :
  (∀ items (sku_meta final : gmap Z dict) s meta,
     foldl_result (StockOzon.add_sku_meta py_repr) sku_meta items = Ok final →
     sku_meta !! s = Some meta →
     final !! s = Some meta) ∧
  (∀ before it after (sku_meta final : gmap Z dict) s,
     foldl_result (StockOzon.add_sku_meta py_repr) sku_meta (before ++ it :: after)
       = Ok final →
     sku_meta !! s = None →
     StockOzon.extract_sku_from_item py_repr it = Ok (Some s) →
     Forall (λ it', StockOzon.extract_sku_from_item py_repr it' ≠ Ok (Some s)) before →
     final !! s = Some [("name", get it "name"); ("offer_id", get it "offer_id")]) ∧
  (∀ items (final : gmap Z dict) s,
     foldl_result (StockOzon.add_sku_meta py_repr) ∅ items = Ok final →
     is_Some (final !! s) → 0 < s) ∧
  (∀ items (sku_meta : gmap Z dict),
     (∃ final, foldl_result (StockOzon.add_sku_meta py_repr) sku_meta items = Ok final) ↔
     Forall (λ it, ∃ derived, StockOzon.extract_sku_from_item py_repr it = Ok derived)
       items).
Proof.
  split_and!.
  - apply add_sku_meta_keeps.
  - intros before it after sku_meta final s Hrun Hnone Hit Hbefore.
    rewrite foldl_result_app in Hrun. unfold mbind at 1, result_bind at 1 in Hrun.
    destruct (foldl_result _ sku_meta before) as [known| |] eqn:Hknown; [|done..].
    cbn [foldl_result] in Hrun.
    destruct (StockOzon.add_sku_meta py_repr known it) as [known'| |] eqn:Hadd;
      simpl in Hrun; [|done..].
    apply (add_sku_meta_keeps _ _ _ _ _ Hrun).
    apply add_sku_meta_inv in Hadd as (derived & Hderived & ->).
    rewrite Hit in Hderived. injection Hderived as <-.
    rewrite (add_sku_meta_other _ _ _ _ Hknown Hnone Hbefore).
    apply lookup_insert_eq.
  - intros items final s Hrun [Hs|(it & _ & Hit)]%(add_sku_meta_keys _ _ _ _ _ Hrun).
    + rewrite lookup_empty in Hs. by destruct Hs.
    + by apply extract_sku_positive in Hit.
  - apply add_sku_meta_returns.
Qed.

End sku_meta_more.

Lemma sku_meta_keeps_first_witness :
  match foldl_result (StockOzon.add_sku_meta sample_repr) ∅
          ([[("sku", VStr "x"); ("name", VStr "none")]]
           ++ [("sku_id", VInt 7); ("name", VStr "first")]
           :: [[("sku", VStr "7"); ("name", VStr "second")]]) with
  | Ok final => final !! 7 = Some [("name", VStr "first"); ("offer_id", VNone)]
  | _ => False
  end.
Proof.
  destruct (foldl_result (StockOzon.add_sku_meta sample_repr) ∅
              ([[("sku", VStr "x"); ("name", VStr "none")]]
               ++ [("sku_id", VInt 7); ("name", VStr "first")]
               :: [[("sku", VStr "7"); ("name", VStr "second")]]))
    as [final|e|] eqn:Hrun; [|vm_compute in Hrun; discriminate Hrun..].
  refine (proj1 (proj2 (sku_meta_keeps_first sample_repr))
            [[("sku", VStr "x"); ("name", VStr "none")]]
            [("sku_id", VInt 7); ("name", VStr "first")]
            [[("sku", VStr "7"); ("name", VStr "second")]] ∅ final 7 Hrun _ _ _).
  - apply lookup_empty.
  - reflexivity.
  - repeat constructor. discriminate.
Defined.


Section numerals.
Context {py_text : PyText}.

(** X9. The decimal text of an integer reads back as that integer: [int()]
    gives [z] on [str(z)], so a stock row that reports the SKU as the text
    sent in the request is grouped under that SKU, and [normalize_sku]
    gives on [str(z)] what it gives on [z], which is [z] when [z] is
    positive and nothing otherwise. *)
Theorem sku_text_round_trip (py_repr : value → string) (z : Z) :
  py_int (VStr (Py.str_of_int z)) = Ok z ∧
  (∀ row, get row "sku" = VStr (Py.str_of_int z) → reported_sku row = Some z) ∧
  StockOzon.normalize_sku py_repr (VStr (Py.str_of_int z))
    = StockOzon.normalize_sku py_repr (VInt z) ∧
  StockOzon.normalize_sku py_repr (VStr (Py.str_of_int z))
    = Ok (if 0 <? z then Some z else None).
Proof.
  split_and!.
  - cbn [py_int]. by rewrite py_int_of_str_str_of_int.
  - intros row Hrow. unfold reported_sku. rewrite Hrow. cbn [is_none py_int].
    by rewrite py_int_of_str_str_of_int.
  - reflexivity.
  - apply (normalize_sku_int py_repr z).
Qed.

End numerals.

(** * Further properties of the paginated collector *)

Section collector_more.
Context {py_text : PyText}.
Variable py_repr : value → string.

(** X10. On a response that is no object the two collectors part: the one of
    [stock_ozon.py] raises [AttributeError] when the response is truthy (a
    non-empty list or text, a number) and stops quietly when it is falsy;
    the one of [export_products_ozon.py] always stops quietly.  Stopping
    quietly returns the identifiers collected so far, as if the listing had
    ended. *)
Theorem collectors_on_non_object fuel cursor acc data :
  is_dict data = false →
  (∀ w w1,
     post_ozon "/v3/product/list" (StockOzon.product_list_payload cursor)
       StockOzon.default_retries w = (Ok data, w1) →
     StockOzon.product_ids_loop py_repr (S fuel) cursor acc w =
     (if truthy data then Raise AttributeError else Ok acc, w1)) ∧
  (∀ w w1,
     post_ozon "/v3/product/list" (StockOzon.product_list_payload cursor)
       ExportProductsOzon.default_retries w = (Ok data, w1) →
     ExportProductsOzon.product_ids_loop py_repr (S fuel) cursor acc w = (Ok acc, w1)).
Proof.
  intros Hdata. split; intros w w1 Hpost.
  - cbn [StockOzon.product_ids_loop]. rewrite (bind_ok _ _ _ _ _ Hpost).
    destruct (truthy data) eqn:Ht.
    + rewrite (py_or_truthy _ _ Ht). by destruct data.
    + rewrite (py_or_falsy _ _ Ht). reflexivity.
  - cbn [ExportProductsOzon.product_ids_loop].
    change (ExportProductsOzon.product_list_payload cursor)
      with (StockOzon.product_list_payload cursor).
    rewrite (bind_ok _ _ _ _ _ Hpost). by rewrite Hdata.
Qed.

Lemma post_ozon_always r path payload retries w :
  (∀ i, net w i = Replies r) →
  transient (status_code r) = false → resp_ok r = true →
  post_ozon path payload (S retries) w = (Ok (body_data r), after_calls w 1 path payload []).
Proof. intros Hnet Htr Hok. by apply post_attempts_accepted. Qed.

(** X11. Nothing bounds the loop of the collectors: when the server answers
    every request with a page that has records and a cursor, however many
    times the loop is unrolled it has not returned. *)
Theorem collectors_do_not_end r pg w fuel :
  transient (status_code r) = false →
  resp_ok r = true →
  page_of py_repr (body_data r) pg →
  ¬ last_page pg →
  (∀ i, net w i = Replies r) →
  (StockOzon.get_all_product_ids py_repr fuel w).1 = OutOfFuel ∧
  (ExportProductsOzon.get_all_product_ids py_repr fuel w).1 = OutOfFuel.
Proof.
  intros Htr Hok Hpage Hlast Hnet.
  assert (pg.1 ≠ [] ∧ pg.2 ≠ "") as [H1 H2].
  { split; intros ?; apply Hlast; by constructor. }
  unfold StockOzon.get_all_product_ids, ExportProductsOzon.get_all_product_ids.
  generalize (@nil string) as acc. generalize "" as cursor. revert w Hnet.
  induction fuel as [|fuel IH]; intros w Hnet cursor acc; [done|].
  split.
  - rewrite (stock_loop_step py_repr _ _ _ _ _ pg _
               (post_ozon_always r _ _ _ w Hnet Htr Hok) Hpage).
    rewrite !decide_False by done. by apply IH.
  - rewrite (export_loop_step py_repr _ _ _ _ _ pg _
               (post_ozon_always r _ _ _ w Hnet Htr Hok) Hpage).
    rewrite !decide_False by done. by apply IH.
Qed.

End collector_more.

Lemma collectors_on_non_object_witness :
  let w := scripted [reply 200 (Some (VList [VInt 1])) ""] in
  (StockOzon.product_ids_loop sample_repr 1 "c" ["7"] w).1 = Raise AttributeError ∧
  (ExportProductsOzon.product_ids_loop sample_repr 1 "c" ["7"] w).1 = Ok ["7"].
Proof.
  intros w.
  destruct (collectors_on_non_object sample_repr 0 "c" ["7"] (VList [VInt 1]) eq_refl)
    as [Hs He].
  split.
  - by rewrite (Hs w _ eq_refl).
  - by rewrite (He w _ eq_refl).
Defined.

Lemma collectors_do_not_end_witness :
  (StockOzon.get_all_product_ids sample_repr 50 (always one_product_page)).1 = OutOfFuel.
Proof.
  refine (proj1 (collectors_do_not_end sample_repr one_product_page
                   ([[("product_id", VInt 1)]], "again")
                   (always one_product_page) 50 eq_refl eq_refl _ _ _)).
  - eexists _, _. split_and!; reflexivity.
  - intros [H|H]; discriminate H.
  - done.
Defined.

(** * Further properties of the compact stock export *)

Section stock_export_more.
Context {py_text : PyText}.
Variable py_repr : value → string.

Lemma chunked_nil {A} n : 0 < n → chunked (@nil A) n = Ok [].
Proof.
  intros Hn. unfold chunked. destruct (Z.eqb_spec n 0); [lia|].
  destruct (Z.ltb_spec n 0); [lia|]. unfold range_step. simpl.
  rewrite Nat.div_small by lia. done.
Qed.

Lemma sorted_keys_empty : StockOzon.sorted_keys ∅ = [].
Proof. unfold StockOzon.sorted_keys. by rewrite map_to_list_empty. Qed.

(** The export once the identifiers and the SKUs are known. *)
Lemma export_stocks_compact_tail fuel out_path chunk_size w product_ids w1 sku_meta w2 :
  StockOzon.get_all_product_ids py_repr fuel w = (Ok product_ids, w1) →
  StockOzon.get_sku_meta_by_product_ids py_repr product_ids w1 = (Ok sku_meta, w2) →
  StockOzon.export_stocks_compact py_repr fuel out_path chunk_size w =
  (batches ← lift (chunked (StockOzon.sorted_keys sku_meta) chunk_size);
   _ ← StockOzon.export_batches py_repr out_path sku_meta batches true;
   file_write out_path (Json.newline +:+ "]" +:+ Json.newline))
    (with_file w2 out_path ("[" +:+ Json.newline)).
Proof.
  intros Hids Hmeta. unfold StockOzon.export_stocks_compact.
  rewrite (bind_ok _ _ _ _ _ Hids), (bind_ok _ _ _ _ _ Hmeta).
  rewrite (bind_ok _ _ _ _ _ (file_open_w_with_file _ _)).
  rewrite (bind_ok _ _ _ _ _ (file_write_after _ _ "" _ (with_file_lookup _ _ _))).
  by rewrite with_file_with_file.
Qed.

(** X12. When the listing gives no product, [export_stocks_compact] asks
    the server nothing more (no attribute request, no stock request) and
    writes the empty array. *)
Theorem export_of_empty_catalogue fuel out_path chunk_size w w1 :
  0 < chunk_size →
  StockOzon.get_all_product_ids py_repr fuel w = (Ok [], w1) →
  StockOzon.export_stocks_compact py_repr fuel out_path chunk_size w =
    (Ok tt, with_file w1 out_path (stock_document py_repr [])) ∧
  StockOzon.get_sku_meta_by_product_ids py_repr [] w1 = (Ok ∅, w1).
Proof.
  intros Hchunk Hids.
  assert (StockOzon.get_sku_meta_by_product_ids py_repr [] w1 = (Ok ∅, w1)) as Hmeta
    by reflexivity.
  split; [|done].
  rewrite (export_stocks_compact_tail _ _ _ _ _ _ _ _ Hids Hmeta).
  rewrite sorted_keys_empty, (chunked_nil chunk_size Hchunk), bind_lift_ok.
  cbn [StockOzon.export_batches]. rewrite bind_mret.
  rewrite (file_write_after _ _ _ _ (with_file_lookup _ _ _)), with_file_with_file.
  reflexivity.
Qed.

(** X13. The chunk size is not checked.  With the size 0 the export raises
    [ValueError] after it has opened the file, which is left holding the
    opening bracket alone; with a negative size it succeeds and writes the
    empty array, whatever the SKUs: none of them is exported, and no stock
    is requested. *)
Theorem export_with_bad_chunk_size fuel out_path chunk_size w product_ids w1 sku_meta w2 :
  StockOzon.get_all_product_ids py_repr fuel w = (Ok product_ids, w1) →
  StockOzon.get_sku_meta_by_product_ids py_repr product_ids w1 = (Ok sku_meta, w2) →
  (chunk_size = 0 →
   StockOzon.export_stocks_compact py_repr fuel out_path chunk_size w =
     (Raise ValueError, with_file w2 out_path ("[" +:+ Json.newline))) ∧
  (chunk_size < 0 →
   StockOzon.export_stocks_compact py_repr fuel out_path chunk_size w =
     (Ok tt, with_file w2 out_path (stock_document py_repr []))).
Proof.
  intros Hids Hmeta.
  rewrite (export_stocks_compact_tail _ _ _ _ _ _ _ _ Hids Hmeta).
  split.
  - intros ->. reflexivity.
  - intros Hneg. unfold chunked.
    destruct (Z.eqb_spec chunk_size 0); [lia|].
    destruct (Z.ltb_spec chunk_size 0); [|lia].
    rewrite bind_lift_ok. cbn [StockOzon.export_batches]. rewrite bind_mret.
    rewrite (file_write_after _ _ _ _ (with_file_lookup _ _ _)), with_file_with_file.
    reflexivity.
Qed.

Lemma render_objects_rest objs :
  render_objects py_repr false objs =
  Json.join EmptyString
    ((λ obj, ("," +:+ Json.newline) +:+ "  " +:+ Json.dumps py_repr obj) <$> objs).
Proof.
  induction objs as [|obj objs IH]; [done|].
  rewrite fmap_cons. cbn [render_objects Json.join]. rewrite IH.
  destruct objs; [by rewrite append_nil_r|]. by rewrite !append_assoc.
Qed.

Lemma join_empty_cons x xs : Json.join EmptyString (x :: xs) = x +:+ Json.join EmptyString xs.
Proof. destruct xs; [by rewrite append_nil_r|reflexivity]. Qed.

Lemma join_cons sep x xs :
  Json.join sep (x :: xs) = x +:+ Json.join EmptyString ((λ y, sep +:+ y) <$> xs).
Proof.
  revert x. induction xs as [|y ys IH]; intros x.
  - by rewrite append_nil_r.
  - rewrite fmap_cons, join_empty_cons, append_assoc, <- IH. reflexivity.
Qed.

Lemma render_objects_join objs :
  render_objects py_repr true objs =
  Json.join ("," +:+ Json.newline) ((λ obj, "  " +:+ Json.dumps py_repr obj) <$> objs).
Proof.
  destruct objs as [|obj objs]; [done|].
  rewrite fmap_cons, join_cons, <- list_fmap_compose.
  cbn [render_objects]. rewrite render_objects_rest.
  change (String.append EmptyString ?x) with x. by rewrite append_assoc.
Qed.

(** X14. The text that [export_stocks_compact] writes piece by piece is the
    one a single join would give: an opening bracket and a line break, the
    objects, each after two blanks, with a comma and a line break between
    two of them and none after the last, then a line break, the closing
    bracket and a line break. *)
Theorem streamed_text_is_joined fuel out_path chunk_size w w' :
  0 < chunk_size →
  StockOzon.export_stocks_compact py_repr fuel out_path chunk_size w = (Ok tt, w') →
  ∃ objs,
    files w' !! out_path =
    Some (("[" +:+ Json.newline)
          +:+ Json.join ("," +:+ Json.newline)
                ((λ obj, "  " +:+ Json.dumps py_repr obj) <$> objs)
          +:+ (Json.newline +:+ "]" +:+ Json.newline)).
Proof.
  intros Hchunk Hrun.
  destruct (export_stocks_compact_document _ _ _ _ _ _ Hchunk Hrun)
    as (_ & _ & _ & _ & objs & _ & _ & _ & Hfile).
  exists objs. rewrite Hfile. unfold stock_document. by rewrite render_objects_join.
Qed.

End stock_export_more.

Lemma export_of_empty_catalogue_witness :
  StockOzon.export_stocks_compact sample_repr 1 "stocks_compact.json" 99 empty_listing =
    (Ok tt,
     with_file (StockOzon.get_all_product_ids sample_repr 1 empty_listing).2
       "stocks_compact.json" (stock_document sample_repr [])).
Proof.
  refine (proj1 (export_of_empty_catalogue sample_repr 1 "stocks_compact.json" 99
                   empty_listing _ _ _)).
  - lia.
  - vm_compute. reflexivity.
Defined.

Lemma export_with_bad_chunk_size_witness :
  (StockOzon.export_stocks_compact sample_repr 2 "stocks_compact.json" 0
     sample_pipeline).1 = Raise ValueError ∧
  (StockOzon.export_stocks_compact sample_repr 2 "stocks_compact.json" (-1)
     sample_pipeline).1 = Ok tt.
Proof.
  set (w1 := (StockOzon.get_all_product_ids sample_repr 2 sample_pipeline).2).
  set (found := StockOzon.get_sku_meta_by_product_ids sample_repr ["1"; "2"] w1).
  set (sku_meta := match found.1 with Ok m => m | _ => ∅ end).
  assert (StockOzon.get_all_product_ids sample_repr 2 sample_pipeline = (Ok ["1"; "2"], w1))
    as Hids by (vm_compute; reflexivity).
  assert (found = (Ok sku_meta, found.2)) as Hmeta by (vm_compute; reflexivity).
  split.
  - destruct (export_with_bad_chunk_size sample_repr 2 "stocks_compact.json" 0
                sample_pipeline _ _ _ _ Hids Hmeta) as [H0 _].
    by rewrite (H0 eq_refl).
  - destruct (export_with_bad_chunk_size sample_repr 2 "stocks_compact.json" (-1)
                sample_pipeline _ _ _ _ Hids Hmeta) as [_ H0].
    rewrite H0; [done|lia].
Defined.

Lemma streamed_text_is_joined_witness :
  ∃ objs,
    files (StockOzon.export_stocks_compact sample_repr 2 "stocks_compact.json" 99
             sample_pipeline).2 !! "stocks_compact.json" =
    Some (("[" +:+ Json.newline)
          +:+ Json.join ("," +:+ Json.newline)
                ((λ obj, "  " +:+ Json.dumps sample_repr obj) <$> objs)
          +:+ (Json.newline +:+ "]" +:+ Json.newline)).
Proof.
  apply (streamed_text_is_joined sample_repr 2 "stocks_compact.json" 99 sample_pipeline).
  - lia.
  - vm_compute. reflexivity.
Defined.

(** * Which files the scripts write *)

Create HintDb keeps.

Section files_written.
Context {py_text : PyText}.
Variable py_repr : value → string.
Variable float_of_str : string → option float.

Lemma keeps_mret {A} T (a : A) : keeps_other_files T (mret a).
Proof. by intros w p _. Qed.

Lemma keeps_lift {A} T (r : result A) : keeps_other_files T (lift r).
Proof. by intros w p _. Qed.

Lemma keeps_raise {A} T e : keeps_other_files T (@raise A e).
Proof. by intros w p _. Qed.

Lemma keeps_out_of_fuel {A} T : keeps_other_files T (@out_of_fuel A).
Proof. by intros w p _. Qed.

Lemma keeps_bind {A B} T (m : M A) (k : A → M B) :
  keeps_other_files T m → (∀ a, keeps_other_files T (k a)) →
  keeps_other_files T (m ≫= k).
Proof.
  intros Hm Hk w p Hp. specialize (Hm w p Hp). unfold mbind, M_bind.
  destruct (m w) as [[a|e|] w1]; simpl in *; [|done..].
  by rewrite (Hk a w1 p Hp).
Qed.

Lemma keeps_try_except {A} T (m h : M A) :
  keeps_other_files T m → keeps_other_files T h → keeps_other_files T (try_except m h).
Proof.
  intros Hm Hh w p Hp. specialize (Hm w p Hp). unfold try_except.
  destruct (m w) as [[a|e|] w1]; simpl in *; [done| |done].
  by rewrite (Hh w1 p Hp).
Qed.

Lemma keeps_post_ozon T path payload retries :
  keeps_other_files T (post_ozon path payload retries).
Proof. intros w p _. unfold post_ozon. by rewrite post_attempts_files. Qed.

Lemma keeps_file_open_w T path : path ∈ T → keeps_other_files T (file_open_w path).
Proof. intros Hin w p Hp. simpl. apply lookup_insert_ne. by intros ->. Qed.

Lemma keeps_file_write T path s : path ∈ T → keeps_other_files T (file_write path s).
Proof. intros Hin w p Hp. simpl. apply lookup_insert_ne. by intros ->. Qed.

Lemma keeps_nil {A} (m : M A) w : keeps_other_files [] m → files (m w).2 = files w.
Proof. intros Hm. apply map_eq. intros p. apply Hm. apply not_elem_of_nil. Qed.

Lemma keeps_more {A} T T' (m : M A) :
  keeps_other_files [] m → keeps_other_files T' m → keeps_other_files (T ++ T') m.
Proof. intros Hm _ w p _. by rewrite (keeps_nil m w Hm). Qed.

#[local] Hint Resolve keeps_mret keeps_lift keeps_raise keeps_out_of_fuel
  keeps_post_ozon keeps_try_except : keeps.
#[local] Hint Extern 2 (keeps_other_files _ (_ ≫= _)) =>
  apply keeps_bind; [|intros ?] : keeps.
#[local] Hint Extern 1 (keeps_other_files _ (if ?b then _ else _)) =>
  destruct b : keeps.
#[local] Hint Extern 1 (keeps_other_files _ (match ?x with (_, _) => _ end)) =>
  destruct x : keeps.
#[local] Hint Extern 1 (keeps_other_files _ (file_open_w _)) =>
  apply keeps_file_open_w; set_solver : keeps.
#[local] Hint Extern 1 (keeps_other_files _ (file_write _ _)) =>
  apply keeps_file_write; set_solver : keeps.

Lemma keeps_stock_collector T fuel : ∀ cursor acc,
  keeps_other_files T (StockOzon.product_ids_loop py_repr fuel cursor acc).
Proof.
  induction fuel as [|fuel IH]; intros cursor acc; cbn [StockOzon.product_ids_loop];
    eauto 20 with keeps.
Qed.

Lemma keeps_export_collector T fuel : ∀ cursor acc,
  keeps_other_files T (ExportProductsOzon.product_ids_loop py_repr fuel cursor acc).
Proof.
  induction fuel as [|fuel IH]; intros cursor acc;
    cbn [ExportProductsOzon.product_ids_loop]; eauto 20 with keeps.
Qed.

Lemma keeps_sku_meta T product_ids :
  keeps_other_files T (StockOzon.get_sku_meta_by_product_ids py_repr product_ids).
Proof.
  unfold StockOzon.get_sku_meta_by_product_ids.
  apply keeps_bind; [apply keeps_lift|]. intros batches. generalize (∅ : gmap Z dict).
  induction batches as [|batch batches IH]; intros sku_meta;
    cbn [StockOzon.sku_meta_batches]; eauto 10 with keeps.
Qed.

Lemma keeps_export_attributes T product_ids :
  keeps_other_files T
    (ExportProductsOzon.get_attributes_by_product_ids product_ids).
Proof.
  unfold ExportProductsOzon.get_attributes_by_product_ids.
  apply keeps_bind; [apply keeps_lift|]. intros batches. generalize (@nil dict).
  induction batches as [|batch batches IH]; intros all_items;
    cbn [ExportProductsOzon.attributes_batches]; eauto 10 with keeps.
Qed.

Lemma keeps_info_attributes T product_ids :
  keeps_other_files T (OzonProductInfo.get_attributes product_ids).
Proof.
  unfold OzonProductInfo.get_attributes.
  apply keeps_bind; [apply keeps_lift|]. intros batches. generalize (@nil dict).
  induction batches as [|batch batches IH]; intros all_items;
    cbn [OzonProductInfo.attributes_batches]; eauto 10 with keeps.
Qed.

Lemma keeps_write_sku_objects out_path grouped sku_batch : ∀ first_sku_obj,
  keeps_other_files [out_path]
    (StockOzon.write_sku_objects py_repr out_path grouped sku_batch first_sku_obj).
Proof.
  induction sku_batch as [|s sku_batch IH]; intros first_sku_obj;
    cbn [StockOzon.write_sku_objects]; eauto 10 with keeps.
Qed.

Lemma keeps_export_batches out_path sku_meta batches : ∀ first_sku_obj,
  keeps_other_files [out_path]
    (StockOzon.export_batches py_repr out_path sku_meta batches first_sku_obj).
Proof.
  pose proof (keeps_write_sku_objects out_path).
  induction batches as [|sku_batch batches IH]; intros first_sku_obj;
    cbn [StockOzon.export_batches];
    unfold StockOzon.export_batch, StockOzon.get_stocks_for_skus;
    eauto 15 with keeps.
Qed.

Lemma keeps_fbo_warehouse_map T :
  keeps_other_files T (FboClusters.get_fbo_warehouse_map py_repr).
Proof. unfold FboClusters.get_fbo_warehouse_map. eauto 10 with keeps. Qed.

(** X15. Each script writes the files it names and no other: the two
    exports with an output path write that path only, the characteristics
    export writes its one file, and the cluster script writes its two dumps
    and its two tables.  This holds for every outcome, failures included;
    reading the catalogue and the warehouse directory writes nothing. *)
Theorem scripts_write_only_their_files fuel out_path chunk_size :
  keeps_other_files [out_path]
    (StockOzon.export_stocks_compact py_repr fuel out_path chunk_size) ∧
  keeps_other_files [out_path]
    (ExportProductsOzon.export_products_to_json py_repr float_of_str fuel out_path) ∧
  keeps_other_files ["характеристики_ozon.json"]
    (OzonProductInfo.main py_repr float_of_str fuel) ∧
  keeps_other_files ["ozon_cluster_list_raw.json"; "ozon_clusters_extracted.json";
                     "регионы_ozon.json"; "склады_ozon.json"]
    (FboClusters.main py_repr) ∧
  keeps_other_files [] (StockOzon.get_all_product_ids py_repr fuel) ∧
  keeps_other_files [] (ExportProductsOzon.get_all_product_ids py_repr fuel) ∧
  (∀ product_ids,
     keeps_other_files [] (StockOzon.get_sku_meta_by_product_ids py_repr product_ids) ∧
     keeps_other_files [] (ExportProductsOzon.get_attributes_by_product_ids product_ids) ∧
     keeps_other_files [] (OzonProductInfo.get_attributes product_ids)) ∧
  keeps_other_files [] (FboClusters.get_fbo_warehouse_map py_repr).
Proof.
  pose proof keeps_stock_collector. pose proof keeps_export_collector.
  pose proof keeps_sku_meta. pose proof keeps_export_attributes.
  pose proof keeps_info_attributes. pose proof keeps_export_batches.
  pose proof keeps_fbo_warehouse_map.
  split_and!; try done.
  - unfold StockOzon.export_stocks_compact, StockOzon.get_all_product_ids.
    eauto 20 with keeps.
  - unfold ExportProductsOzon.export_products_to_json,
      ExportProductsOzon.get_all_product_ids.
    eauto 20 with keeps.
  - unfold OzonProductInfo.main, OzonProductInfo.export_characteristics_ozon,
      OzonProductInfo.get_all_product_ids, ExportProductsOzon.get_all_product_ids.
    eauto 20 with keeps.
  - unfold FboClusters.main, FboClusters.extract_clusters, FboClusters.dump_json.
    eauto 30 with keeps.
  - unfold StockOzon.get_all_product_ids. done.
  - unfold ExportProductsOzon.get_all_product_ids. done.
Qed.

End files_written.

(** * The volume in the two product exports *)

Section volume_more.
Context {py_text : PyText}.
Variable py_repr : value → string.
Variable float_of_str : string → option float.

Lemma to_float_safe_py_float v :
  ExportProductsOzon.to_float_safe float_of_str v =
  match py_float float_of_str v with Ok f => Some f | _ => None end.
Proof. by destruct v. Qed.

(** X17. The two product exports compute the same volume: on every four
    values, [calc_volume_m3] of [export_products_ozon.py] and [calc_volume]
    of [ozon_product_info.py] return the same number, return nothing
    together, and raise together (a truthy unit that is no text, when the
    three dimensions are numbers).  So the column [Объем_м3] of a record is
    the same in both tables. *)
Theorem volume_functions_agree :
  (∀ depth width height unit,
     ExportProductsOzon.calc_volume_m3 float_of_str depth width height unit =
     OzonProductInfo.calc_volume float_of_str depth width height unit) ∧
  (∀ item,
     (row ← ExportProductsOzon.product_row float_of_str item; Ok (get row "Объем_м3")) =
     (row ← OzonProductInfo.characteristics_row float_of_str item;
      Ok (get row "Объем_м3"))).
Proof.
  assert (∀ depth width height unit,
     ExportProductsOzon.calc_volume_m3 float_of_str depth width height unit =
     OzonProductInfo.calc_volume float_of_str depth width height unit) as Hagree.
  { intros depth width height unit.
    unfold ExportProductsOzon.calc_volume_m3, OzonProductInfo.calc_volume.
    rewrite !to_float_safe_py_float.
    destruct (py_float float_of_str depth), (py_float float_of_str width),
      (py_float float_of_str height); reflexivity. }
  split; [done|]. intros item.
  unfold ExportProductsOzon.product_row, OzonProductInfo.characteristics_row.
  rewrite Hagree.
  destruct (OzonProductInfo.calc_volume _ _ _ _ _) as [volume|e|]; reflexivity.
Qed.

End volume_more.

(** * Further properties of the cluster script *)

Section cluster_script_more.
Context {py_text : PyText}.
Variable py_repr : value → string.

Lemma add_warehouse_name_entry mp w :
  FboClusters.add_warehouse_name py_repr mp w =
  match directory_entry py_repr w with
  | Some (k, v) => <[k := v]> mp
  | None => mp
  end.
Proof.
  unfold FboClusters.add_warehouse_name, directory_entry.
  destruct (FboClusters.pick w _) as [wid|]; [|done].
  destruct (FboClusters.pick w _) as [nm|]; [|done].
  by destruct (truthy nm).
Qed.

Lemma foldl_add_warehouse_name rows : ∀ mp,
  foldl (FboClusters.add_warehouse_name py_repr) mp rows =
  list_to_map (reverse (omap (directory_entry py_repr) rows)) ∪ mp.
Proof.
  induction rows as [|w rows IH]; intros mp.
  - simpl. by rewrite (left_id_L ∅ (∪)).
  - cbn [foldl omap list_omap]. rewrite IH, add_warehouse_name_entry.
    destruct (directory_entry py_repr w) as [[k v]|]; [|done].
    rewrite reverse_cons, list_to_map_app. cbn [list_to_map foldr].
    rewrite <- (assoc_L (∪)). f_equal.
    by rewrite insert_empty, <- insert_union_singleton_l.
Qed.

Lemma foldl_add_warehouse_name_other rows k : ∀ mp,
  Forall (λ w, ∀ v, directory_entry py_repr w ≠ Some (k, v)) rows →
  foldl (FboClusters.add_warehouse_name py_repr) mp rows !! k = mp !! k.
Proof.
  induction rows as [|w rows IH]; intros mp Hrows; [done|].
  apply Forall_cons in Hrows as [Hw Hrows]. cbn [foldl].
  rewrite (IH _ Hrows), add_warehouse_name_entry.
  destruct (directory_entry py_repr w) as [[k' v]|]; [|done].
  apply lookup_insert_ne. intros ->. by apply (Hw v).
Qed.

Lemma get_fbo_warehouse_map_run w :
  FboClusters.get_fbo_warehouse_map py_repr w =
  match warehouse_list_request w with
  | (Ok data, w1) =>
      (Ok (foldl (FboClusters.add_warehouse_name py_repr) ∅
             (FboClusters.extract_list_any data)), w1)
  | (Raise _, w1) => (Ok ∅, w1)
  | (OutOfFuel, w1) => (OutOfFuel, w1)
  end.
Proof.
  unfold FboClusters.get_fbo_warehouse_map, try_except, mbind, M_bind,
    warehouse_list_request.
  by destruct (post_ozon _ _ _ w) as [[data|e|] w1].
Qed.

(** X18. [get_fbo_warehouse_map] never fails: it always returns a table.
    When the request raises (the server cannot be reached, refuses, or every
    attempt is used up) the table is empty; otherwise it holds what the
    records of the response register, and it makes the request once, as
    [post_ozon] does, and nothing else. *)
Theorem warehouse_directory_never_fails w :
  ∃ mp,
    (FboClusters.get_fbo_warehouse_map py_repr w).1 = Ok mp ∧
    (FboClusters.get_fbo_warehouse_map py_repr w).2 = (warehouse_list_request w).2 ∧
    (∀ e, (warehouse_list_request w).1 = Raise e → mp = ∅) ∧
    (∀ data, (warehouse_list_request w).1 = Ok data →
             mp = list_to_map (reverse (omap (directory_entry py_repr)
                                          (FboClusters.extract_list_any data)))).
Proof.
  rewrite get_fbo_warehouse_map_run.
  pose proof (post_attempts_outcome "/v1/warehouse/fbo/list"
                (VDict [("filter_by_supply_type", VList [VStr "DIRECT"; VStr "CROSSDOCK"]);
                        ("limit", VInt 1000); ("offset", VInt 0)])
                FboClusters.default_retries FboClusters.default_retries 1 w)
    as (_ & _ & _ & _ & _ & Hends & _).
  fold (post_ozon "/v1/warehouse/fbo/list"
          (VDict [("filter_by_supply_type", VList [VStr "DIRECT"; VStr "CROSSDOCK"]);
                  ("limit", VInt 1000); ("offset", VInt 0)])
          FboClusters.default_retries) in Hends.
  fold warehouse_list_request in Hends.
  destruct (warehouse_list_request w) as [[data|e|] w1]; simpl in *; [| |done].
  - eexists. split_and!; [done|done|done|].
    intros ? [= <-]. by rewrite foldl_add_warehouse_name, (right_id_L ∅ (∪)).
  - exists ∅. split_and!; done.
Qed.

(** X19. In the warehouse directory the last record wins: the name kept for
    an identifier is that of the last record of the response that registers
    it, an earlier one being overwritten (the SKU table does the
    opposite). *)
Theorem warehouse_directory_last_wins before w after mp k v :
  directory_entry py_repr w = Some (k, v) →
  Forall (λ w', ∀ v', directory_entry py_repr w' ≠ Some (k, v')) after →
  foldl (FboClusters.add_warehouse_name py_repr) mp (before ++ w :: after) !! k = Some v.
Proof.
  intros Hw Hafter. rewrite foldl_app. cbn [foldl].
  rewrite (foldl_add_warehouse_name_other _ _ _ Hafter), add_warehouse_name_entry, Hw.
  apply lookup_insert_eq.
Qed.

Lemma walk_refs_no_mention node :
  mentions_warehouse node = false → FboClusters.walk_refs py_repr node = [].
Proof.
  induction node as [| | | | |l IH|d IH] using value_nested_ind; try done.
  - cbn [mentions_warehouse FboClusters.walk_refs].
    induction IH as [|y r Hy _ IHr]; [done|].
    intros [Hm Hr]%orb_false_iff. by rewrite (Hy Hm), (IHr Hr).
  - cbn [mentions_warehouse FboClusters.walk_refs].
    induction IH as [|[k v] r Hv _ IHr]; [done|].
    intros [[Hk Hm]%orb_false_iff Hr]%orb_false_iff. cbn [fst snd] in *.
    by rewrite Hk, (Hv Hm), (IHr Hr).
Qed.

(** X20. Warehouses are looked for under keys that contain "warehouse" only:
    a structure none of whose keys, at any depth, contains it (in any case)
    yields no reference, and clusters of that kind give an empty warehouse
    table, whatever the regions and the directory. *)
Theorem no_warehouse_key_no_rows :
  (∀ node, mentions_warehouse node = false →
           FboClusters.collect_warehouse_refs py_repr node = []) ∧
  (∀ clusters m warehouse_map,
     Forall (λ c, mentions_warehouse (VDict c) = false) clusters →
     FboClusters.build_warehouses py_repr clusters m warehouse_map = []).
Proof.
  split; [apply walk_refs_no_mention|].
  intros clusters m warehouse_map Hclusters. unfold FboClusters.build_warehouses.
  assert (∀ st, foldl (FboClusters.cluster_step py_repr m warehouse_map) st clusters = st)
    as ->; [|done].
  induction Hclusters as [|c clusters Hc _ IH]; intros st; [done|].
  cbn [foldl]. rewrite IH. unfold FboClusters.cluster_step.
  destruct (FboClusters.pick c _); [|done]. destruct (m !! _); [|done].
  unfold FboClusters.collect_warehouse_refs. by rewrite (walk_refs_no_mention _ Hc).
Qed.

End cluster_script_more.

Lemma warehouse_directory_last_wins_witness :
  foldl (FboClusters.add_warehouse_name sample_repr) ∅
    ([[("id", VInt 5); ("name", VStr "old")]]
     ++ [("warehouse_id", VStr "5"); ("title", VStr "new")]
     :: [[("id", VInt 6); ("name", VStr "other")];
         [("id", VInt 5); ("name", VInt 0)]]) !! "5" = Some "new".
Proof.
  apply (warehouse_directory_last_wins sample_repr
           [[("id", VInt 5); ("name", VStr "old")]]
           [("warehouse_id", VStr "5"); ("title", VStr "new")]
           [[("id", VInt 6); ("name", VStr "other")];
            [("id", VInt 5); ("name", VInt 0)]] ∅ "5" "new").
  - reflexivity.
  - repeat constructor; intros v' H; vm_compute in H; discriminate H.
Defined.

Section cluster_script_run.
Context {py_text : PyText}.
Variable py_repr : value → string.




Lemma region_step_invariant st c st' :
  FboClusters.region_step py_repr st c = Ok st' →
  ((λ r, get r "id") <$> st.1.1 = (λ i, VInt (Z.of_nat i)) <$> seq 1 (length st.1.1) ∧
   st.2 = Z.of_nat (length st.1.1) + 1 ∧
   (∀ s rid, st.1.2 !! s = Some rid → 1 ≤ rid < st.2) ∧
   (∀ s1 s2 rid, st.1.2 !! s1 = Some rid → st.1.2 !! s2 = Some rid → s1 = s2) ∧
   size st.1.2 = length st.1.1) →
  ((λ r, get r "id") <$> st'.1.1 = (λ i, VInt (Z.of_nat i)) <$> seq 1 (length st'.1.1) ∧
   st'.2 = Z.of_nat (length st'.1.1) + 1 ∧
   (∀ s rid, st'.1.2 !! s = Some rid → 1 ≤ rid < st'.2) ∧
   (∀ s1 s2 rid, st'.1.2 !! s1 = Some rid → st'.1.2 !! s2 = Some rid → s1 = s2) ∧
   size st'.1.2 = length st'.1.1).
Proof.
  destruct st as [[regions m] next]. unfold FboClusters.region_step.
  destruct (FboClusters.pick c _) as [cid|]; [|by intros [= <-]].
  destruct (m !! py_str py_repr cid) eqn:Hnew; [by intros [= <-]|].
  destruct (if py_isdigit (py_str py_repr cid) then _ else _) as [shown| |];
    [|done..].
  intros [= <-]. cbn [fst snd]. intros (Hids & -> & Hrange & Hinj & Hsize).
  split_and!.
  - rewrite fmap_app, length_app, Hids. cbn [length].
    rewrite Nat.add_1_r, seq_S, fmap_app. f_equal. cbn [fmap list_fmap]. f_equal.
    transitivity (VInt (Z.of_nat (length regions) + 1)); [reflexivity|f_equal; lia].
  - rewrite length_app. cbn [length]. lia.
  - intros s rid [[_ <-]|[_ Hold]]%lookup_insert_Some; [lia|].
    apply Hrange in Hold. lia.
  - intros s1 s2 rid [[<- <-]|[? H1]]%lookup_insert_Some
      [[<- Heq]|[? H2]]%lookup_insert_Some; [done| | |by eauto].
    + apply Hrange in H2. lia.
    + apply Hrange in H1. lia.
  - rewrite map_size_insert_None by done. rewrite length_app. cbn [length]. lia.
Qed.

Lemma region_step_grows st c st' :
  FboClusters.region_step py_repr st c = Ok st' →
  (∀ s, is_Some (st.1.2 !! s) → is_Some (st'.1.2 !! s)) ∧
  (∀ cid, FboClusters.pick c ["cluster_id"; "id"] = Some cid →
          is_Some (st'.1.2 !! py_str py_repr cid)).
Proof.
  destruct st as [[regions m] next]. unfold FboClusters.region_step.
  destruct (FboClusters.pick c _) as [cid|]; [|by intros [= <-]].
  destruct (m !! py_str py_repr cid) eqn:Hnew.
  { intros [= <-]. split; [done|]. intros ? [= <-]. cbn [fst snd]. by rewrite Hnew. }
  destruct (if py_isdigit (py_str py_repr cid) then _ else _) as [shown| |];
    [|done..].
  intros [= <-]. cbn [fst snd]. split.
  - intros s Hs. destruct (decide (py_str py_repr cid = s)) as [<-|Hne].
    + by rewrite lookup_insert_eq.
    + by rewrite lookup_insert_ne.
  - intros ? [= <-]. by rewrite lookup_insert_eq.
Qed.

Lemma regions_cover clusters : ∀ st st',
  foldl_result (FboClusters.region_step py_repr) st clusters = Ok st' →
  (∀ s, is_Some (st.1.2 !! s) → is_Some (st'.1.2 !! s)) ∧
  (∀ c cid, c ∈ clusters → FboClusters.pick c ["cluster_id"; "id"] = Some cid →
            is_Some (st'.1.2 !! py_str py_repr cid)).
Proof.
  induction clusters as [|c clusters IH]; intros st st'; simpl.
  - intros [= <-]. split; [done|]. intros c cid Hin. by apply elem_of_nil in Hin.
  - destruct (FboClusters.region_step py_repr st c) as [st1| |] eqn:Hstep; [|done..].
    simpl. intros Hrest. destruct (IH _ _ Hrest) as [Hmono Hcover].
    destruct (region_step_grows _ _ _ Hstep) as [Hmono1 Hcover1].
    split; [by eauto|]. intros c' cid [->|Hin]%elem_of_cons Hpick; by eauto.
Qed.

(** X22. [build_regions] numbers the regions 1, 2, 3, ... in the order of
    the table, gives one region to each distinct identifier text (two
    identifiers never share a region id, and every id of the assignment is
    the number of a row), and leaves no cluster that has an identifier
    without a region. *)
Theorem regions_are_numbered clusters regions m :
  FboClusters.build_regions py_repr clusters = Ok (regions, m) →
  (λ r, get r "id") <$> regions = (λ i, VInt (Z.of_nat i)) <$> seq 1 (length regions) ∧
  size m = length regions ∧
  (∀ s rid, m !! s = Some rid → 1 ≤ rid ≤ Z.of_nat (length regions)) ∧
  (∀ s1 s2 rid, m !! s1 = Some rid → m !! s2 = Some rid → s1 = s2) ∧
  (∀ c cid, c ∈ clusters → FboClusters.pick c ["cluster_id"; "id"] = Some cid →
            is_Some (m !! py_str py_repr cid)).
Proof.
  unfold FboClusters.build_regions.
  destruct (foldl_result _ _ clusters) as [[[regions' m'] next]| |] eqn:Hfold;
    [|done..].
  intros [= -> ->].
  pose proof (foldl_result_invariant _ (FboClusters.region_step py_repr) clusters
                (λ a x a' Ha Hstep, region_step_invariant a x a' Hstep Ha)
                ([], ∅, 1) (regions, m, next)) as Hinv.
  cbn [fst snd] in Hinv.
  destruct (Hinv ltac:(by split_and!) Hfold) as (Hids & Hnext & Hrange & Hinj & Hsize).
  destruct (regions_cover _ _ _ Hfold) as [_ Hcover]. cbn [fst snd] in Hcover.
  split_and!; try done.
  intros s rid Hs. apply Hrange in Hs. lia.
Qed.

End cluster_script_run.

Lemma regions_are_numbered_witness :
  match FboClusters.build_regions sample_repr (sample_clusters ++ sample_clusters) with
  | Ok (regions, m) => length regions = 1%nat ∧ size m = 1%nat
  | _ => False
  end.
Proof.
  destruct (FboClusters.build_regions sample_repr (sample_clusters ++ sample_clusters))
    as [[regions m]|e|] eqn:Hbuild.
  - destruct (regions_are_numbered sample_repr _ regions m Hbuild) as (_ & Hsize & _).
    rewrite Hsize. assert (length regions = 1%nat) as ->; [|done].
    vm_compute in Hbuild. by injection Hbuild as <- _.
  - vm_compute in Hbuild. discriminate Hbuild.
  - vm_compute in Hbuild. discriminate Hbuild.
Defined.

(** * Failures of the compact stock export *)

Section stock_export_failures.
Context {py_text : PyText}.
Variable py_repr : value → string.






End stock_export_failures.



(** * The rows of the two product tables *)

Section table_rows.
Context {py_text : PyText}.
Variable py_repr : value → string.
Variable float_of_str : string → option float.

(** A loop that appends one built row per element is a map that may fail. *)
Lemma foldl_result_rows {A B} (f : A → result B) l : ∀ acc rows,
  foldl_result (λ acc x, row ← f x; Ok (acc ++ [row])) acc l = Ok rows ↔
  ∃ new, rows = acc ++ new ∧ Forall2 (λ x row, f x = Ok row) l new.
Proof.
  induction l as [|x l IH]; intros acc rows; simpl.
  - split.
    + intros [= <-]. exists []. by rewrite app_nil_r.
    + intros (new & -> & ->%Forall2_nil_inv_l). by rewrite app_nil_r.
  - unfold mbind at 1, result_bind at 1. unfold mbind at 1, result_bind at 1.
    destruct (f x) as [row|e|] eqn:Hx; simpl.
    + rewrite IH. split.
      * intros (new & -> & Hnew). exists (row :: new).
        rewrite <- app_assoc. split; [done|]. by constructor.
      * intros (new & -> & (row' & new' & Hrow & Hnew & ->)%Forall2_cons_inv_l).
        exists new'. rewrite <- app_assoc. split; [|done].
        rewrite Hx in Hrow. by injection Hrow as <-.
    + split; [done|].
      intros (new & _ & (row' & new' & Hrow & _)%Forall2_cons_inv_l).
      by rewrite Hx in Hrow.
    + split; [done|].
      intros (new & _ & (row' & new' & Hrow & _)%Forall2_cons_inv_l).
      by rewrite Hx in Hrow.
Qed.

Lemma normal_unit_raises unit e :
  ExportProductsOzon.normal_unit unit = Raise e ↔
  e = AttributeError ∧ truthy unit = true ∧ ∀ s, unit ≠ VStr s.
Proof.
  unfold ExportProductsOzon.normal_unit, py_or.
  destruct (truthy unit) eqn:Htruthy.
  - destruct unit; split; try (intros [= <-]; by split_and!); try done;
      try (by intros (-> & _ & _)).
    intros (_ & _ & Hs). by destruct (Hs s).
  - split; [done|]. by intros (_ & ? & _).
Qed.

Lemma calc_volume_m3_raises depth width height unit e :
  ExportProductsOzon.calc_volume_m3 float_of_str depth width height unit = Raise e ↔
  (∃ d w h, py_float float_of_str depth = Ok d ∧ py_float float_of_str width = Ok w ∧
            py_float float_of_str height = Ok h) ∧
  ExportProductsOzon.normal_unit unit = Raise e.
Proof.
  unfold ExportProductsOzon.calc_volume_m3. rewrite !to_float_safe_py_float.
  destruct (py_float float_of_str depth) as [d| |];
    [|split; [done|by intros [(? & ? & ? & ? & _) _]]..].
  destruct (py_float float_of_str width) as [w| |];
    [|split; [done|by intros [(? & ? & ? & _ & ? & _) _]]..].
  destruct (py_float float_of_str height) as [h| |];
    [|split; [done|by intros [(? & ? & ? & _ & _ & ?) _]]..].
  unfold mbind, result_bind.
  destruct (ExportProductsOzon.normal_unit unit) as [u|e'|].
  - split; [|by intros [_ ?]]. by repeat case_match.
  - split; [intros [= <-]; split; [by eexists _, _, _|done]|by intros [_ [= <-]]].
  - split; [done|by intros [_ ?]].
Qed.

(** X25. The two product tables hold one row per attribute record, in the
    order of the records.  A record makes its row fail in one case only,
    the same for both tables: its three dimensions are readable as numbers
    and its [dimension_unit] is a truthy value that is no text (the error is
    [AttributeError]); a missing, empty or textual unit never fails. *)
Theorem tables_have_one_row_per_record :
  (∀ fuel out_path w w',
     ExportProductsOzon.export_products_to_json py_repr float_of_str fuel out_path w
       = (Ok tt, w') →
     ∃ product_ids w1 attrs w2 rows,
       ExportProductsOzon.get_all_product_ids py_repr fuel w = (Ok product_ids, w1) ∧
       ExportProductsOzon.get_attributes_by_product_ids product_ids w1 = (Ok attrs, w2) ∧
       Forall2 (λ item row, ExportProductsOzon.product_row float_of_str item = Ok row)
         attrs rows ∧
       w' = with_file w2 out_path
              (Json.dump_indent2 py_repr (VDict [("товары", VList (VDict <$> rows))]))) ∧
  (∀ items out_path w w',
     OzonProductInfo.export_characteristics_ozon py_repr float_of_str items out_path w
       = (Ok tt, w') →
     ∃ rows,
       Forall2 (λ it row, OzonProductInfo.characteristics_row float_of_str it = Ok row)
         items rows ∧
       w' = with_file w out_path
              (Json.dump_indent2 py_repr
                 (VDict [("характеристики_ozon", VList (VDict <$> rows))]))) ∧
  (∀ item e,
     ExportProductsOzon.product_row float_of_str item = Raise e ↔
     OzonProductInfo.characteristics_row float_of_str item = Raise e) ∧
  (∀ item e,
     ExportProductsOzon.product_row float_of_str item = Raise e ↔
     e = AttributeError ∧
     (∃ d w h, py_float float_of_str (get item "depth") = Ok d ∧
               py_float float_of_str (get item "width") = Ok w ∧
               py_float float_of_str (get item "height") = Ok h) ∧
     truthy (get item "dimension_unit") = true ∧
     ∀ s, get item "dimension_unit" ≠ VStr s).
Proof.
  assert (∀ item e,
     ExportProductsOzon.product_row float_of_str item = Raise e ↔
     ExportProductsOzon.calc_volume_m3 float_of_str (get item "depth") (get item "width")
       (get item "height") (py_or (get item "dimension_unit") (VStr "mm")) = Raise e)
    as Hproduct.
  { intros item e. unfold ExportProductsOzon.product_row, mbind, result_bind.
    destruct (ExportProductsOzon.calc_volume_m3 _ _ _ _ _);
      [by split|split; intros [= ->]; done|by split]. }
  assert (∀ item e,
     OzonProductInfo.characteristics_row float_of_str item = Raise e ↔
     ExportProductsOzon.calc_volume_m3 float_of_str (get item "depth") (get item "width")
       (get item "height") (py_or (get item "dimension_unit") (VStr "mm")) = Raise e)
    as Hinfo.
  { intros item e. unfold OzonProductInfo.characteristics_row, mbind, result_bind.
    unfold ExportProductsOzon.calc_volume_m3, OzonProductInfo.calc_volume.
    rewrite !to_float_safe_py_float.
    destruct (py_float float_of_str (get item "depth")),
      (py_float float_of_str (get item "width")),
      (py_float float_of_str (get item "height")); try (by split).
    unfold mbind, result_bind.
    change (OzonProductInfo.normal_unit ?u) with (ExportProductsOzon.normal_unit u).
    destruct (ExportProductsOzon.normal_unit _);
      [|split; intros [= ->]; done|by split].
    repeat case_match; by split. }
  split_and!.
  - intros fuel out_path w w'. unfold ExportProductsOzon.export_products_to_json.
    intros (product_ids & w1 & Hids & (attrs & w2 & Hattrs & H)%bind_ok_inv)%bind_ok_inv.
    apply bind_ok_inv in H as (rows & w3 & [Hrows ->]%lift_ok_inv & H).
    apply bind_ok_inv in H as ([] & w4 & Hopen & H).
    rewrite file_open_w_with_file in Hopen. injection Hopen as <-.
    rewrite (file_write_after _ _ "" _ (with_file_lookup _ _ _)) in H.
    injection H as <-. rewrite with_file_with_file.
    apply foldl_result_rows in Hrows as (new & -> & Hnew).
    by exists product_ids, w1, attrs, w2, new.
  - intros items out_path w w'. unfold OzonProductInfo.export_characteristics_ozon.
    intros (rows & w3 & [Hrows ->]%lift_ok_inv & H)%bind_ok_inv.
    apply bind_ok_inv in H as ([] & w4 & Hopen & H).
    rewrite file_open_w_with_file in Hopen. injection Hopen as <-.
    rewrite (file_write_after _ _ "" _ (with_file_lookup _ _ _)) in H.
    injection H as <-. rewrite with_file_with_file.
    apply foldl_result_rows in Hrows as (new & -> & Hnew).
    by exists new.
  - intros item e. by rewrite Hproduct, Hinfo.
  - intros item e. rewrite Hproduct, calc_volume_m3_raises, normal_unit_raises.
    unfold py_or. destruct (truthy (get item "dimension_unit")) eqn:Hunit.
    + tauto.
    + split; [|by intros (_ & _ & ? & _)].
      intros (_ & _ & _ & Hs). by destruct (Hs "mm").
Qed.

End table_rows.

(** * The table exports write last *)

Section table_exports_last.
Context {py_text : PyText}.
Variable py_repr : value → string.
Variable float_of_str : string → option float.

Lemma foldl_result_rows_raise {A B} (f : A → result B) before x after e : ∀ acc,
  Forall (λ y, ∃ row, f y = Ok row) before →
  f x = Raise e →
  foldl_result (λ acc x, row ← f x; Ok (acc ++ [row])) acc (before ++ x :: after)
    = Raise e.
Proof.
  induction before as [|y before IH]; intros acc Hbefore Hx; cbn [app foldl_result].
  - unfold mbind at 1 2, result_bind at 1 2. by rewrite Hx.
  - apply Forall_cons in Hbefore as [[row Hy] Hbefore].
    unfold mbind at 1 2, result_bind at 1 2. rewrite Hy. by apply IH.
Qed.

(** X16. The two table exports touch their file last.  When the listing of
    the identifiers fails, when the fetching of the attributes fails, or
    when the row of a record fails after the rows of the records before it
    were built, the export ends with that error, in the state that this
    failure left, and no file has been changed: the file of a previous
    export is still there. *)
Theorem table_exports_write_last fuel out_path w :
  (∀ e w1,
     ExportProductsOzon.get_all_product_ids py_repr fuel w = (Raise e, w1) →
     ExportProductsOzon.export_products_to_json py_repr float_of_str fuel out_path w
       = (Raise e, w1) ∧
     OzonProductInfo.main py_repr float_of_str fuel w = (Raise e, w1) ∧
     files w1 = files w) ∧
  (∀ product_ids w1 e w2,
     ExportProductsOzon.get_all_product_ids py_repr fuel w = (Ok product_ids, w1) →
     (ExportProductsOzon.get_attributes_by_product_ids product_ids w1 = (Raise e, w2) →
      ExportProductsOzon.export_products_to_json py_repr float_of_str fuel out_path w
        = (Raise e, w2) ∧ files w2 = files w) ∧
     (OzonProductInfo.get_attributes product_ids w1 = (Raise e, w2) →
      OzonProductInfo.main py_repr float_of_str fuel w = (Raise e, w2) ∧
      files w2 = files w)) ∧
  (∀ product_ids w1 before item after w2 e,
     ExportProductsOzon.get_all_product_ids py_repr fuel w = (Ok product_ids, w1) →
     (ExportProductsOzon.get_attributes_by_product_ids product_ids w1
        = (Ok (before ++ item :: after), w2) →
      Forall (λ it, ∃ row, ExportProductsOzon.product_row float_of_str it = Ok row)
        before →
      ExportProductsOzon.product_row float_of_str item = Raise e →
      ExportProductsOzon.export_products_to_json py_repr float_of_str fuel out_path w
        = (Raise e, w2) ∧ files w2 = files w) ∧
     (OzonProductInfo.get_attributes product_ids w1 = (Ok (before ++ item :: after), w2) →
      Forall (λ it, ∃ row, OzonProductInfo.characteristics_row float_of_str it = Ok row)
        before →
      OzonProductInfo.characteristics_row float_of_str item = Raise e →
      OzonProductInfo.main py_repr float_of_str fuel w = (Raise e, w2) ∧
      files w2 = files w)).
Proof.
  assert (∀ r w1, ExportProductsOzon.get_all_product_ids py_repr fuel w = (r, w1) →
                  files w1 = files w) as Hids_files.
  { intros r w1 Hids.
    pose proof (keeps_nil _ w (keeps_export_collector py_repr [] fuel "" [])) as Hkeep.
    unfold ExportProductsOzon.get_all_product_ids in Hids. by rewrite Hids in Hkeep. }
  assert (∀ ids r w1 w2,
            ExportProductsOzon.get_attributes_by_product_ids ids w1 = (r, w2) →
            files w2 = files w1) as Hexport_files.
  { intros ids r w1 w2 Hattrs.
    pose proof (keeps_nil _ w1 (keeps_export_attributes [] ids)) as Hkeep.
    by rewrite Hattrs in Hkeep. }
  assert (∀ ids r w1 w2,
            OzonProductInfo.get_attributes ids w1 = (r, w2) →
            files w2 = files w1) as Hinfo_files.
  { intros ids r w1 w2 Hattrs.
    pose proof (keeps_nil _ w1 (keeps_info_attributes [] ids)) as Hkeep.
    by rewrite Hattrs in Hkeep. }
  split_and!.
  - intros e w1 Hids. split_and!; [| |by eapply Hids_files].
    + unfold ExportProductsOzon.export_products_to_json. by apply bind_raise.
    + unfold OzonProductInfo.main, OzonProductInfo.get_all_product_ids.
      by apply bind_raise.
  - intros product_ids w1 e w2 Hids. split; intros Hattrs.
    + split.
      * unfold ExportProductsOzon.export_products_to_json.
        rewrite (bind_ok _ _ _ _ _ Hids). by apply bind_raise.
      * rewrite (Hexport_files _ _ _ _ Hattrs). by eapply Hids_files.
    + split.
      * unfold OzonProductInfo.main, OzonProductInfo.get_all_product_ids.
        rewrite (bind_ok _ _ _ _ _ Hids). by apply bind_raise.
      * rewrite (Hinfo_files _ _ _ _ Hattrs). by eapply Hids_files.
  - intros product_ids w1 before item after w2 e Hids. split; intros Hattrs Hbefore Hitem.
    + split.
      * unfold ExportProductsOzon.export_products_to_json.
        rewrite (bind_ok _ _ _ _ _ Hids), (bind_ok _ _ _ _ _ Hattrs).
        apply bind_raise. unfold lift.
        by rewrite (foldl_result_rows_raise _ _ _ _ _ _ Hbefore Hitem).
      * rewrite (Hexport_files _ _ _ _ Hattrs). by eapply Hids_files.
    + split.
      * unfold OzonProductInfo.main, OzonProductInfo.get_all_product_ids,
          OzonProductInfo.export_characteristics_ozon.
        rewrite (bind_ok _ _ _ _ _ Hids), (bind_ok _ _ _ _ _ Hattrs).
        apply bind_raise. unfold lift.
        by rewrite (foldl_result_rows_raise _ _ _ _ _ _ Hbefore Hitem).
      * rewrite (Hinfo_files _ _ _ _ Hattrs). by eapply Hids_files.
Qed.

End table_exports_last.

Lemma table_exports_write_last_witness :
  let w := with_file (scripted []) "товары.json" "previous" in
  ExportProductsOzon.export_products_to_json sample_repr (λ _, None) 1 "товары.json" w
    = (Raise RequestException,
       (ExportProductsOzon.get_all_product_ids sample_repr 1 w).2) ∧
  files (ExportProductsOzon.get_all_product_ids sample_repr 1 w).2 !! "товары.json"
    = Some "previous".
Proof.
  intros w.
  destruct (proj1 (table_exports_write_last sample_repr (λ _, None) 1 "товары.json" w)
              RequestException (ExportProductsOzon.get_all_product_ids sample_repr 1 w).2
              eq_refl) as (Hexport & _ & Hfiles).
  split; [exact Hexport|]. rewrite Hfiles. apply with_file_lookup.
Defined.

(** * The requests made for the attributes *)

Section attribute_requests.
Context {py_text : PyText}.
Variable py_repr : value → string.

Lemma post_ozon_sent path payload retries w :
  (0 < retries)%nat →
  ∃ n, (1 ≤ n ≤ retries)%nat ∧
       sent (post_ozon path payload retries w).2 = replicate n (path, payload) ++ sent w.
Proof.
  intros Hretries.
  destruct (post_attempts_outcome path payload retries retries 1 w)
    as (n & k & Hn & _ & Hw & _ & Hpos).
  exists n. split; [specialize (Hpos Hretries); lia|].
  unfold post_ozon. by rewrite Hw.
Qed.

Lemma batch_requests_cons {A} path (payload_of : list A → value) batch batches n tries :
  batch_requests path payload_of (batch :: batches) (n :: tries) =
  replicate n (path, payload_of batch) ++ batch_requests path payload_of batches tries.
Proof. reflexivity. Qed.

Lemma sku_meta_batches_sent batches : ∀ sku_meta w found w',
  StockOzon.sku_meta_batches py_repr batches sku_meta w = (Ok found, w') →
  ∃ tries,
    Forall2 (λ _ n, 1 ≤ n ≤ StockOzon.default_retries)%nat batches tries ∧
    reverse (sent w') =
    reverse (sent w) ++
    batch_requests "/v4/product/info/attributes" StockOzon.attributes_payload batches tries.
Proof.
  induction batches as [|batch batches IH]; intros sku_meta w found w'.
  - intros [_ ->]%mret_ok_inv. exists []. split; [constructor|].
    by rewrite app_nil_r.
  - cbn [StockOzon.sku_meta_batches].
    intros (data & w1 & Hpost & Hrest)%bind_ok_inv.
    apply bind_ok_inv in Hrest as (sku_meta' & w2 & [_ ->]%lift_ok_inv & Hrest).
    destruct (post_ozon_sent "/v4/product/info/attributes"
                (StockOzon.attributes_payload batch) StockOzon.default_retries w)
      as (n & Hn & Hsent); [unfold StockOzon.default_retries; lia|].
    rewrite Hpost in Hsent. cbn [snd] in Hsent.
    destruct (IH _ _ _ _ Hrest) as (tries & Htries & Hlog).
    exists (n :: tries). split; [by constructor|].
    rewrite Hlog, Hsent, reverse_app, reverse_replicate, batch_requests_cons.
    by rewrite <- !app_assoc.
Qed.

Lemma export_attributes_sent batches : ∀ all_items w found w',
  ExportProductsOzon.attributes_batches batches all_items w = (Ok found, w') →
  ∃ tries,
    Forall2 (λ _ n, 1 ≤ n ≤ ExportProductsOzon.default_retries)%nat batches tries ∧
    reverse (sent w') =
    reverse (sent w) ++
    batch_requests "/v4/product/info/attributes" ExportProductsOzon.attributes_payload
      batches tries.
Proof.
  induction batches as [|batch batches IH]; intros all_items w found w'.
  - intros [_ ->]%mret_ok_inv. exists []. split; [constructor|].
    by rewrite app_nil_r.
  - cbn [ExportProductsOzon.attributes_batches].
    intros (data & w1 & Hpost & Hrest)%bind_ok_inv.
    destruct (post_ozon_sent "/v4/product/info/attributes"
                (ExportProductsOzon.attributes_payload batch)
                ExportProductsOzon.default_retries w)
      as (n & Hn & Hsent); [unfold ExportProductsOzon.default_retries; lia|].
    rewrite Hpost in Hsent. cbn [snd] in Hsent.
    destruct (IH _ _ _ _ Hrest) as (tries & Htries & Hlog).
    exists (n :: tries). split; [by constructor|].
    rewrite Hlog, Hsent, reverse_app, reverse_replicate, batch_requests_cons.
    by rewrite <- !app_assoc.
Qed.

Lemma info_attributes_sent batches : ∀ all_items w found w',
  OzonProductInfo.attributes_batches batches all_items w = (Ok found, w') →
  ∃ tries,
    Forall2 (λ _ n, 1 ≤ n ≤ OzonProductInfo.default_retries)%nat batches tries ∧
    reverse (sent w') =
    reverse (sent w) ++
    batch_requests "/v4/product/info/attributes" ExportProductsOzon.attributes_payload
      batches tries.
Proof.
  induction batches as [|batch batches IH]; intros all_items w found w'.
  - intros [_ ->]%mret_ok_inv. exists []. split; [constructor|].
    by rewrite app_nil_r.
  - cbn [OzonProductInfo.attributes_batches].
    intros (data & w1 & Hpost & Hrest)%bind_ok_inv.
    destruct (post_ozon_sent "/v4/product/info/attributes"
                (ExportProductsOzon.attributes_payload batch)
                OzonProductInfo.default_retries w)
      as (n & Hn & Hsent); [unfold OzonProductInfo.default_retries; lia|].
    rewrite Hpost in Hsent. cbn [snd] in Hsent.
    destruct (IH _ _ _ _ Hrest) as (tries & Htries & Hlog).
    exists (n :: tries). split; [by constructor|].
    rewrite Hlog, Hsent, reverse_app, reverse_replicate, batch_requests_cons.
    by rewrite <- !app_assoc.
Qed.

(** X26. The attributes are asked for batch by batch and for nothing else.
    When one of the three fetchers returns, the requests it has added to
    the log are, oldest first, those of the batches of [chunked(ids, 1000)]
    in order: each batch is posted to [/v4/product/info/attributes] with
    its own identifiers and with [limit] set to its length, once or, after
    transient replies, up to the number of attempts allowed (6 in
    stock_ozon.py, 5 in the two others). *)
Theorem attributes_requested_by_batches product_ids :
  ∃ batches,
    chunked product_ids 1000 = Ok batches ∧
    (∀ batch, batch ∈ batches →
       get_attr (StockOzon.attributes_payload batch) "limit"
         = Ok (VInt (Z.of_nat (length batch))) ∧
       (length batch ≤ 1000)%nat) ∧
    (∀ w found w',
       StockOzon.get_sku_meta_by_product_ids py_repr product_ids w = (Ok found, w') →
       ∃ tries,
         Forall2 (λ _ n, 1 ≤ n ≤ 6)%nat batches tries ∧
         reverse (sent w') =
         reverse (sent w) ++
         batch_requests "/v4/product/info/attributes" StockOzon.attributes_payload
           batches tries) ∧
    (∀ w found w',
       ExportProductsOzon.get_attributes_by_product_ids product_ids w = (Ok found, w') →
       ∃ tries,
         Forall2 (λ _ n, 1 ≤ n ≤ 5)%nat batches tries ∧
         reverse (sent w') =
         reverse (sent w) ++
         batch_requests "/v4/product/info/attributes"
           ExportProductsOzon.attributes_payload batches tries) ∧
    (∀ w found w',
       OzonProductInfo.get_attributes product_ids w = (Ok found, w') →
       ∃ tries,
         Forall2 (λ _ n, 1 ≤ n ≤ 5)%nat batches tries ∧
         reverse (sent w') =
         reverse (sent w) ++
         batch_requests "/v4/product/info/attributes"
           ExportProductsOzon.attributes_payload batches tries).
Proof.
  exists ((λ i, take 1000 (drop i product_ids)) <$> range_step (length product_ids) 1000).
  split_and!.
  - reflexivity.
  - intros batch (i & -> & _)%list_elem_of_fmap. split; [reflexivity|].
    rewrite length_take. lia.
  - intros w found w'. unfold StockOzon.get_sku_meta_by_product_ids.
    intros (batches & w1 & [[= <-] ->]%lift_ok_inv & Hrun)%bind_ok_inv.
    apply (sku_meta_batches_sent _ _ _ _ _ Hrun).
  - intros w found w'. unfold ExportProductsOzon.get_attributes_by_product_ids.
    intros (batches & w1 & [[= <-] ->]%lift_ok_inv & Hrun)%bind_ok_inv.
    apply (export_attributes_sent _ _ _ _ _ Hrun).
  - intros w found w'. unfold OzonProductInfo.get_attributes.
    intros (batches & w1 & [[= <-] ->]%lift_ok_inv & Hrun)%bind_ok_inv.
    apply (info_attributes_sent _ _ _ _ _ Hrun).
Qed.

End attribute_requests.

Lemma no_warehouse_key_no_rows_witness :
  FboClusters.build_warehouses sample_repr
    [[("id", VInt 1); ("name", VStr "Msk");
      ("stores", VList [VDict [("id", VInt 10); ("name", VStr "W10")]])]]
    {["1" := 1]} ∅ = [].
Proof.
  apply (proj2 (no_warehouse_key_no_rows sample_repr)).
  repeat constructor.
Defined.


Lemma attributes_requested_by_batches_witness :
  ∃ tries,
    reverse (sent (StockOzon.get_sku_meta_by_product_ids sample_repr ["1"; "2"]
                     (StockOzon.get_all_product_ids sample_repr 2 sample_pipeline).2).2)
    = reverse (sent (StockOzon.get_all_product_ids sample_repr 2 sample_pipeline).2)
      ++ batch_requests "/v4/product/info/attributes" StockOzon.attributes_payload
           [["1"; "2"]] tries.
Proof.
  destruct (attributes_requested_by_batches sample_repr ["1"; "2"])
    as (batches & Hbatches & _ & Hstock & _).
  injection Hbatches as <-.
  set (w1 := (StockOzon.get_all_product_ids sample_repr 2 sample_pipeline).2).
  set (found := StockOzon.get_sku_meta_by_product_ids sample_repr ["1"; "2"] w1).
  set (sku_meta := match found.1 with Ok m => m | _ => ∅ end).
  assert (found = (Ok sku_meta, found.2)) as Hmeta by (vm_compute; reflexivity).
  destruct (Hstock w1 sku_meta found.2 Hmeta) as (tries & _ & Hlog).
  by exists tries.
Defined.
